(** * trading_bot.py: the signed request client and the TWAP slice loop

    A shallow embedding of [BasicBot] (request signing, the signed HTTP call,
    the order builders, [place_twap]) and of the command line's
    [validate_args] / [main], with the properties of the design document
    stated over it.

    Conventions of the embedding.
    - A Python [str] is a Rocq [string] holding its UTF-8 bytes; [upper] and
      [lower] act on ASCII letters.
    - A Python [float] is a binary64 value, [spec_float] with [prec = 53] and
      [emax = 1024].
    - A [dict] is an insertion-ordered association list with unique keys;
      dict objects live in a heap and are passed by reference.
    - Effects (heap, clock, HTTP session, logger, [time.sleep], [print]) are
      threaded through a state-and-exception monad [M]; the exchange and the
      clock are oracles indexed by the number of earlier calls. *)

From Stdlib Require Import ZArith List String Ascii Bool Lia.
From Stdlib Require Import QArith Qabs Qpower Lqa.
From Stdlib Require Import FunctionalExtensionality.
From Stdlib Require Import Floats.SpecFloat.
From Stdlib Require Import DecimalString.
Import ListNotations.

Local Open Scope string_scope.
Local Open Scope Z_scope.

(** ** Python values *)

Definition float := spec_float.

Definition prec64 : Z := 53.
Definition emax64 : Z := 1024.

(** The values a request parameter holds: [str] everywhere, and the [int]
    timestamp. *)
Inductive value :=
  | VStr (s : string)
  | VInt (n : Z).

Definition dict := list (string * value).

#[local] Set Warnings "-register-all".

(** Decoded JSON, the payload of a successful call; the [{'error': ...}]
    entries of the TWAP log are objects of the same type. *)
Inductive json :=
  | JNull
  | JBool (b : bool)
  | JNum (repr : string)
  | JStr (s : string)
  | JArr (items : list json)
  | JObj (fields : list (string * json)).

Module PyStr.

Definition is_upper_ascii (c : ascii) : bool :=
  let n := nat_of_ascii c in (Nat.leb 65 n && Nat.leb n 90)%bool.

Definition is_lower_ascii (c : ascii) : bool :=
  let n := nat_of_ascii c in (Nat.leb 97 n && Nat.leb n 122)%bool.

Definition is_digit_ascii (c : ascii) : bool :=
  let n := nat_of_ascii c in (Nat.leb 48 n && Nat.leb n 57)%bool.

Definition upper_ascii (c : ascii) : ascii :=
  if is_lower_ascii c then ascii_of_nat (nat_of_ascii c - 32) else c.

Definition lower_ascii (c : ascii) : ascii :=
  if is_upper_ascii c then ascii_of_nat (nat_of_ascii c + 32) else c.

Fixpoint map_chars (f : ascii -> ascii) (s : string) : string :=
  match s with
  | EmptyString => EmptyString
  | String c r => String (f c) (map_chars f r)
  end.

(** [s.upper()], [s.lower()] *)
Definition upper (s : string) : string := map_chars upper_ascii s.
Definition lower (s : string) : string := map_chars lower_ascii s.

(** [str(n)] for an [int] *)
Definition str_int (n : Z) : string := NilZero.string_of_int (Z.to_int n).

(** [str(b)] for a [bool] *)
Definition str_bool (b : bool) : string := if b then "True" else "False".

Fixpoint rev_string (acc s : string) : string :=
  match s with
  | EmptyString => acc
  | String c r => rev_string (String c acc) r
  end.

Fixpoint lstrip_char (c : ascii) (s : string) : string :=
  match s with
  | EmptyString => EmptyString
  | String d r => if Ascii.eqb c d then lstrip_char c r else s
  end.

(** [s.rstrip(c)] for a one-character [c] *)
Definition rstrip_char (c : ascii) (s : string) : string :=
  rev_string "" (lstrip_char c (rev_string "" s)).

(** [sub in s] *)
Fixpoint contains (sub s : string) : bool :=
  (String.prefix sub s ||
   match s with
   | EmptyString => false
   | String _ r => contains sub r
   end)%bool.

End PyStr.

(** ** [urllib.parse.urlencode] *)

Module Url.

Definition always_safe (c : ascii) : bool :=
  (PyStr.is_upper_ascii c || PyStr.is_lower_ascii c || PyStr.is_digit_ascii c
   || Ascii.eqb c "_" || Ascii.eqb c "." || Ascii.eqb c "-" || Ascii.eqb c "~")%bool.

Definition hex_digit (n : nat) : ascii :=
  if Nat.ltb n 10 then ascii_of_nat (48 + n) else ascii_of_nat (55 + n).

(** One byte of [quote_plus]: kept, [' '] as ['+'], or [%XX]. *)
Definition quote_byte (c : ascii) : string :=
  if always_safe c then String c ""
  else if Ascii.eqb c " " then "+"
  else let n := nat_of_ascii c in
       String "%" (String (hex_digit (Nat.div n 16)) (String (hex_digit (Nat.modulo n 16)) "")).

Fixpoint quote_plus (s : string) : string :=
  match s with
  | EmptyString => ""
  | String c r => quote_byte c ++ quote_plus r
  end.

Definition value_str (v : value) : string :=
  match v with
  | VStr s => s
  | VInt n => PyStr.str_int n
  end.

Definition encode_item (kv : string * value) : string :=
  quote_plus (fst kv) ++ "=" ++ quote_plus (value_str (snd kv)).

(** [urlencode(params)]: the items in the mapping's order, joined by ['&']. *)
Definition urlencode (params : dict) : string :=
  String.concat "&" (map encode_item params).

End Url.

(** ** Ordered dictionaries *)

Module Dict.

Fixpoint get (k : string) (d : dict) : option value :=
  match d with
  | [] => None
  | (k', v) :: r => if String.eqb k k' then Some v else get k r
  end.

Definition mem (k : string) (d : dict) : bool :=
  match get k d with Some _ => true | None => false end.

(** [d[k] = v]: an existing key keeps its position, a new key goes last. *)
Fixpoint set (k : string) (v : value) (d : dict) : dict :=
  match d with
  | [] => [(k, v)]
  | (k', v') :: r =>
      if String.eqb k k' then (k', v) :: r else (k', v') :: set k v r
  end.

Definition keys (d : dict) : list string := map fst d.

(** Truth value of a dict: non-empty. *)
Definition truthy (d : dict) : bool :=
  match d with [] => false | _ => true end.

End Dict.

(** ** binary64 arithmetic used by the bot *)

Module PyFloat.

Definition zero : float := S754_zero false.

(** [float(n)] for an [int]: round to nearest, ties to even; an infinite
    result is Python's [OverflowError]. *)
Definition of_int (n : Z) : float := binary_normalize prec64 emax64 n 0 false.

Definition is_zero (x : float) : bool :=
  match x with S754_zero _ => true | _ => false end.

Definition is_infinite (x : float) : bool :=
  match x with S754_infinity _ => true | _ => false end.

(** [x <= y] *)
Definition le (x y : float) : bool := SFleb x y.

Definition div (x y : float) : float := SFdiv prec64 emax64 x y.

(** [num / den] rounded to the nearest integer, ties to even ([den > 0]). *)
Definition div_half_even (num den : Z) : Z :=
  let q := num / den in
  match 2 * (num mod den) ?= den with
  | Lt => q
  | Gt => q + 1
  | Eq => if Z.even q then q else q + 1
  end.

Definition pow10_8 : positive := 100000000.

(** The integer [n] with [n / 10^8] the decimal of 8 places nearest to
    [m * 2^e] (CPython's [_Py_dg_dtoa] in mode 3). *)
Definition scaled8 (m : positive) (e : Z) : Z :=
  div_half_even (Zpos m * Zpos pow10_8 * 2 ^ Z.max e 0) (2 ^ Z.max (- e) 0).

(** [round(x, 8)]: the decimal of 8 places nearest to [x] (ties to even on
    the exact binary value), then the binary64 nearest to that decimal.
    Infinities and NaN round to themselves.  CPython raises
    [OverflowError] when the result is infinite, which 8 digits never
    produce from a finite float. *)
Definition round8 (x : float) : float :=
  match x with
  | S754_finite s m e =>
      match scaled8 m e with
      | Zpos n => div (S754_finite s n 0) (S754_finite false pow10_8 0)
      | _ => S754_zero s
      end
  | _ => x
  end.

(** *** Exact values

    [to_Q x] is the rational a finite float stands for; [magnitude] is
    its absolute value and [sign] its sign bit. *)

Definition pow2 (e : Z) : Q := Qpower 2 e.

Definition magnitude (x : float) : Q :=
  match x with
  | S754_finite _ m e => inject_Z (Zpos m) * pow2 e
  | _ => 0
  end.

Definition sign (x : float) : bool :=
  match x with
  | S754_zero s | S754_infinity s | S754_finite s _ _ => s
  | S754_nan => false
  end.

(** [math.isfinite(x)] *)
Definition is_finite (x : float) : bool :=
  match x with
  | S754_zero _ | S754_finite _ _ _ => true
  | _ => false
  end.

Definition to_Q (x : float) : Q :=
  if sign x then (- magnitude x)%Q else magnitude x.

Definition fexp64 (e : Z) : Z := fexp prec64 emax64 e.

(** [rec_ok T b r]: the shift record [r] (mantissa, round bit, sticky
    bit) locates the fraction [T / b]: the mantissa is its floor, the
    round bit says whether the remainder reaches one half, the sticky bit
    whether it is neither zero nor one half. *)
Definition rec_ok (T b : Z) (r : shr_record) : Prop :=
  0 < b /\ 0 <= shr_m r /\
  let a := T - shr_m r * b in
  0 <= a < b /\
  shr_r r = (b <=? 2 * a) /\
  shr_s r = negb ((a =? 0) || (2 * a =? b)).

End PyFloat.

(** ** Exceptions, the outside world and the effect monad *)

(** [requests.Response], as far as the bot reads it. *)
Record response := {
  resp_status_code : Z;
  resp_reason : string;
  resp_text : string;
  resp_url : string
}.

(** Failures of the HTTP exchange itself, all subclasses of
    [requests.exceptions.RequestException]. *)
Inductive transport_kind := ConnectionError | Timeout | TooManyRedirects.

Inductive exn :=
  | ValueError (msg : string)
  | OverflowError (msg : string)
  | ZeroDivisionError (msg : string)
  | SystemExit (msg : string)
  | TransportError (k : transport_kind) (msg : string)
  | HTTPError (msg : string) (resp : response)
  | JSONDecodeError (msg : string).

(** [str(e)] *)
Definition exn_str (e : exn) : string :=
  match e with
  | ValueError m | OverflowError m | ZeroDivisionError m | SystemExit m
  | TransportError _ m | HTTPError m _ | JSONDecodeError m => m
  end.

(** [isinstance(e, Exception)]: everything but [SystemExit]. *)
Definition is_Exception (e : exn) : bool :=
  match e with SystemExit _ => false | _ => true end.

(** [isinstance(e, requests.exceptions.RequestException)] *)
Definition is_RequestException (e : exn) : bool :=
  match e with
  | TransportError _ _ | HTTPError _ _ | JSONDecodeError _ => true
  | _ => false
  end.

Definition is_SystemExit (e : exn) : bool :=
  match e with SystemExit _ => true | _ => false end.

Record http_request := {
  req_method : string;
  req_url : string;
  req_headers : list (string * string);
  req_timeout : Z
}.

Inductive http_outcome :=
  | Failed (k : transport_kind) (msg : string)
  | Answered (r : response).

Inductive level := INFO | ERROR.

(** What an observer outside the process sees, in order. *)
Inductive event :=
  | EvLog (lvl : level) (msg : string) (exc_info : option exn)
  | EvHttp (req : http_request)
  | EvSleep (secs : float)
  | EvPrint (line : string).

(** The exchange and the clock: the [n]-th HTTP call gets
    [exchange n request], the [n]-th clock reading is
    [clock n = int(time.time() * 1000)]. *)
Record env := {
  clock : nat -> Z;
  exchange : nat -> http_request -> http_outcome
}.

(** Library functions the bot calls and the model leaves open. *)
Class Runtime := {
  (** [str(x)] for a float *)
  float_repr : float -> string;
  (** [hmac.new(key, msg, hashlib.sha256).hexdigest()] *)
  hmac_sha256_hexdigest : string -> string -> string;
  (** [json.loads]: the decoded body, or the decoder's error message *)
  json_loads : string -> string + json;
  (** [str(v)] for a decoded payload *)
  json_repr : json -> string;
  (** the exception [time.sleep] raises on this argument, if any *)
  sleep_error : float -> option exn
}.

Definition ref := nat.

Record world := {
  heap : list dict;
  clock_reads : nat;
  http_calls : nat;
  events : list event
}.

Definition initial_world : world :=
  {| heap := []; clock_reads := 0; http_calls := 0; events := [] |}.

Definition M (A : Type) : Type := world -> (exn + A) * world.

Definition ret {A} (a : A) : M A := fun w => (inr a, w).

Definition raise {A} (e : exn) : M A := fun w => (inl e, w).

Definition bind {A B} (m : M A) (f : A -> M B) : M B :=
  fun w =>
    match m w with
    | (inr a, w') => f a w'
    | (inl e, w') => (inl e, w')
    end.

(** [try: m  except <class> as e: handler e] *)
Definition try_except {A} (m : M A) (class : exn -> bool) (handler : exn -> M A) : M A :=
  fun w =>
    match m w with
    | (inl e, w') => if class e then handler e w' else (inl e, w')
    | r => r
    end.

Declare Scope monad_scope.
Delimit Scope monad_scope with monad.
Notation "x <- c1 ;; c2" := (bind c1 (fun x => c2))
  (at level 61, c1 at next level, right associativity) : monad_scope.
Notation "c1 ;; c2" := (bind c1 (fun _ => c2))
  (at level 61, right associativity) : monad_scope.
Local Open Scope monad_scope.

Definition lift {A} (r : exn + A) : M A := fun w => (r, w).

Definition emit (e : event) : M unit :=
  fun w => (inr tt, {| heap := heap w; clock_reads := clock_reads w;
                       http_calls := http_calls w; events := (events w ++ [e])%list |}).

(** A new dict object. *)
Definition alloc (d : dict) : M ref :=
  fun w => (inr (List.length (heap w)),
            {| heap := (heap w ++ [d])%list; clock_reads := clock_reads w;
               http_calls := http_calls w; events := events w |}).

Definition lookup (h : list dict) (r : ref) : dict := nth r h [].

Fixpoint update (h : list dict) (r : ref) (d : dict) : list dict :=
  match h, r with
  | [], _ => []
  | _ :: t, O => d :: t
  | x :: t, S r' => x :: update t r' d
  end.

Definition deref (r : ref) : M dict := fun w => (inr (lookup (heap w) r), w).

(** [obj[k] = v] on the dict object [r] *)
Definition setitem (r : ref) (k : string) (v : value) : M unit :=
  fun w => (inr tt,
            {| heap := update (heap w) r (Dict.set k v (lookup (heap w) r));
               clock_reads := clock_reads w; http_calls := http_calls w;
               events := events w |}).

Definition logger_info (msg : string) : M unit := emit (EvLog INFO msg None).
Definition logger_error (msg : string) : M unit := emit (EvLog ERROR msg None).
(** [logger.exception]: level ERROR, with the exception being handled. *)
Definition logger_exception (msg : string) (e : exn) : M unit :=
  emit (EvLog ERROR msg (Some e)).
Definition print (line : string) : M unit := emit (EvPrint line).

(** [x / n] for a float [x] and an int [n]: [n] is converted first. *)
Definition float_truediv_int (x : float) (n : Z) : exn + float :=
  let y := PyFloat.of_int n in
  if PyFloat.is_infinite y then inl (OverflowError "int too large to convert to float")
  else if PyFloat.is_zero y then inl (ZeroDivisionError "float division by zero")
  else inr (PyFloat.div x y).

(** ** The bot *)

Definition DEFAULT_TESTNET_BASE : string := "https://testnet.binancefuture.com".

Record BasicBot := {
  api_key : string;
  api_secret : string;
  base_url : string;
  session_headers : list (string * string)
}.

(** [parse_args()]: the namespace argparse hands to [validate_args] and
    [main]. *)
Record args := {
  arg_api_key : option string;
  arg_api_secret : option string;
  arg_base_url : string;
  arg_symbol : string;
  arg_side : string;
  arg_type : string;
  arg_quantity : float;
  arg_price : option float;
  arg_stop_price : option float;
  arg_time_in_force : string;
  arg_twap_slices : Z;
  arg_twap_interval : float
}.

Section Bot.

Context {RT : Runtime} (E : env).

(** [int(time.time() * 1000)] *)
Definition now_ms : M Z :=
  fun w => (inr (clock E (clock_reads w)),
            {| heap := heap w; clock_reads := S (clock_reads w);
               http_calls := http_calls w; events := events w |}).

(** [session.post(url, timeout=...)] / [session.get(url, timeout=...)] *)
Definition session_request (bot : BasicBot) (method url : string) (timeout : Z)
  : M response :=
  fun w =>
    let req := {| req_method := method; req_url := url;
                  req_headers := session_headers bot; req_timeout := timeout |} in
    let w' := {| heap := heap w; clock_reads := clock_reads w;
                 http_calls := S (http_calls w);
                 events := (events w ++ [EvHttp req])%list |} in
    match exchange E (http_calls w) req with
    | Failed k msg => (inl (TransportError k msg), w')
    | Answered r => (inr r, w')
    end.

(** [time.sleep(secs)] *)
Definition sleep (secs : float) : M unit :=
  match sleep_error secs with
  | Some e => raise e
  | None => emit (EvSleep secs)
  end.

(** [response.raise_for_status()] *)
Definition raise_for_status (r : response) : M unit :=
  let code := resp_status_code r in
  if ((400 <=? code) && (code <? 500))%bool then
    raise (HTTPError (PyStr.str_int code ++ " Client Error: " ++ resp_reason r
                      ++ " for url: " ++ resp_url r) r)
  else if ((500 <=? code) && (code <? 600))%bool then
    raise (HTTPError (PyStr.str_int code ++ " Server Error: " ++ resp_reason r
                      ++ " for url: " ++ resp_url r) r)
  else ret tt.

(** [response.json()] *)
Definition response_json (r : response) : M json :=
  match json_loads (resp_text r) with
  | inl msg => raise (JSONDecodeError msg)
  | inr v => ret v
  end.

Definition __init__ (key secret base : string) : M BasicBot :=
  let bot := {| api_key := key;
                api_secret := secret;
                base_url := PyStr.rstrip_char "/" base;
                session_headers := [("X-MBX-APIKEY", key)] |} in
  logger_info ("BasicBot initialized with base_url=" ++ base_url bot) ;;
  ret bot.

Definition _sign_payload (bot : BasicBot) (params : dict) : string :=
  let query := Url.urlencode params in
  let signature := hmac_sha256_hexdigest (api_secret bot) query in
  query ++ "&signature=" ++ signature.

(** [params or {}]: the caller's dict object when it is given and
    non-empty, a new empty dict otherwise. *)
Definition params_or_new (params : option ref) : M ref :=
  match params with
  | Some r => d <- deref r ;; if Dict.truthy d then ret r else alloc []
  | None => alloc []
  end.

Definition _send_signed_request (bot : BasicBot) (method path : string)
    (params : option ref) : M json :=
  p <- params_or_new params ;;
  ts <- now_ms ;;
  setitem p "timestamp" (VInt ts) ;;
  d <- deref p ;;
  let signed_query := _sign_payload bot d in
  let url := base_url bot ++ path in
  logger_info ("REQUEST -> " ++ PyStr.upper method ++ " " ++ url ++ "?" ++ signed_query) ;;
  try_except
    (response <-
       (if String.eqb (PyStr.upper method) "POST" then
          session_request bot "POST" (url ++ "?" ++ signed_query) 10
        else if String.eqb (PyStr.upper method) "GET" then
          session_request bot "GET" (url ++ "?" ++ signed_query) 10
        else raise (ValueError ("Unsupported HTTP method: " ++ method))) ;;
     logger_info ("RESPONSE <- " ++ PyStr.str_int (resp_status_code response)
                  ++ " " ++ resp_text response) ;;
     raise_for_status response ;;
     response_json response)
    is_RequestException
    (fun e =>
       logger_exception ("HTTP error during signed request: " ++ exn_str e) e ;;
       raise e).

Definition order_path : string := "/fapi/v1/order".

(** The [params] literal of [place_market_order]. *)
Definition market_params (symbol side : string) (quantity : float)
    (reduce_only : bool) : dict :=
  [ ("symbol", VStr (PyStr.upper symbol));
    ("side", VStr (PyStr.upper side));
    ("type", VStr "MARKET");
    ("quantity", VStr (float_repr quantity));
    ("reduceOnly", VStr (PyStr.lower (PyStr.str_bool reduce_only))) ].

Definition place_market_order (bot : BasicBot) (symbol side : string)
    (quantity : float) (reduce_only : bool) : M json :=
  params <- alloc (market_params symbol side quantity reduce_only) ;;
  _send_signed_request bot "POST" order_path (Some params).

(** [str(x)] where the command line may have left [x] as [None]. *)
Definition str_float_opt (x : option float) : string :=
  match x with Some f => float_repr f | None => "None" end.

Definition place_limit_order (bot : BasicBot) (symbol side : string)
    (quantity : float) (price : option float) (time_in_force : string)
    (reduce_only : bool) : M json :=
  params <- alloc [ ("symbol", VStr (PyStr.upper symbol));
                    ("side", VStr (PyStr.upper side));
                    ("type", VStr "LIMIT");
                    ("timeInForce", VStr time_in_force);
                    ("quantity", VStr (float_repr quantity));
                    ("price", VStr (str_float_opt price));
                    ("reduceOnly", VStr (PyStr.lower (PyStr.str_bool reduce_only))) ] ;;
  _send_signed_request bot "POST" order_path (Some params).

Definition place_stop_limit (bot : BasicBot) (symbol side : string)
    (quantity : float) (stopPrice price : option float) (time_in_force : string)
    : M json :=
  params <- alloc [ ("symbol", VStr (PyStr.upper symbol));
                    ("side", VStr (PyStr.upper side));
                    ("type", VStr "STOP");
                    ("stopPrice", VStr (str_float_opt stopPrice));
                    ("price", VStr (str_float_opt price));
                    ("timeInForce", VStr time_in_force);
                    ("quantity", VStr (float_repr quantity)) ] ;;
  _send_signed_request bot "POST" order_path (Some params).

(** The [{'error': str(e)}] entry of the TWAP log. *)
Definition error_entry (e : exn) : json := JObj [("error", JStr (exn_str e))].

(** The body of [for i in range(slices)], for the [remaining] indices
    from [i] on. *)
Fixpoint twap_loop (bot : BasicBot) (symbol side : string) (slice_qty : float)
    (slices : Z) (interval : float) (remaining : nat) (i : Z)
    (responses : list json) : M (list json) :=
  match remaining with
  | O => ret responses
  | S k =>
      logger_info ("TWAP slice " ++ PyStr.str_int (i + 1) ++ "/" ++ PyStr.str_int slices
                   ++ ": qty=" ++ float_repr slice_qty) ;;
      responses' <-
        try_except
          (resp <- place_market_order bot symbol side (PyFloat.round8 slice_qty) false ;;
           ret (responses ++ [resp])%list)
          is_Exception
          (fun e =>
             logger_exception ("Error executing TWAP slice " ++ PyStr.str_int (i + 1)
                               ++ ": " ++ exn_str e) e ;;
             ret (responses ++ [error_entry e])%list) ;;
      (if i <? slices - 1 then sleep interval else ret tt) ;;
      twap_loop bot symbol side slice_qty slices interval k (i + 1) responses'
  end.

Definition place_twap (bot : BasicBot) (symbol side : string) (quantity : float)
    (slices : Z) (interval : float) : M (list json) :=
  if slices <=? 0 then raise (ValueError "slices must be >= 1")
  else
    slice_qty <- lift (float_truediv_int quantity slices) ;;
    logger_info ("Starting TWAP: " ++ side ++ " " ++ symbol
                 ++ " total_qty=" ++ float_repr quantity
                 ++ " slices=" ++ PyStr.str_int slices
                 ++ " interval=" ++ float_repr interval) ;;
    twap_loop bot symbol side slice_qty slices interval (Z.to_nat slices) 0 [].

(** ** The command line *)

(** [not s] for an optional string: [None] and [''] are false. *)
Definition falsy (s : option string) : bool :=
  match s with
  | None => true
  | Some EmptyString => true
  | Some _ => false
  end.

Definition is_None {A} (x : option A) : bool :=
  match x with None => true | Some _ => false end.

Definition validate_args (a : args) : M unit :=
  if (falsy (arg_api_key a) || falsy (arg_api_secret a))%bool then
    raise (SystemExit "API key and secret are required. Set via --api-key/--api-secret or environment variables.")
  else if (String.eqb (arg_type a) "LIMIT" && is_None (arg_price a))%bool then
    raise (SystemExit "LIMIT orders require --price")
  else if (String.eqb (arg_type a) "STOP"
           && (is_None (arg_stop_price a) || is_None (arg_price a)))%bool then
    raise (SystemExit "STOP orders require both --stop-price and --price")
  else if PyFloat.le (arg_quantity a) PyFloat.zero then
    raise (SystemExit "quantity must be positive")
  else ret tt.

Definition unwrap (s : option string) : string :=
  match s with Some x => x | None => "" end.

Fixpoint print_each (rs : list json) : M unit :=
  match rs with
  | [] => ret tt
  | r :: t => print (json_repr r) ;; print_each t
  end.

Definition main (a : args) : M unit :=
  try_except (validate_args a) is_SystemExit
    (fun e => logger_error ("Argument validation failed: " ++ exn_str e) ;; raise e) ;;
  bot <- __init__ (unwrap (arg_api_key a)) (unwrap (arg_api_secret a)) (arg_base_url a) ;;
  let side := PyStr.upper (arg_side a) in
  try_except
    (if String.eqb (arg_type a) "MARKET" then
       resp <- place_market_order bot (arg_symbol a) side (arg_quantity a) false ;;
       print ("Order response: " ++ json_repr resp)
     else if String.eqb (arg_type a) "LIMIT" then
       resp <- place_limit_order bot (arg_symbol a) side (arg_quantity a)
                 (arg_price a) (arg_time_in_force a) false ;;
       print ("Order response: " ++ json_repr resp)
     else if String.eqb (arg_type a) "STOP" then
       resp <- place_stop_limit bot (arg_symbol a) side (arg_quantity a)
                 (arg_stop_price a) (arg_price a) (arg_time_in_force a) ;;
       print ("Order response: " ++ json_repr resp)
     else if String.eqb (arg_type a) "TWAP" then
       resp <- place_twap bot (arg_symbol a) side (arg_quantity a)
                 (arg_twap_slices a) (arg_twap_interval a) ;;
       print "TWAP responses:" ;;
       print_each resp
     else logger_error ("Unsupported order type: " ++ arg_type a))
    is_Exception
    (fun e =>
       logger_exception ("Error executing order: " ++ exn_str e) e ;;
       print ("Execution failed: " ++ exn_str e)).

End Bot.

(** ** What one signed call does, as functions of the exchange's answer *)

Section Summaries.

Context {RT : Runtime} (E : env).

(** The request the session issues for the parameters [d] (timestamp
    included). *)
Definition signed_request (bot : BasicBot) (method path : string) (d : dict)
  : http_request :=
  {| req_method := method;
     req_url := (base_url bot ++ path) ++ "?" ++ _sign_payload bot d;
     req_headers := session_headers bot;
     req_timeout := 10 |}.

Definition request_line (bot : BasicBot) (method path : string) (d : dict) : event :=
  EvLog INFO ("REQUEST -> " ++ PyStr.upper method ++ " " ++ (base_url bot ++ path)
              ++ "?" ++ _sign_payload bot d) None.

Definition response_line (r : response) : event :=
  EvLog INFO ("RESPONSE <- " ++ PyStr.str_int (resp_status_code r) ++ " " ++ resp_text r) None.

Definition failure_line (e : exn) : event :=
  EvLog ERROR ("HTTP error during signed request: " ++ exn_str e) (Some e).

(** What the caller of the send operation gets for an outcome of the
    HTTP exchange: the decoded body, or the exception raised. *)
Definition send_result (o : http_outcome) : exn + json :=
  match o with
  | Failed k msg => inl (TransportError k msg)
  | Answered r =>
      let code := resp_status_code r in
      if ((400 <=? code) && (code <? 500))%bool then
        inl (HTTPError (PyStr.str_int code ++ " Client Error: " ++ resp_reason r
                        ++ " for url: " ++ resp_url r) r)
      else if ((500 <=? code) && (code <? 600))%bool then
        inl (HTTPError (PyStr.str_int code ++ " Server Error: " ++ resp_reason r
                        ++ " for url: " ++ resp_url r) r)
      else match json_loads (resp_text r) with
           | inl msg => inl (JSONDecodeError msg)
           | inr v => inr v
           end
  end.

Definition send_events (o : http_outcome) : list event :=
  match o with
  | Failed k msg => [failure_line (TransportError k msg)]
  | Answered r =>
      response_line r ::
      match send_result o with
      | inl e => [failure_line e]
      | inr _ => []
      end
  end.

(** The dict object the send operation works on: the caller's, unless it
    is [None] or empty. *)
Definition target (params : option ref) (w : world) : ref :=
  match params with
  | Some r => if Dict.truthy (lookup (heap w) r) then r else List.length (heap w)
  | None => List.length (heap w)
  end.

Definition target_heap (params : option ref) (w : world) : list dict :=
  match params with
  | Some r => if Dict.truthy (lookup (heap w) r) then heap w else (heap w ++ [[]])%list
  | None => (heap w ++ [[]])%list
  end.

Definition stamped (params : option ref) (w : world) : dict :=
  Dict.set "timestamp" (VInt (clock E (clock_reads w)))
           (lookup (target_heap params w) (target params w)).

(** The parameters of a market order once the send operation has set
    the timestamp [ts]. *)
Definition stamped_market_params (symbol side : string) (quantity : float)
    (reduce_only : bool) (ts : Z) : dict :=
  (market_params symbol side quantity reduce_only ++ [("timestamp", VInt ts)])%list.

Definition market_request (bot : BasicBot) (symbol side : string)
    (quantity : float) (reduce_only : bool) (ts : Z) : http_request :=
  signed_request bot "POST" order_path
    (stamped_market_params symbol side quantity reduce_only ts).

(** The exchange's answer to slice [j] of a TWAP run that starts after
    [c] clock readings and [h] HTTP calls. *)
Definition slice_outcome (bot : BasicBot) (symbol side : string)
    (slice_qty : float) (c h : nat) (j : nat) : http_outcome :=
  exchange E (h + j)
    (market_request bot symbol side (PyFloat.round8 slice_qty) false (clock E (c + j))).

(** The requests of the slices [0 .. n-1] of a run that starts after [c]
    clock readings. *)
Definition slice_requests (bot : BasicBot) (symbol side : string)
    (slice_qty : float) (c n : nat) : list http_request :=
  map (fun j => market_request bot symbol side (PyFloat.round8 slice_qty) false
                  (clock E (c + j)))
      (seq 0 n).

(** The log entry of a slice: the payload, or [{'error': str(e)}]. *)
Definition slice_entry (o : http_outcome) : json :=
  match send_result o with
  | inl e => error_entry e
  | inr v => v
  end.

End Summaries.

(** ** Reading the event trace *)

(** The HTTP requests among the events, in order. *)
Fixpoint sent_requests (evs : list event) : list http_request :=
  match evs with
  | [] => []
  | EvHttp r :: t => r :: sent_requests t
  | _ :: t => sent_requests t
  end.

(** The messages handed to the logger, in order. *)
Fixpoint log_messages (evs : list event) : list string :=
  match evs with
  | [] => []
  | EvLog _ msg _ :: t => msg :: log_messages t
  | _ :: t => log_messages t
  end.



(** The mapping a caller hands to the send operation: the dict behind the
    reference, [{}] for [None]. *)
Definition given_params (params : option ref) (w : world) : dict :=
  match params with
  | Some r => lookup (heap w) r
  | None => []
  end.

(** [logged s w]: some message handed to the logger contains [s]. *)
Definition logged (s : string) (w : world) : bool :=
  existsb (PyStr.contains s) (log_messages (events w)).

(** A computation returned a value rather than raising. *)
Definition returns_value {A} (r : exn + A) : Prop := exists v, r = inr v.

(** ** SHA-256 and HMAC (FIPS 180-4, RFC 2104), on byte strings *)

Module Sha256.

Definition mask32 : Z := 4294967295.
Definition w32 (x : Z) : Z := Z.land x mask32.
Definition add32 (x y : Z) : Z := w32 (x + y).
Definition rotr (n x : Z) : Z := Z.lor (Z.shiftr x n) (w32 (Z.shiftl x (32 - n))).

Definition ch (x y z : Z) : Z := Z.lxor (Z.land x y) (Z.land (Z.lxor x mask32) z).
Definition maj (x y z : Z) : Z :=
  Z.lxor (Z.lxor (Z.land x y) (Z.land x z)) (Z.land y z).
Definition bsig0 (x : Z) : Z := Z.lxor (Z.lxor (rotr 2 x) (rotr 13 x)) (rotr 22 x).
Definition bsig1 (x : Z) : Z := Z.lxor (Z.lxor (rotr 6 x) (rotr 11 x)) (rotr 25 x).
Definition ssig0 (x : Z) : Z := Z.lxor (Z.lxor (rotr 7 x) (rotr 18 x)) (Z.shiftr x 3).
Definition ssig1 (x : Z) : Z := Z.lxor (Z.lxor (rotr 17 x) (rotr 19 x)) (Z.shiftr x 10).

(** The primes below [bound], by trial division. *)
Definition is_prime (p : Z) : bool :=
  (2 <=? p) && forallb (fun d => negb (p mod d =? 0)) (map Z.of_nat (seq 2 (Z.to_nat p - 2))).
Definition primes_below (bound : nat) : list Z :=
  filter is_prime (map Z.of_nat (seq 0 bound)).

(** The largest [r] below [2 ^ bits] whose cube is at most [n]. *)
Fixpoint cube_root (bits : nat) (n : Z) : Z :=
  match bits with
  | O => 0
  | S k =>
      let r := cube_root k (Z.shiftr n 3) in
      let c := 2 * r + 1 in
      if c * c * c <=? n then c else 2 * r
  end.

(** FIPS 180-4, 4.2.2 and 5.3.3: the round constants are the first 32
    bits of the fractional parts of the cube roots of the first 64
    primes, the initial hash value those of the square roots of the
    first 8. *)
Definition K : list Z :=
  Eval cbv in map (fun p => w32 (cube_root 36 (Z.shiftl p 96))) (primes_below 312).

Definition H0 : list Z :=
  Eval cbv in map (fun p => w32 (Z.sqrt (Z.shiftl p 64))) (primes_below 20).

(** Big-endian bytes of [x], [n] of them. *)
Fixpoint be_bytes (n : nat) (x : Z) : list Z :=
  match n with
  | O => []
  | S k => Z.land (Z.shiftr x (8 * Z.of_nat k)) 255 :: be_bytes k x
  end.

(** The message followed by [0x80], zeros, and its bit length on 8
    bytes, a multiple of 64 bytes in all. *)
Definition pad (msg : list Z) : list Z :=
  let len := Z.of_nat (List.length msg) in
  let zeros := Z.to_nat ((55 - len) mod 64) in
  (msg ++ [128] ++ repeat 0 zeros ++ be_bytes 8 (8 * len))%list.

Fixpoint words (fuel : nat) (bytes : list Z) : list Z :=
  match fuel, bytes with
  | S k, b0 :: b1 :: b2 :: b3 :: r =>
      (Z.shiftl b0 24 + Z.shiftl b1 16 + Z.shiftl b2 8 + b3) :: words k r
  | _, _ => []
  end.

(** The message schedule: from the last 16 words (most recent first),
    [n] more. *)
Fixpoint schedule (n : nat) (recent : list Z) : list Z :=
  match n with
  | O => []
  | S k =>
      let w := add32 (add32 (ssig1 (nth 1 recent 0)) (nth 6 recent 0))
                     (add32 (ssig0 (nth 14 recent 0)) (nth 15 recent 0)) in
      w :: schedule k (w :: firstn 15 recent)
  end.

Definition round (st : list Z) (kw : Z * Z) : list Z :=
  match st with
  | [a; b; c; d; e; f; g; h] =>
      let t1 := add32 (add32 (add32 h (bsig1 e)) (add32 (ch e f g) (fst kw))) (snd kw) in
      let t2 := add32 (bsig0 a) (maj a b c) in
      [add32 t1 t2; a; b; c; add32 d t1; e; f; g]
  | _ => st
  end.

Definition compress (st : list Z) (block : list Z) : list Z :=
  let w16 := words 16 block in
  let w := (w16 ++ schedule 48 (rev w16))%list in
  let st' := fold_left round (combine K w) st in
  map (fun p => add32 (fst p) (snd p)) (combine st st').

Fixpoint blocks (fuel : nat) (st : list Z) (bytes : list Z) : list Z :=
  match fuel with
  | O => st
  | S k =>
      match bytes with
      | [] => st
      | _ => blocks k (compress st (firstn 64 bytes)) (skipn 64 bytes)
      end
  end.

(** The 32 bytes of the digest. *)
Definition digest (msg : list Z) : list Z :=
  let p := pad msg in
  flat_map (be_bytes 4) (blocks (List.length p) H0 p).

End Sha256.

Module Hmac.

Definition block_size : nat := 64.

(** The key as a block: hashed when longer than a block, then padded
    with zero bytes. *)
Definition key_block (key : list Z) : list Z :=
  let k := if Nat.ltb block_size (List.length key) then Sha256.digest key else key in
  (k ++ repeat 0 (block_size - List.length k))%list.

Definition hmac_sha256 (key msg : list Z) : list Z :=
  let kb := key_block key in
  let ipad := map (Z.lxor 54) kb in
  let opad := map (Z.lxor 92) kb in
  Sha256.digest (opad ++ Sha256.digest (ipad ++ msg)).

Definition bytes_of_string (s : string) : list Z :=
  map (fun c => Z.of_nat (nat_of_ascii c)) (list_ascii_of_string s).

Definition hex_char (n : Z) : ascii :=
  if n <? 10 then ascii_of_nat (Z.to_nat (48 + n)) else ascii_of_nat (Z.to_nat (87 + n)).

Fixpoint hex (bytes : list Z) : string :=
  match bytes with
  | [] => ""
  | b :: r => String (hex_char (b / 16)) (String (hex_char (b mod 16)) (hex r))
  end.

(** [hmac.new(key, msg, hashlib.sha256).hexdigest()] *)
Definition hexdigest (key msg : string) : string :=
  hex (hmac_sha256 (bytes_of_string key) (bytes_of_string msg)).

End Hmac.

(** ** A runtime to run the model on

    The real HMAC-SHA256, and stand-ins for the float printer, the JSON
    decoder and [time.sleep]'s argument check that agree with Python on the
    inputs of the examples below. *)

Module Demo.

Fixpoint zero_pad (width : nat) (s : string) : string :=
  match width with
  | O => s
  | S k => if Nat.ltb (String.length s) width then zero_pad k ("0" ++ s) else s
  end.

(** ['%.8f' % x] for a finite [x]. *)
Definition fixed8 (x : float) : string :=
  match x with
  | S754_zero s => (if s then "-" else "") ++ "0.00000000"
  | S754_finite s m e =>
      let n := PyFloat.scaled8 m e in
      (if s then "-" else "") ++ PyStr.str_int (n / 100000000) ++ "."
      ++ zero_pad 8 (PyStr.str_int (n mod 100000000))
  | S754_infinity s => if s then "-inf" else "inf"
  | S754_nan => "nan"
  end.

(** Accepts an object literal and keeps its text. *)
Definition loads (text : string) : string + json :=
  if String.prefix "{" text then inr (JObj [("body", JStr text)])
  else inl "Expecting value: line 1 column 1 (char 0)".

Definition show (v : json) : string :=
  match v with
  | JObj [(k, JStr s)] => "{'" ++ k ++ "': '" ++ s ++ "'}"
  | _ => "..."
  end.

(** [time.sleep] rejects NaN, negative and infinite arguments. *)
Definition sleep_check (secs : float) : option exn :=
  match secs with
  | S754_nan => Some (ValueError "Invalid value NaN (not a number)")
  | S754_infinity false =>
      Some (OverflowError "timestamp too large to convert to C _PyTime_t")
  | _ => if SFltb secs PyFloat.zero
         then Some (ValueError "sleep length must be non-negative")
         else None
  end.

Definition runtime : Runtime :=
  {| float_repr := fixed8;
     hmac_sha256_hexdigest := Hmac.hexdigest;
     json_loads := loads;
     json_repr := show;
     sleep_error := sleep_check |}.

Definition start_ms : Z := 1700000000000.

Definition ok_response (req : http_request) : response :=
  {| resp_status_code := 200; resp_reason := "OK";
     resp_text := "{}"; resp_url := req_url req |}.

(** An exchange that accepts every order. *)
Definition env_up : env :=
  {| clock := fun n => start_ms + Z.of_nat n;
     exchange := fun _ req => Answered (ok_response req) |}.

(** An exchange that cannot be reached. *)
Definition env_down : env :=
  {| clock := fun n => start_ms + Z.of_nat n;
     exchange := fun _ _ => Failed ConnectionError "Connection refused" |}.

(** An exchange that cannot be reached for the [k]-th call only. *)
Definition env_down_at (k : nat) : env :=
  {| clock := fun n => start_ms + Z.of_nat n;
     exchange := fun n req =>
       if Nat.eqb n k then Failed ConnectionError "Connection refused"
       else Answered (ok_response req) |}.

(** An exchange that rejects every order with status 400. *)
Definition env_reject : env :=
  {| clock := fun n => start_ms + Z.of_nat n;
     exchange := fun _ req =>
       Answered {| resp_status_code := 400; resp_reason := "Bad Request";
                   resp_text := "Invalid quantity."; resp_url := req_url req |} |}.

(** The floats [0.01], [1.0], [-1.0] and [1e9]. *)
Definition f_0_01 : float := S754_finite false 5764607523034235 (-59).
Definition f_1 : float := S754_finite false 4503599627370496 (-52).
Definition f_minus_1 : float := S754_finite true 4503599627370496 (-52).
Definition f_1e9 : float := S754_finite false 8388608000000000 (-23).

(** A world whose heap holds the one dict [d], at reference 0. *)
Definition world_with (d : dict) : world :=
  {| heap := [d]; clock_reads := 0; http_calls := 0; events := [] |}.

(** The command line of a market order of quantity [q]. *)
Definition market_args (q : float) : args :=
  {| arg_api_key := Some "demo-key";
     arg_api_secret := Some "demo-secret";
     arg_base_url := DEFAULT_TESTNET_BASE;
     arg_symbol := "BTCUSDT";
     arg_side := "sell";
     arg_type := "MARKET";
     arg_quantity := q;
     arg_price := None;
     arg_stop_price := None;
     arg_time_in_force := "GTC";
     arg_twap_slices := 5;
     arg_twap_interval := f_1 |}.


Definition bot : BasicBot :=
  {| api_key := "demo-key";
     api_secret := "demo-secret";
     base_url := DEFAULT_TESTNET_BASE;
     session_headers := [("X-MBX-APIKEY", "demo-key")] |}.


End Demo.

(** ** More readings of the event trace *)

(** The pace of a run as the outside sees it: the requests sent and the
    pauses taken, in order. *)
Inductive action :=
  | Order (req : http_request)
  | Pause (secs : float).

Fixpoint actions (evs : list event) : list action :=
  match evs with
  | [] => []
  | EvHttp r :: t => Order r :: actions t
  | EvSleep s :: t => Pause s :: actions t
  | _ :: t => actions t
  end.

(** The events logged at level ERROR. *)
Fixpoint error_logs (evs : list event) : list event :=
  match evs with
  | [] => []
  | EvLog ERROR msg e :: t => EvLog ERROR msg e :: error_logs t
  | _ :: t => error_logs t
  end.

(** ** Readings of strings *)

(** Every character of [s] satisfies [p]. *)
Fixpoint all_chars (p : ascii -> bool) (s : string) : bool :=
  match s with
  | EmptyString => true
  | String c r => p c && all_chars p r
  end.

(** [s.count(c)] for a one-character [c] *)
Fixpoint count_char (c : ascii) (s : string) : nat :=
  match s with
  | EmptyString => 0
  | String d r => (if Ascii.eqb c d then 1 else 0) + count_char c r
  end.

(** A digit or a letter from [a] to [f]. *)
Definition is_hex_lower (c : ascii) : bool :=
  let n := nat_of_ascii c in
  (PyStr.is_digit_ascii c || (Nat.leb 97 n && Nat.leb n 102))%bool.

(** ** The trace of one TWAP slice *)

Section SliceTrace.

Context {RT : Runtime} (E : env).

(** What slice [j] of a TWAP run adds to the trace, for a run that
    starts after [c] clock readings and [h] HTTP calls: the slice line, the
    events of the order, a second ERROR line when the order failed, and the
    pause unless the slice is the last. *)
Definition slice_events (bot : BasicBot) (symbol side : string) (slice_qty : float)
    (slices : Z) (interval : float) (c h : nat) (j : nat) : list event :=
  let o := slice_outcome E bot symbol side slice_qty c h j in
  let i := Z.of_nat j in
  ([EvLog INFO ("TWAP slice " ++ PyStr.str_int (i + 1) ++ "/" ++ PyStr.str_int slices
                ++ ": qty=" ++ float_repr slice_qty) None;
    request_line bot "POST" order_path
      (stamped_market_params symbol side (PyFloat.round8 slice_qty) false (clock E (c + j)));
    EvHttp (market_request bot symbol side (PyFloat.round8 slice_qty) false
              (clock E (c + j)))]
   ++ send_events o
   ++ match send_result o with
      | inl e => [EvLog ERROR ("Error executing TWAP slice " ++ PyStr.str_int (i + 1)
                               ++ ": " ++ exn_str e) (Some e)]
      | inr _ => []
      end
   ++ (if i <? slices - 1 then [EvSleep interval] else []))%list.

End SliceTrace.

(** ** Well-formed heaps *)

(** Every dict of the heap has each key once, as a Python dict does. *)
Definition unique_keys (h : list dict) : Prop :=
  Forall (fun d => NoDup (Dict.keys d)) h.
(** * Facts *)

(** ** binary64: rounding, division and [round(x, 8)] *)

(** Case analysis on the integer comparisons in sight, then [lia]. *)
Ltac bool_lia :=
  repeat match goal with
         | |- context [?a <=? ?b] => destruct (Z.leb_spec a b)
         | |- context [?a <? ?b] => destruct (Z.ltb_spec a b)
         | |- context [?a =? ?b] => destruct (Z.eqb_spec a b)
         | H : context [?a <=? ?b] |- _ => destruct (Z.leb_spec a b)
         | H : context [?a <? ?b] |- _ => destruct (Z.ltb_spec a b)
         | H : context [?a =? ?b] |- _ => destruct (Z.eqb_spec a b)
         end;
  cbn [negb orb andb] in *; try reflexivity; try discriminate; try lia.

Module Binary64.

Import PyFloat.

Lemma digits2_pos_log2 (p : positive) : Zpos (digits2_pos p) = Z.log2 (Zpos p) + 1.
Proof.
  assert (H : forall q, digits2_pos q = Pos.size q).
  { induction q; simpl; congruence. }
  rewrite H. destruct p; simpl; lia.
Qed.

Lemma Zdigits2_log2 (m : Z) : 0 < m -> Zdigits2 m = Z.log2 m + 1.
Proof. destruct m; try lia. intros _. apply digits2_pos_log2. Qed.

(** digits bounds *)
Lemma Zdigits2_bounds (m : Z) : 0 < m -> 2 ^ (Zdigits2 m - 1) <= m < 2 ^ Zdigits2 m.
Proof.
  intros Hm. rewrite Zdigits2_log2 by lia.
  replace (Z.log2 m + 1 - 1) with (Z.log2 m) by lia.
  replace (Z.log2 m + 1) with (Z.succ (Z.log2 m)) by lia.
  apply Z.log2_spec. lia.
Qed.

Lemma shr_1_m (r : shr_record) : 0 <= shr_m r -> shr_m (shr_1 r) = shr_m r / 2.
Proof.
  destruct r as [m rb sb]. simpl. intros Hm.
  destruct m as [|p|p]; try lia; simpl.
  - reflexivity.
  - destruct p; simpl.
    + rewrite Pos2Z.inj_xI. apply Z.div_unique with 1; lia.
    + rewrite Pos2Z.inj_xO. apply Z.div_unique with 0; lia.
    + reflexivity.
Qed.

Lemma iter_shr_1_m (n : positive) : forall r, 0 <= shr_m r ->
  shr_m (iter_pos shr_1 n r) = shr_m r / 2 ^ Zpos n.
Proof.
  assert (Hpow : forall k, 0 < 2 ^ Zpos k) by (intros; apply Z.pow_pos_nonneg; lia).
  induction n as [n IH | n IH |]; intros r Hr; simpl iter_pos.
  - assert (H1 : 0 <= shr_m (shr_1 r)) by (rewrite shr_1_m by lia; apply Z.div_pos; lia).
    assert (H2 : 0 <= shr_m (iter_pos shr_1 n (shr_1 r)))
      by (rewrite IH by lia; apply Z.div_pos; [lia | apply Hpow]).
    rewrite IH, IH, shr_1_m by lia.
    pose proof (Hpow n).
    rewrite !Z.div_div by lia.
    f_equal.
    replace (Z.pos n~1) with (1 + Z.pos n + Z.pos n) by lia.
    rewrite !Z.pow_add_r by lia. change (2 ^ 1) with 2. lia.
  - assert (H2 : 0 <= shr_m (iter_pos shr_1 n r))
      by (rewrite IH by lia; apply Z.div_pos; [lia | apply Hpow]).
    rewrite IH, IH by lia.
    pose proof (Hpow n).
    rewrite !Z.div_div by lia.
    f_equal.
    replace (Z.pos n~0) with (Z.pos n + Z.pos n) by lia.
    rewrite !Z.pow_add_r by lia. lia.
  - rewrite shr_1_m by lia. reflexivity.
Qed.

Lemma rec_ok_shr_1 (T b : Z) (r : shr_record) :
  rec_ok T b r -> rec_ok T (2 * b) (shr_1 r).
Proof.
  destruct r as [m rb sb]. unfold rec_ok. cbn [shr_m shr_r shr_s].
  intros (Hb & Hm & Ha & Hr & Hs).
  assert (Hsticky : (rb || sb)%bool = negb (T - m * b =? 0)).
  { rewrite Hr, Hs. bool_lia. }
  destruct m as [|p|p]; try lia.
  - cbn [shr_1 shr_m shr_r shr_s]. rewrite Hsticky.
    split; [lia|]. split; [lia|]. split; [lia|]. split; bool_lia.
  - destruct p as [p|p|]; cbn [shr_1 shr_m shr_r shr_s]; rewrite Hsticky.
    + rewrite Pos2Z.inj_xI in *.
      split; [lia|]. split; [lia|]. split; [lia|]. split; bool_lia.
    + rewrite Pos2Z.inj_xO in *.
      split; [lia|]. split; [lia|]. split; [lia|]. split; bool_lia.
    + split; [lia|]. split; [lia|]. split; [lia|]. split; bool_lia.
Qed.

Lemma rec_ok_iter (n : positive) : forall T b r,
  rec_ok T b r -> rec_ok T (2 ^ Zpos n * b) (iter_pos shr_1 n r).
Proof.
  induction n as [n IH | n IH |]; intros T b r H; simpl iter_pos.
  - apply rec_ok_shr_1 in H. apply IH in H. apply IH in H.
    replace (2 ^ Z.pos n~1 * b) with (2 ^ Z.pos n * (2 ^ Z.pos n * (2 * b))); [exact H|].
    replace (Z.pos n~1) with (Z.pos n + Z.pos n + 1) by lia.
    rewrite !Z.pow_add_r by lia. change (2 ^ 1) with 2. ring.
  - apply IH in H. apply IH in H.
    replace (2 ^ Z.pos n~0 * b) with (2 ^ Z.pos n * (2 ^ Z.pos n * b)); [exact H|].
    replace (Z.pos n~0) with (Z.pos n + Z.pos n) by lia.
    rewrite !Z.pow_add_r by lia. ring.
  - apply rec_ok_shr_1 in H. exact H.
Qed.

(** Shifting by [n] (any sign): the record still locates the same
    fraction, over a denominator scaled to the new exponent. *)
Lemma rec_ok_shr (T b : Z) (r : shr_record) (e n : Z) :
  rec_ok T b r ->
  let '(r', e') := shr r e n in
  e' = e + Z.max n 0 /\ rec_ok T (2 ^ Z.max n 0 * b) r'.
Proof.
  intros H. unfold shr. destruct n as [|p|p].
  - split; [simpl; lia|]. simpl (2 ^ _). rewrite Z.mul_1_l. exact H.
  - split; [lia|]. rewrite Z.max_l by lia. apply rec_ok_iter. exact H.
  - split; [simpl; lia|]. simpl (2 ^ _). rewrite Z.mul_1_l. exact H.
Qed.

Lemma rec_ok_of_loc_exact (m : Z) : 0 <= m -> rec_ok m 1 (shr_record_of_loc m loc_Exact).
Proof.
  intros Hm. unfold rec_ok. cbn [shr_record_of_loc shr_m shr_r shr_s].
  split; [lia|]. split; [lia|]. split; [lia|]. split; bool_lia.
Qed.

(** The rounded mantissa is within one half of the fraction. *)
Lemma round_nearest_even_ok (T b : Z) (r : shr_record) :
  rec_ok T b r ->
  let m := round_nearest_even (shr_m r) (loc_of_shr_record r) in
  (m = shr_m r \/ m = shr_m r + 1) /\ 2 * Z.abs (m * b - T) <= b.
Proof.
  destruct r as [m rb sb]. unfold rec_ok. cbn [shr_m shr_r shr_s].
  intros (Hb & Hm & Ha & Hr & Hs).
  destruct rb, sb; cbn [loc_of_shr_record round_nearest_even].
  - split; [right; reflexivity|]. bool_lia.
  - assert (2 * (T - m * b) = b) by bool_lia.
    destruct (Z.even m); [split; [left; reflexivity | lia] | split; [right; reflexivity | lia]].
  - split; [left; reflexivity|]. bool_lia.
  - split; [left; reflexivity|]. bool_lia.
Qed.

Lemma fexp64_eq (e : Z) : fexp64 e = Z.max (e - 53) (-1074).
Proof. reflexivity. Qed.

Lemma shr_m_of_loc (m : Z) (l : location) : shr_m (shr_record_of_loc m l) = m.
Proof. destruct l as [|[]]; reflexivity. Qed.

Lemma Zdigits2_nonneg (m : Z) : 0 <= Zdigits2 m.
Proof. destruct m; simpl; lia. Qed.

Lemma Zdigits2_le (m k : Z) : 0 <= k -> 0 <= m < 2 ^ k -> Zdigits2 m <= k.
Proof.
  intros Hk Hm. destruct (Z.eq_dec m 0) as [-> | Hne]; [simpl; lia|].
  pose proof (Zdigits2_bounds m ltac:(lia)) as [Hlo _].
  destruct (Z_lt_le_dec k (Zdigits2 m)) as [Hlt|]; [|lia].
  assert (2 ^ k <= 2 ^ (Zdigits2 m - 1)) by (apply Z.pow_le_mono_r; lia).
  lia.
Qed.

Lemma Zdigits2_ge (m k : Z) : 0 <= k -> 2 ^ k <= m -> k + 1 <= Zdigits2 m.
Proof.
  intros Hk Hm.
  assert (0 < 2 ^ k) by (apply Z.pow_pos_nonneg; lia).
  pose proof (Zdigits2_bounds m ltac:(lia)) as [_ Hhi].
  pose proof (Zdigits2_nonneg m).
  destruct (Z_lt_le_dec k (Zdigits2 m)) as [Hlt|Hle]; [lia|].
  assert (2 ^ Zdigits2 m <= 2 ^ k) by (apply Z.pow_le_mono_r; lia).
  lia.
Qed.

(** A record that locates [T / b] has the floor of the fraction as its
    mantissa. *)
Lemma rec_ok_floor (T b : Z) (r : shr_record) : rec_ok T b r -> shr_m r = T / b.
Proof.
  intros (Hb & Hm & Ha & _). apply Z.div_unique with (T - shr_m r * b); lia.
Qed.

Lemma binary_round_aux_spec (s : bool) (m0 e0 : Z) (l0 : location) (T b : Z) :
  rec_ok T b (shr_record_of_loc m0 l0) ->
  let e1 := Z.max e0 (fexp64 (Zdigits2 m0 + e0)) in
  let B := 2 ^ (e1 - e0) * b in
  exists m3 e3,
    binary_round_aux 53 1024 s m0 e0 l0 =
      match m3 with
      | Z0 => S754_zero s
      | Zpos p => if e3 <=? 1024 - 53 then S754_finite s p e3 else S754_infinity s
      | Zneg _ => S754_nan
      end
    /\ 0 <= m3 /\ e1 <= e3 <= e1 + 1
    /\ 2 * Z.abs (m3 * 2 ^ (e3 - e1) * B - T) <= B.
Proof.
  intros Hok e1 B.
  assert (Hm0 : 0 <= m0) by (destruct Hok as (_ & H & _); now rewrite shr_m_of_loc in H).
  assert (Hb : 0 < b) by (destruct Hok as (H & _); exact H).
  set (n1 := fexp64 (Zdigits2 m0 + e0) - e0).
  pose proof (rec_ok_shr T b _ e0 n1 Hok) as H1.
  destruct (shr (shr_record_of_loc m0 l0) e0 n1) as [r1 e1'] eqn:Hshr1.
  destruct H1 as [He1 Hok1].
  assert (He1' : e1' = e1) by (subst e1 n1; lia).
  assert (HB : 2 ^ Z.max n1 0 * b = B) by (subst B; f_equal; f_equal; subst e1 n1; lia).
  rewrite HB in Hok1. clear HB. subst e1'.
  assert (HBpos : 0 < B).
  { subst B. apply Z.mul_pos_pos; [apply Z.pow_pos_nonneg; subst e1; lia | exact Hb]. }
  pose proof (round_nearest_even_ok T B r1 Hok1) as Hrnd. cbv zeta in Hrnd.
  set (m2 := round_nearest_even (shr_m r1) (loc_of_shr_record r1)) in *.
  destruct Hrnd as [Hm2 Hnear].
  assert (Hm1 : 0 <= shr_m r1) by (destruct Hok1 as (_ & H & _); exact H).
  assert (Hm2pos : 0 <= m2) by lia.
  (* the exponent is canonical for the shifted mantissa *)
  assert (Hcanon : fexp64 (Zdigits2 (shr_m r1) + e1) <= e1).
  { destruct (Z_le_gt_dec n1 0) as [Hn|Hn].
    - (* no shift *)
      assert (shr_m r1 = m0).
      { rewrite (rec_ok_floor _ _ _ Hok1).
        pose proof (rec_ok_floor _ _ _ Hok) as Hf. rewrite shr_m_of_loc in Hf.
        subst B. replace (e1 - e0) with 0 by (subst e1 n1; lia).
        change (2 ^ 0) with 1. rewrite Z.mul_1_l. now symmetry. }
      rewrite H. subst e1 n1. rewrite !fexp64_eq in *. lia.
    - assert (He : e1 = fexp64 (Zdigits2 m0 + e0)) by (subst e1 n1; lia).
      assert (Hd : Zdigits2 (shr_m r1) + e1 <= Z.max (Zdigits2 m0 + e0) e1).
      { assert (Hle : shr_m r1 * 2 ^ n1 <= m0).
        { destruct Hok1 as (_ & _ & Ha1 & _).
          destruct Hok as (_ & _ & Ha0 & _). rewrite shr_m_of_loc in Ha0.
          subst B. replace (e1 - e0) with n1 in * by (subst e1 n1; lia).
          assert (shr_m r1 * (2 ^ n1 * b) <= T) by lia.
          assert (T < (m0 + 1) * b) by lia.
          assert (shr_m r1 * 2 ^ n1 * b < (m0 + 1) * b) by lia.
          apply Z.mul_lt_mono_pos_r in H1; lia. }
        destruct (Z.eq_dec (shr_m r1) 0) as [-> | Hne]; [simpl; lia|].
        pose proof (Zdigits2_bounds (shr_m r1) ltac:(lia)) as [Hlo _].
        pose proof (Zdigits2_bounds m0) as Hb0.
        assert (0 < m0).
        { assert (0 < 2 ^ n1) by (apply Z.pow_pos_nonneg; lia). nia. }
        specialize (Hb0 ltac:(lia)). destruct Hb0 as [_ Hhi0].
        assert (1 <= Zdigits2 (shr_m r1))
          by (apply (Zdigits2_ge (shr_m r1) 0); simpl; lia).
        assert (Zdigits2 (shr_m r1) - 1 + n1 < Zdigits2 m0).
        { apply (Z.pow_lt_mono_r_iff 2); [lia | apply Zdigits2_nonneg |].
          rewrite Z.pow_add_r by lia.
          assert (0 < 2 ^ n1) by (apply Z.pow_pos_nonneg; lia).
          assert (2 ^ (Zdigits2 (shr_m r1) - 1) * 2 ^ n1 <= shr_m r1 * 2 ^ n1) by nia.
          lia. }
        subst n1. lia. }
      rewrite !fexp64_eq in *. lia. }
  assert (Hemin : -1074 <= e1) by (subst e1; rewrite fexp64_eq; lia).
  set (n2 := fexp64 (Zdigits2 m2 + e1) - e1).
  pose proof (rec_ok_shr m2 1 _ e1 n2 (rec_ok_of_loc_exact m2 Hm2pos)) as H2.
  destruct (shr (shr_record_of_loc m2 loc_Exact) e1 n2) as [r2 e2] eqn:Hshr2.
  destruct H2 as [He2 Hok2]. rewrite Z.mul_1_r in Hok2.
  pose proof (rec_ok_floor _ _ _ Hok2) as Hfl2.
  (* the second shift is by at most one bit, and exact *)
  assert (Hd2 : Zdigits2 m2 <= Zdigits2 (shr_m r1) + 1).
  { apply Zdigits2_le; [pose proof (Zdigits2_nonneg (shr_m r1)); lia|].
    split; [lia|].
    destruct (Z.eq_dec (shr_m r1) 0) as [E0 | Hne].
    - rewrite E0 in *. simpl. lia.
    - pose proof (Zdigits2_bounds (shr_m r1) ltac:(lia)) as [_ Hhi].
      rewrite Z.pow_add_r by (try apply Zdigits2_nonneg; lia). change (2 ^ 1) with 2. lia. }
  assert (Hn2 : n2 <= 1) by (subst n2; rewrite !fexp64_eq in *; lia).
  assert (Hexact : shr_m r2 * 2 ^ Z.max n2 0 = m2).
  { destruct (Z_le_gt_dec n2 0) as [Hn|Hn].
    - rewrite Hfl2. rewrite Z.max_r by lia. change (2 ^ 0) with 1. rewrite Z.div_1_r. lia.
    - assert (n2 = 1) by lia. rewrite Hfl2, H. rewrite Z.max_l by lia.
      change (2 ^ 1) with 2.
      (* the digit count grew, so [m2] is a power of two *)
      assert (Hgrow : Zdigits2 (shr_m r1) < Zdigits2 m2).
      { subst n2. rewrite !fexp64_eq in *. lia. }
      assert (Hm2eq : m2 = 2 ^ Zdigits2 (shr_m r1)).
      { destruct (Z.eq_dec (shr_m r1) 0) as [E0 | Hne].
        - rewrite E0 in *. simpl in *.
          destruct Hm2 as [-> | ->]; simpl in *; [lia|]. reflexivity.
        - pose proof (Zdigits2_bounds (shr_m r1) ltac:(lia)) as [_ Hhi].
          destruct Hm2 as [E | E]; [rewrite E in Hgrow; lia|].
          destruct (Z.eq_dec m2 (2 ^ Zdigits2 (shr_m r1))) as [|Hneq]; [assumption|].
          assert (0 <= m2 < 2 ^ Zdigits2 (shr_m r1)) by lia.
          apply Zdigits2_le in H0; [lia | apply Zdigits2_nonneg]. }
      assert (Hd1 : 1 <= Zdigits2 (shr_m r1)).
      { destruct (Z.eq_dec (Zdigits2 (shr_m r1)) 0) as [E0|]; [|pose proof (Zdigits2_nonneg (shr_m r1)); lia].
        rewrite E0 in Hm2eq. simpl in Hm2eq.
        assert (Hd : Zdigits2 m2 = 1) by (rewrite Hm2eq; reflexivity).
        unfold n2 in H. rewrite Hd, fexp64_eq in H. lia. }
      rewrite Hm2eq.
      replace (Zdigits2 (shr_m r1)) with (1 + (Zdigits2 (shr_m r1) - 1)) by lia.
      rewrite Z.pow_add_r by lia. change (2 ^ 1) with 2.
      rewrite (Z.mul_comm 2 (2 ^ (Zdigits2 (shr_m r1) - 1))), Z.div_mul by lia. lia. }
  exists (shr_m r2), e2.
  assert (Hm3 : 0 <= shr_m r2) by (destruct Hok2 as (_ & H & _); exact H).
  split; [|split; [exact Hm3|split; [lia|]]].
  - unfold binary_round_aux, shr_fexp. change (fexp 53 1024) with fexp64.
    fold n1. rewrite Hshr1. fold m2. rewrite He1'. fold n2. rewrite Hshr2.
    destruct (shr_m r2) as [|p|p]; reflexivity.
  - replace (e2 - e1) with (Z.max n2 0) by lia. rewrite Hexact. exact Hnear.
Qed.

Lemma pow2_pos (e : Z) : (0 < pow2 e)%Q.
Proof. apply Qpower_0_lt. reflexivity. Qed.

Lemma pow2_add (a b : Z) : (pow2 (a + b) == pow2 a * pow2 b)%Q.
Proof. apply Qpower_plus. discriminate. Qed.

Lemma pow2_inject (u : Z) : 0 <= u -> (inject_Z (2 ^ u) == pow2 u)%Q.
Proof. intros H. unfold pow2. rewrite Zpower_Qpower by lia. reflexivity. Qed.

Lemma pow2_le (a b : Z) : a <= b -> (pow2 a <= pow2 b)%Q.
Proof. intros H. apply Qpower_le_compat_l; [exact H | discriminate]. Qed.

Lemma pow2_lt_inv (a b : Z) : (pow2 a < pow2 b)%Q -> a < b.
Proof. intros H. apply (Qpower_lt_compat_l_inv 2); [exact H | reflexivity]. Qed.

Lemma pow2_lt (a b : Z) : a < b -> (pow2 a < pow2 b)%Q.
Proof. intros H. apply Qpower_lt_compat_l; [exact H | reflexivity]. Qed.

Lemma pow2_half (e : Z) : (pow2 e == 2 * pow2 (e - 1))%Q.
Proof.
  replace e with (1 + (e - 1)) at 1 by lia. rewrite pow2_add. reflexivity.
Qed.

(** From the integer statement of nearness to a bound on values. *)
Lemma round_error_Q (m3 T b e0 u v : Z) :
  0 < b -> 0 <= u -> 0 <= v ->
  2 * Z.abs (m3 * 2 ^ u * (2 ^ v * b) - T) <= 2 ^ v * b ->
  (Qabs (inject_Z m3 * pow2 (e0 + v + u) - inject_Z T / inject_Z b * pow2 e0)
   <= pow2 (e0 + v - 1))%Q.
Proof.
  intros Hb Hu Hv H.
  assert (Hlo : - (2 ^ v * b) <= 2 * (m3 * 2 ^ u * (2 ^ v * b) - T)) by lia.
  assert (Hhi : 2 * (m3 * 2 ^ u * (2 ^ v * b) - T) <= 2 ^ v * b) by lia.
  clear H.
  rewrite Zle_Qle in Hlo, Hhi.
  unfold Z.sub in Hlo, Hhi.
  repeat (rewrite ?inject_Z_opp, ?inject_Z_mult, ?inject_Z_plus in Hlo).
  repeat (rewrite ?inject_Z_opp, ?inject_Z_mult, ?inject_Z_plus in Hhi).
  rewrite !pow2_inject in Hlo, Hhi by lia.
  assert (Hhalf : (pow2 (e0 + v) == 2 * pow2 (e0 + v + -1))%Q) by apply pow2_half.
  replace (e0 + v - 1) with (e0 + v + -1) by lia.
  rewrite !pow2_add in *.
  pose proof (pow2_pos e0) as Hp0. pose proof (pow2_pos u) as Hpu.
  pose proof (pow2_pos v) as Hpv.
  assert (Hbq : (0 < inject_Z b)%Q) by (rewrite <- (Zlt_Qlt 0); exact Hb).
  set (P := pow2 e0) in *. set (U := pow2 u) in *. set (V := pow2 v) in *.
  set (bq := inject_Z b) in *. set (Tq := inject_Z T) in *. set (M := inject_Z m3) in *.
  set (h := pow2 (-1)) in *.
  apply Qabs_Qle_condition.
  assert (Heq : (M * (P * V * U) - Tq / bq * P == (P / bq) * (M * U * (V * bq) - Tq))%Q).
  { field. intro Hz. rewrite Hz in Hbq. inversion Hbq. }
  assert (Heq2 : (P * V * h == (P / bq) * ((V * bq) * h))%Q).
  { field. intro Hz. rewrite Hz in Hbq. inversion Hbq. }
  rewrite Heq, Heq2.
  assert (Hc : (0 < P / bq)%Q).
  { apply Qlt_shift_div_l; [exact Hbq|]. rewrite Qmult_0_l. exact Hp0. }
  change (inject_Z 2) with 2%Q in Hlo, Hhi.
  assert (Hh : (2 * h == 1)%Q) by reflexivity.
  clearbody P U V bq Tq M h.
  set (W := (V * bq)%Q) in *. set (Z1 := (M * U * W)%Q) in *. clearbody Z1 W.
  set (Wh := (W * h)%Q) in *.
  assert (HWh : (2 * Wh == W)%Q).
  { subst Wh. setoid_replace (2 * (W * h))%Q with (W * (2 * h))%Q by ring.
    rewrite Hh. ring. }
  clearbody Wh.
  assert (HD1 : (- Wh <= Z1 - Tq)%Q) by lra.
  assert (HD2 : (Z1 - Tq <= Wh)%Q) by lra.
  split.
  - setoid_replace (- (P / bq * Wh))%Q with (P / bq * - Wh)%Q by ring.
    apply Qmult_le_l; assumption.
  - apply Qmult_le_l; assumption.
Qed.

Lemma binary_round_aux_value (s : bool) (m0 e0 : Z) (l0 : location) (T b ek : Z) :
  rec_ok T b (shr_record_of_loc m0 l0) ->
  Z.max e0 (fexp64 (Zdigits2 m0 + e0)) <= ek -> ek <= 970 ->
  let z := binary_round_aux 53 1024 s m0 e0 l0 in
  is_finite z = true /\ sign z = s /\
  (Qabs (magnitude z - inject_Z T / inject_Z b * pow2 e0) <= pow2 (ek - 1))%Q.
Proof.
  intros Hok Hek Hmax z.
  assert (Hb : 0 < b) by (destruct Hok as (H & _); exact H).
  destruct (binary_round_aux_spec s m0 e0 l0 T b Hok) as (m3 & e3 & Hz & Hm3 & He3 & Hnear).
  set (e1 := Z.max e0 (fexp64 (Zdigits2 m0 + e0))) in *.
  pose proof (round_error_Q m3 T b e0 (e3 - e1) (e1 - e0) Hb ltac:(lia) ltac:(subst e1; lia) Hnear) as Herr.
  replace (e0 + (e1 - e0) + (e3 - e1)) with e3 in Herr by lia.
  replace (e0 + (e1 - e0) - 1) with (e1 - 1) in Herr by lia.
  assert (Hle : (pow2 (e1 - 1) <= pow2 (ek - 1))%Q) by (apply pow2_le; lia).
  subst z. rewrite Hz. destruct m3 as [|p|p]; try lia.
  - cbn [is_finite sign magnitude]. split; [reflexivity|]. split; [reflexivity|].
    rewrite Qmult_0_l in Herr. eapply Qle_trans; eassumption.
  - assert (He : (e3 <=? 1024 - 53) = true) by (apply Z.leb_le; lia).
    rewrite He. cbn [is_finite sign magnitude]. split; [reflexivity|]. split; [reflexivity|].
    eapply Qle_trans; eassumption.
Qed.

Lemma new_location_ok (T b : Z) :
  0 <= T -> 0 < b ->
  rec_ok T b (shr_record_of_loc (T / b) (new_location b (T mod b))).
Proof.
  intros HT Hb.
  pose proof (Z.mod_pos_bound T b Hb) as Hr.
  pose proof (Z.div_mod T b ltac:(lia)) as Hdm.
  assert (Ha : T - T / b * b = T mod b) by lia.
  assert (Hq : 0 <= T / b) by (apply Z.div_pos; lia).
  unfold rec_ok. rewrite shr_m_of_loc. cbv zeta. rewrite Ha.
  split; [lia|]. split; [lia|]. split; [lia|].
  unfold new_location, new_location_even, new_location_odd.
  destruct (Z.even b) eqn:Hev.
  - destruct (Z.eqb_spec (T mod b) 0) as [E|E].
    + cbn [shr_record_of_loc shr_r shr_s]. rewrite E. split; bool_lia.
    + destruct (Z.compare_spec (2 * (T mod b)) b); cbn [shr_record_of_loc shr_r shr_s];
        split; bool_lia.
  - assert (Hodd : 2 * (T mod b) <> b).
    { intro Hc. rewrite <- Hc in Hev. rewrite Z.even_mul in Hev. discriminate. }
    destruct (Z.eqb_spec (T mod b) 0) as [E|E].
    + cbn [shr_record_of_loc shr_r shr_s]. rewrite E. split; bool_lia.
    + destruct (Z.compare_spec (2 * (T mod b) + 1) b); cbn [shr_record_of_loc shr_r shr_s];
        split; bool_lia.
Qed.

Lemma pow2_neq0 (e : Z) : ~ (pow2 e == 0)%Q.
Proof. pose proof (pow2_pos e) as H. intro Hz. rewrite Hz in H. inversion H. Qed.

Lemma inject_pos_neq0 (p : positive) : ~ (inject_Z (Zpos p) == 0)%Q.
Proof. intro H. inversion H. Qed.

Lemma pow2_sub (a b : Z) : (pow2 (a - b) == pow2 a / pow2 b)%Q.
Proof.
  unfold Z.sub. rewrite pow2_add. unfold pow2 at 2. rewrite Qpower_opp. reflexivity.
Qed.

Lemma magnitude_finite_bounds (s : bool) (m : positive) (e : Z) :
  (pow2 (Zdigits2 (Zpos m) - 1 + e) <= magnitude (S754_finite s m e)
   /\ magnitude (S754_finite s m e) < pow2 (Zdigits2 (Zpos m) + e))%Q.
Proof.
  cbn [magnitude]. pose proof (Zdigits2_bounds (Zpos m) ltac:(lia)) as [Hlo Hhi].
  assert (Hd : 1 <= Zdigits2 (Zpos m)) by (apply (Zdigits2_ge (Zpos m) 0); simpl; lia).
  rewrite !pow2_add.
  rewrite <- (pow2_inject (Zdigits2 (Zpos m) - 1)), <- (pow2_inject (Zdigits2 (Zpos m))) by lia.
  pose proof (pow2_pos e). split.
  - apply Qmult_le_compat_r; [|apply Qlt_le_weak; assumption].
    rewrite <- Zle_Qle. exact Hlo.
  - apply Qmult_lt_compat_r; [assumption|]. rewrite <- Zlt_Qlt. exact Hhi.
Qed.

Lemma div_finite_value (sx sy : bool) (mx my : positive) (ex ey k : Z) :
  let x := S754_finite sx mx ex in
  let y := S754_finite sy my ey in
  (magnitude x < pow2 k * magnitude y)%Q -> -1074 <= k <= 1023 ->
  let z := SFdiv 53 1024 x y in
  is_finite z = true /\ sign z = xorb sx sy /\
  (Qabs (magnitude z - magnitude x / magnitude y) <= pow2 (fexp64 k - 1))%Q.
Proof.
  intros x y HV Hk z. subst z x y.
  unfold SFdiv, SFdiv_core_binary. change (fexp 53 1024) with fexp64.
  set (d1 := Zdigits2 (Zpos mx)). set (d2 := Zdigits2 (Zpos my)).
  set (E := d1 + ex - (d2 + ey)).
  set (e0 := Z.min (fexp64 E) (ex - ey)).
  set (sft := ex - ey - e0).
  assert (Hsft : 0 <= sft) by (subst sft e0; lia).
  set (m' := match sft with
             | 0 => Zpos mx
             | Zpos _ => Z.shiftl (Zpos mx) sft
             | Zneg _ => 0
             end).
  assert (Hm' : m' = Zpos mx * 2 ^ sft).
  { subst m'. clearbody sft. destruct sft as [|p|p]; try lia.
    - rewrite Z.shiftl_mul_pow2 by lia. reflexivity. }
  assert (Hpow : 0 < 2 ^ sft) by (apply Z.pow_pos_nonneg; lia).
  assert (HT : 0 <= m') by (rewrite Hm'; lia).
  destruct (Z.div_eucl m' (Zpos my)) as [q r] eqn:Hde.
  assert (Hq : q = m' / Zpos my) by (unfold Z.div; now rewrite Hde).
  assert (Hr : r = m' mod Zpos my) by (unfold Z.modulo; now rewrite Hde).
  subst q r.
  pose proof (new_location_ok m' (Zpos my) HT ltac:(lia)) as Hok.
  (* magnitudes *)
  pose proof (magnitude_finite_bounds sx mx ex) as [Hxlo Hxhi].
  pose proof (magnitude_finite_bounds sy my ey) as [Hylo Hyhi].
  fold d1 in Hxlo, Hxhi. fold d2 in Hylo, Hyhi.
  assert (HE : E <= k).
  { assert (Hlt : (pow2 (d1 - 1 + ex) < pow2 (k + (d2 + ey)))%Q).
    { eapply Qle_lt_trans; [exact Hxlo|]. eapply Qlt_trans; [exact HV|].
      rewrite pow2_add. apply Qmult_lt_l; [apply pow2_pos | exact Hyhi]. }
    apply pow2_lt_inv in Hlt. subst E. lia. }
  assert (Hval : (inject_Z m' / inject_Z (Zpos my) * pow2 e0
                  == magnitude (S754_finite sx mx ex) / magnitude (S754_finite sy my ey))%Q).
  { cbn [magnitude]. rewrite Hm', inject_Z_mult, pow2_inject by lia.
    assert (Hex : (pow2 ex == pow2 sft * pow2 e0 * pow2 ey)%Q).
    { rewrite <- !pow2_add. replace (sft + e0 + ey) with ex by (subst sft; lia). reflexivity. }
    rewrite Hex. field. split; [apply pow2_neq0 | apply inject_pos_neq0]. }
  assert (Hdq : Z.max e0 (fexp64 (Zdigits2 (m' / Zpos my) + e0)) <= fexp64 k).
  { assert (He0 : e0 <= fexp64 k) by (subst e0; rewrite !fexp64_eq in *; lia).
    apply Z.max_lub; [exact He0|].
    destruct (Z.eq_dec (m' / Zpos my) 0) as [Hz | Hnz].
    - rewrite Hz. simpl (Zdigits2 0). rewrite !fexp64_eq in *. lia.
    - assert (Hqpos : 0 < m' / Zpos my).
      { pose proof (Z.div_pos m' (Zpos my) HT ltac:(lia)). lia. }
      pose proof (Zdigits2_bounds _ Hqpos) as [Hqlo _].
      set (q := m' / Zpos my) in *. set (dq := Zdigits2 q) in *.
      assert (Hd : 1 <= dq) by (apply (Zdigits2_ge q 0); simpl; lia).
      assert (Hlt : (pow2 (dq - 1 + e0) < pow2 k)%Q).
      { (* 2^(dq-1) * 2^e0 <= q * 2^e0 <= V < 2^k *)
        assert (Hqle : (inject_Z q * pow2 e0 <= inject_Z m' / inject_Z (Zpos my) * pow2 e0)%Q).
        { apply Qmult_le_compat_r; [|apply Qlt_le_weak, pow2_pos].
          apply Qle_shift_div_l; [reflexivity|].
          rewrite <- inject_Z_mult, <- Zle_Qle.
          pose proof (Z.mul_div_le m' (Zpos my) ltac:(lia)). subst q. lia. }
        assert (HVk : (magnitude (S754_finite sx mx ex) / magnitude (S754_finite sy my ey) < pow2 k)%Q).
        { apply Qlt_shift_div_r; [|exact HV].
          eapply Qlt_le_trans; [apply pow2_pos | exact Hylo]. }
        eapply Qle_lt_trans; [|eapply Qle_lt_trans; [exact Hqle|]].
        - rewrite pow2_add. apply Qmult_le_compat_r; [|apply Qlt_le_weak, pow2_pos].
          rewrite <- pow2_inject by lia. rewrite <- Zle_Qle. exact Hqlo.
        - rewrite Hval. exact HVk. }
      apply pow2_lt_inv in Hlt. rewrite !fexp64_eq in *. lia. }
  pose proof (binary_round_aux_value (xorb sx sy) _ e0 _ m' (Zpos my) (fexp64 k)
                Hok Hdq ltac:(rewrite fexp64_eq; lia)) as Hres.
  cbv zeta in Hres. rewrite Hval in Hres. exact Hres.
Qed.

Lemma iter_xO_pow2 (m d : positive) : Zpos (Pos.iter xO m d) = Zpos m * 2 ^ Zpos d.
Proof.
  rewrite <- Z.shiftl_mul_pow2 by lia. cbn [Z.shiftl].
  apply (Pos.iter_swap_gen _ _ Zpos xO (Z.mul 2)). intros a. reflexivity.
Qed.

Lemma shl_align_spec (mx : positive) (ex ex' : Z) :
  let '(mz, ez) := shl_align mx ex ex' in
  ez = Z.min ex ex' /\ Zpos mz = Zpos mx * 2 ^ (ex - ez).
Proof.
  unfold shl_align. destruct (ex' - ex) as [|d|d] eqn:Hd.
  - split; [lia|]. replace (ex - ex) with 0 by lia. change (2 ^ 0) with 1. lia.
  - split; [lia|]. replace (ex - ex) with 0 by lia. change (2 ^ 0) with 1. lia.
  - split; [lia|]. rewrite iter_xO_pow2. f_equal. f_equal. lia.
Qed.

(** A positive int below [2^1023] converts to a finite non-zero float; below
    [2^53] the conversion is exact. *)
Lemma of_int_pos (n : Z) :
  1 <= n < 2 ^ 1023 ->
  exists m e, of_int n = S754_finite false m e
              /\ (n < 2 ^ 53 -> (magnitude (S754_finite false m e) == inject_Z n)%Q).
Proof.
  intros Hn. destruct n as [|p|p]; try lia.
  unfold of_int, prec64, emax64, binary_normalize, binary_round. change (fexp 53 1024) with fexp64.
  set (d := Zpos (digits2_pos p)).
  assert (Hd : d = Zdigits2 (Zpos p)) by reflexivity.
  pose proof (Zdigits2_bounds (Zpos p) ltac:(lia)) as [Hlo Hhi]. rewrite <- Hd in Hlo, Hhi.
  assert (Hd1 : 1 <= d) by (subst d; lia).
  assert (Hd2 : d <= 1023).
  { destruct (Z_le_gt_dec d 1023) as [|Hgt]; [assumption|].
    assert (2 ^ 1023 <= 2 ^ (d - 1)) by (apply Z.pow_le_mono_r; lia). lia. }
  pose proof (shl_align_spec p 0 (fexp64 (d + 0))) as Hshl.
  destruct (shl_align p 0 (fexp64 (d + 0))) as [mz ez]. destruct Hshl as [Hez Hmz].
  rewrite Z.add_0_r, fexp64_eq in Hez.
  pose proof (binary_round_aux_spec false (Zpos mz) ez loc_Exact (Zpos mz) 1
                (rec_ok_of_loc_exact (Zpos mz) (Pos2Z.is_nonneg mz))) as (m3 & e3 & Hz & Hm3 & He3 & Hnear).
  (* digits of the aligned mantissa *)
  assert (Hpw : 0 < 2 ^ (0 - ez)) by (apply Z.pow_pos_nonneg; lia).
  assert (Hdz : Zdigits2 (Zpos mz) + ez = d).
  { assert (Zdigits2 (Zpos mz) <= d - ez).
    { apply Zdigits2_le; [lia|]. split; [lia|].
      rewrite Hmz. replace (d - ez) with (d + (0 - ez)) by lia.
      rewrite Z.pow_add_r by lia. nia. }
    assert (d - ez - 1 + 1 <= Zdigits2 (Zpos mz)).
    { apply Zdigits2_ge; [lia|]. rewrite Hmz.
      replace (d - ez - 1) with (d - 1 + (0 - ez)) by lia.
      rewrite Z.pow_add_r by lia. nia. }
    lia. }
  rewrite Hdz, fexp64_eq in *.
  set (e1 := Z.max ez (Z.max (d - 53) (-1074))) in *.
  assert (He1 : e1 = d - 53) by (subst e1; lia).
  assert (HB : 0 < 2 ^ (e1 - ez)) by (apply Z.pow_pos_nonneg; lia).
  assert (Hu : 0 < 2 ^ (e3 - e1)) by (apply Z.pow_pos_nonneg; lia).
  rewrite Z.mul_1_r in Hnear.
  (* the rounded mantissa is not zero *)
  assert (Hm3pos : 0 < m3).
  { destruct (Z.eq_dec m3 0) as [E0|]; [|lia]. exfalso.
    rewrite E0 in Hnear. simpl (0 * _ * _ - _) in Hnear.
    assert (Hge : 2 ^ (e1 - ez) <= Zpos mz).
    { rewrite Hmz. destruct (Z_le_gt_dec d 53).
      - replace (e1 - ez) with 0 by lia. change (2 ^ 0) with 1. lia.
      - replace (ez) with 0 in * by lia. rewrite Z.sub_0_r. change (2 ^ (0 - 0)) with 1.
        rewrite Z.mul_1_r.
        assert (2 ^ e1 <= 2 ^ (d - 1)) by (apply Z.pow_le_mono_r; lia). lia. }
    lia. }
  destruct m3 as [|p3|p3]; try lia.
  assert (Hfin : (e3 <=? 1024 - 53) = true) by (apply Z.leb_le; lia).
  rewrite Hfin in Hz. exists p3, e3. split; [exact Hz|].
  intros Hsmall.
  assert (Hd53 : d <= 53).
  { destruct (Z_le_gt_dec d 53) as [|Hgt]; [assumption|].
    assert (2 ^ 53 <= 2 ^ (d - 1)) by (apply Z.pow_le_mono_r; lia). lia. }
  assert (Hev : e1 = ez) by lia.
  rewrite Hev in Hnear. replace (ez - ez) with 0 in Hnear by lia.
  change (2 ^ 0) with 1 in Hnear.
  assert (Hex : Zpos p3 * 2 ^ (e3 - ez) = Zpos mz) by lia.
  cbn [magnitude].
  replace e3 with ((e3 - ez) + ez) at 1 by lia. rewrite pow2_add.
  rewrite <- (pow2_inject (e3 - ez)) by lia. rewrite Qmult_assoc, <- inject_Z_mult.
  rewrite Hex, Hmz, Z.sub_0_l, inject_Z_mult, pow2_inject by lia.
  rewrite <- Qmult_assoc, <- pow2_add. replace (- ez + ez) with 0 by lia.
  change (pow2 0) with 1%Q. ring.
Qed.

Lemma div_half_even_spec (num den : Z) :
  0 < den ->
  2 * Z.abs (div_half_even num den * den - num) <= den
  /\ (0 <= num -> 0 <= div_half_even num den).
Proof.
  intros Hden. unfold div_half_even.
  pose proof (Z.mod_pos_bound num den Hden) as Hr.
  pose proof (Z.div_mod num den ltac:(lia)) as Hdm.
  assert (Hq : 0 <= num -> 0 <= num / den) by (intros; apply Z.div_pos; lia).
  destruct (Z.compare_spec (2 * (num mod den)) den) as [E|E|E].
  - destruct (Z.even (num / den)); split; try lia.
  - split; lia.
  - split; lia.
Qed.

Lemma pow2_split (e : Z) : (pow2 e == pow2 (Z.max e 0) / pow2 (Z.max (- e) 0))%Q.
Proof.
  rewrite <- pow2_sub. replace (Z.max e 0 - Z.max (- e) 0) with e by lia. reflexivity.
Qed.

(** The decimal step of [round]: the scaled integer is within one half of
    [x * 10^8]. *)
Lemma scaled8_near (m : positive) (e : Z) :
  0 <= scaled8 m e /\
  (Qabs (inject_Z (scaled8 m e) - inject_Z (Zpos m) * pow2 e * inject_Z (Zpos pow10_8))
   <= 1 # 2)%Q.
Proof.
  unfold scaled8.
  set (num := Zpos m * Zpos pow10_8 * 2 ^ Z.max e 0).
  set (den := 2 ^ Z.max (- e) 0).
  assert (Hden : 0 < den) by (apply Z.pow_pos_nonneg; lia).
  assert (Hnum : 0 <= num).
  { subst num. assert (0 < 2 ^ Z.max e 0) by (apply Z.pow_pos_nonneg; lia). lia. }
  destruct (div_half_even_spec num den Hden) as [Hnear Hpos].
  split; [apply Hpos; exact Hnum|].
  set (n := div_half_even num den) in *.
  assert (Hlo : - den <= 2 * (n * den - num)) by lia.
  assert (Hhi : 2 * (n * den - num) <= den) by lia.
  rewrite Zle_Qle in Hlo, Hhi. unfold Z.sub in Hlo, Hhi.
  repeat (rewrite ?inject_Z_opp, ?inject_Z_mult, ?inject_Z_plus in Hlo).
  repeat (rewrite ?inject_Z_opp, ?inject_Z_mult, ?inject_Z_plus in Hhi).
  change (inject_Z 2) with 2%Q in Hlo, Hhi.
  assert (Hnumq : (inject_Z num ==
                   inject_Z (Zpos m) * pow2 e * inject_Z (Zpos pow10_8) * inject_Z den)%Q).
  { subst num den. rewrite !inject_Z_mult, !pow2_inject by lia.
    rewrite (pow2_split e). field. apply pow2_neq0. }
  assert (Hdq : (0 < inject_Z den)%Q) by (rewrite <- (Zlt_Qlt 0); exact Hden).
  set (X := (inject_Z (Zpos m) * pow2 e * inject_Z (Zpos pow10_8))%Q) in *.
  rewrite Hnumq in Hlo, Hhi.
  set (D := inject_Z den) in *. set (N := inject_Z n) in *.
  clearbody X D N.
  apply Qabs_Qle_condition.
  assert (H1 : (- (1 # 2) * D <= (N - X) * D)%Q) by lra.
  assert (H2 : ((N - X) * D <= (1 # 2) * D)%Q) by lra.
  split.
  - apply (Qmult_le_r _ _ D Hdq). exact H1.
  - apply (Qmult_le_r _ _ D Hdq). exact H2.
Qed.

Lemma magnitude_nonneg (x : spec_float) : (0 <= magnitude x)%Q.
Proof.
  destruct x; cbn [magnitude]; try apply Qle_refl.
  apply Qmult_le_0_compat; [rewrite <- (Zle_Qle 0); lia | apply Qlt_le_weak, pow2_pos].
Qed.

Lemma round8_value (s : bool) (m : positive) (e : Z) :
  let x := S754_finite s m e in
  (magnitude x <= pow2 24 + pow2 (-29))%Q ->
  let z := round8 x in
  is_finite z = true /\ sign z = s /\
  (Qabs (magnitude z - magnitude x) <= pow2 (-29) + (1 # 200000000))%Q.
Proof.
  intros x Hx z. subst z x. unfold round8.
  destruct (scaled8_near m e) as [Hn0 Hnear].
  cbn [magnitude] in *. set (X := (inject_Z (Zpos m) * pow2 e)%Q) in *.
  assert (HX0 : (0 <= X)%Q) by (apply (magnitude_nonneg (S754_finite s m e))).
  apply Qabs_Qle_condition in Hnear. destruct Hnear as [Hn1 Hn2].
  change (inject_Z (Zpos pow10_8)) with (100000000 # 1)%Q in *.
  change (pow2 24) with (16777216 # 1)%Q in *.
  change (pow2 (-29)) with (1 # 536870912)%Q in *.
  destruct (scaled8 m e) as [|p|p] eqn:Hs; try lia.
  - cbn [is_finite sign magnitude]. split; [reflexivity|]. split; [reflexivity|].
    change (inject_Z 0) with 0%Q in *. clearbody X.
    apply Qabs_Qle_condition. split; lra.
  - pose proof (div_finite_value s false p pow10_8 0 0 25) as Hdiv.
    cbv zeta in Hdiv. cbn [magnitude] in Hdiv.
    change (pow2 0) with 1%Q in Hdiv. change (pow2 25) with (33554432 # 1)%Q in Hdiv.
    change (inject_Z (Zpos pow10_8)) with (100000000 # 1)%Q in Hdiv.
    change (fexp64 25 - 1) with (-29) in Hdiv.
    change (pow2 (-29)) with (1 # 536870912)%Q in Hdiv.
    rewrite xorb_false_r in Hdiv.
    set (P := inject_Z (Zpos p)) in *.
    assert (HP : (P * 1 < (33554432 # 1) * ((100000000 # 1) * 1))%Q) by (clearbody P X; lra).
    specialize (Hdiv HP ltac:(lia)). destruct Hdiv as (Hf & Hsg & Herr).
    unfold div, prec64, emax64. split; [exact Hf|]. split; [exact Hsg|].
    set (Z := magnitude (SFdiv 53 1024 (S754_finite s p 0) (S754_finite false pow10_8 0))) in *.
    assert (Hq : (P * 1 / ((100000000 # 1) * 1) == P * (1 # 100000000))%Q) by (field; discriminate).
    rewrite Hq in Herr.
    apply Qabs_Qle_condition in Herr. destruct Herr as [He1 He2].
    clearbody P X Z.
    apply Qabs_Qle_condition. split; lra.
Qed.

Lemma to_Q_same_sign (x y : spec_float) (n : Q) :
  sign x = sign y ->
  (Qabs (n * to_Q x - to_Q y) == Qabs (n * magnitude x - magnitude y))%Q.
Proof.
  intros Hs. unfold to_Q. rewrite Hs. destruct (sign y); [|reflexivity].
  setoid_replace (n * - magnitude x - - magnitude y)%Q with (- (n * magnitude x - magnitude y))%Q by ring.
  apply Qabs_opp.
Qed.

(** Scaling a bound on [|r - Q / n|] by [n]. *)
Lemma scale_error (n r q d : Q) :
  (0 < n)%Q -> (Qabs (r - q / n) <= d)%Q -> (Qabs (n * r - q) <= n * d)%Q.
Proof.
  intros Hn H. apply Qabs_Qle_condition in H. destruct H as [H1 H2].
  assert (Heq : (n * r - q == n * (r - q / n))%Q).
  { field. intro Hz. rewrite Hz in Hn. inversion Hn. }
  rewrite Heq. apply Qabs_Qle_condition. split.
  - setoid_replace (- (n * d))%Q with (n * - d)%Q by ring.
    apply Qmult_le_l; assumption.
  - apply Qmult_le_l; assumption.
Qed.

Theorem quotient_round8_error (x : spec_float) (n : Z) :
  1 <= n < 2 ^ 53 -> is_finite x = true ->
  (magnitude x <= pow2 24 * inject_Z n)%Q ->
  let q := div x (of_int n) in
  is_finite (round8 q) = true /\
  (Qabs (inject_Z n * to_Q (round8 q) - to_Q x) <= inject_Z n * (1 # 100000000))%Q.
Proof.
  intros Hn Hfin Hmag q.
  destruct (of_int_pos n) as (my & ey & Hy & Hyv).
  { split; [lia|]. assert (2 ^ 53 < 2 ^ 1023) by (apply Z.pow_lt_mono_r; lia). lia. }
  specialize (Hyv ltac:(lia)).
  assert (Hnq : (1 <= inject_Z n)%Q) by (rewrite <- (Zle_Qle 1); lia).
  assert (Hnpos : (0 < inject_Z n)%Q) by lra.
  subst q. rewrite Hy. unfold div, prec64, emax64.
  destruct x as [s | s | | s m e]; try discriminate.
  - (* zero *)
    cbn [SFdiv round8 is_finite]. rewrite xorb_false_r. split; [reflexivity|].
    rewrite to_Q_same_sign by reflexivity. cbn [magnitude].
    apply Qabs_Qle_condition. split; lra.
  - pose proof (div_finite_value s false m my e ey 25) as Hdiv. cbv zeta in Hdiv.
    rewrite Hyv in Hdiv. rewrite xorb_false_r in Hdiv.
    change (pow2 25) with (33554432 # 1)%Q in Hdiv.
    change (pow2 24) with (16777216 # 1)%Q in Hmag.
    change (fexp64 25 - 1) with (-29) in Hdiv.
    set (X := magnitude (S754_finite s m e)) in *.
    assert (HX0 : (0 <= X)%Q) by apply magnitude_nonneg.
    assert (HV : (X < (33554432 # 1) * inject_Z n)%Q) by (clearbody X; lra).
    specialize (Hdiv HV ltac:(lia)). destruct Hdiv as (Hf & Hsg & Herr).
    set (q := SFdiv 53 1024 (S754_finite s m e) (S754_finite false my ey)) in *.
    assert (Hxn : (X / inject_Z n <= 16777216 # 1)%Q).
    { apply Qle_shift_div_r; [exact Hnpos | exact Hmag]. }
    pose proof (magnitude_nonneg q) as Hq0.
    destruct q as [sq | sq | | sq mq eq] eqn:Eq; try discriminate.
    + (* the quotient underflows to zero *)
      cbn [round8 is_finite]. split; [reflexivity|].
      rewrite to_Q_same_sign by (cbn [sign] in *; congruence).
      apply scale_error; [exact Hnpos|].
      eapply Qle_trans; [exact Herr|]. change (pow2 (-29)) with (1 # 536870912)%Q. lra.
    + pose proof (round8_value sq mq eq) as Hr. cbv zeta in Hr.
      change (pow2 24) with (16777216 # 1)%Q in Hr.
      change (pow2 (-29)) with (1 # 536870912)%Q in Hr, Herr.
      set (Fq := magnitude (S754_finite sq mq eq)) in *.
      set (Xn := (X / inject_Z n)%Q) in *.
      apply Qabs_Qle_condition in Herr. destruct Herr as [He1 He2].
      assert (Hqb : (Fq <= (16777216 # 1) + (1 # 536870912))%Q) by (clearbody Fq Xn; lra).
      specialize (Hr Hqb). destruct Hr as (Hrf & Hrs & Hrerr).
      split; [exact Hrf|].
      rewrite to_Q_same_sign by (cbn [sign] in *; congruence).
      apply scale_error; [exact Hnpos|].
      change (magnitude (S754_finite s m e) / inject_Z n)%Q with Xn.
      set (Fr := magnitude (round8 (S754_finite sq mq eq))) in *.
      apply Qabs_Qle_condition in Hrerr. destruct Hrerr as [Hr1 Hr2].
      clearbody Fr Fq Xn.
      apply Qabs_Qle_condition. split; lra.
Qed.

End Binary64.


(** ** Symbolic execution of the signed call *)

Lemma lookup_app_new (h : list dict) (d : dict) : lookup (h ++ [d]) (List.length h) = d.
Proof. unfold lookup. induction h; simpl; auto. Qed.

Lemma update_app_new (h : list dict) (d0 d : dict) :
  update (h ++ [d0]) (List.length h) d = (h ++ [d])%list.
Proof. induction h; simpl; auto. now rewrite IHh. Qed.

Lemma lookup_update_same (h : list dict) (r : ref) (d : dict) :
  (r < List.length h)%nat -> lookup (update h r d) r = d.
Proof.
  unfold lookup. revert r. induction h as [|x h IH]; intros [|r] Hr; simpl in *; try lia; auto.
  apply IH. lia.
Qed.

Lemma lookup_update_other (h : list dict) (r r' : ref) (d : dict) :
  r <> r' -> lookup (update h r d) r' = lookup h r'.
Proof.
  unfold lookup. revert r r'. induction h as [|x h IH]; intros [|r] [|r'] Hne; simpl; auto;
    try congruence.
Qed.

Lemma length_update (h : list dict) (r : ref) (d : dict) :
  List.length (update h r d) = List.length h.
Proof.
  revert r. induction h as [|x h IH]; intros [|r]; cbn [update List.length]; auto.
Qed.

Lemma lookup_nonempty_valid (h : list dict) (r : ref) :
  Dict.truthy (lookup h r) = true -> (r < List.length h)%nat.
Proof.
  unfold lookup. revert r. induction h as [|x h IH]; intros [|r]; simpl; try discriminate; try lia.
  intros H. apply IH in H. lia.
Qed.

Lemma run_bind_ret {A B} (m : M A) (f : A -> M B) (w w' : world) (a : A) :
  m w = (inr a, w') -> bind m f w = f a w'.
Proof. intros H. unfold bind. now rewrite H. Qed.

Lemma run_bind_raise {A B} (m : M A) (f : A -> M B) (w w' : world) (e : exn) :
  m w = (inl e, w') -> bind m f w = (inl e, w').
Proof. intros H. unfold bind. now rewrite H. Qed.

Lemma run_try_ret {A} (m : M A) (c : exn -> bool) (h : exn -> M A) (w w' : world) (a : A) :
  m w = (inr a, w') -> try_except m c h w = (inr a, w').
Proof. intros H. unfold try_except. now rewrite H. Qed.

Lemma run_try_catch {A} (m : M A) (c : exn -> bool) (h : exn -> M A) (w w' : world) (e : exn) :
  m w = (inl e, w') -> c e = true -> try_except m c h w = h e w'.
Proof. intros H Hc. unfold try_except. now rewrite H, Hc. Qed.

Lemma run_try_pass {A} (m : M A) (c : exn -> bool) (h : exn -> M A) (w w' : world) (e : exn) :
  m w = (inl e, w') -> c e = false -> try_except m c h w = (inl e, w').
Proof. intros H Hc. unfold try_except. now rewrite H, Hc. Qed.

Lemma Dict_get_set_same (k : string) (v : value) (d : dict) :
  Dict.get k (Dict.set k v d) = Some v.
Proof.
  induction d as [|[k' v'] d IH]; cbn [Dict.set Dict.get].
  - now rewrite String.eqb_refl.
  - destruct (String.eqb k k') eqn:Hk; cbn [Dict.get]; rewrite Hk; auto.
Qed.

Lemma Dict_get_set_other (k k' : string) (v : value) (d : dict) :
  k' <> k -> Dict.get k' (Dict.set k v d) = Dict.get k' d.
Proof.
  intros Hne. induction d as [|[k0 v0] d IH]; cbn [Dict.set Dict.get].
  - destruct (String.eqb k' k) eqn:Hk; [apply String.eqb_eq in Hk; contradiction | reflexivity].
  - destruct (String.eqb k k0) eqn:Hk; cbn [Dict.get].
    + apply String.eqb_eq in Hk. subst k0.
      destruct (String.eqb k' k) eqn:Hk'; [apply String.eqb_eq in Hk'; contradiction | reflexivity].
    + rewrite IH. reflexivity.
Qed.

Lemma Dict_set_fresh (k : string) (v : value) (d : dict) :
  Dict.get k d = None -> Dict.set k v d = (d ++ [(k, v)])%list.
Proof.
  induction d as [|[k' v'] d IH]; cbn [Dict.set Dict.get app]; [reflexivity|].
  destruct (String.eqb k k'); [discriminate|]. intros H. now rewrite IH.
Qed.



Lemma sent_requests_app (l1 l2 : list event) :
  sent_requests (l1 ++ l2) = (sent_requests l1 ++ sent_requests l2)%list.
Proof.
  induction l1 as [|e l1 IH]; [reflexivity|].
  destruct e; cbn [sent_requests app]; rewrite IH; reflexivity.
Qed.

Lemma log_messages_app (l1 l2 : list event) :
  log_messages (l1 ++ l2) = (log_messages l1 ++ log_messages l2)%list.
Proof.
  induction l1 as [|e l1 IH]; [reflexivity|].
  destruct e; cbn [log_messages app]; rewrite IH; reflexivity.
Qed.

Section Execution.

Context {RT : Runtime} (E : env).

Lemma params_or_new_run (params : option ref) (w : world) :
  params_or_new params w =
    (inr (target params w),
     {| heap := target_heap params w; clock_reads := clock_reads w;
        http_calls := http_calls w; events := events w |}).
Proof.
  unfold params_or_new, target, target_heap. destruct params as [r|].
  - unfold bind, deref. destruct (Dict.truthy (lookup (heap w) r)); destruct w; reflexivity.
  - reflexivity.
Qed.

Lemma target_valid (params : option ref) (w : world) :
  (target params w < List.length (target_heap params w))%nat.
Proof.
  unfold target, target_heap. destruct params as [r|].
  - destruct (Dict.truthy (lookup (heap w) r)) eqn:Ht.
    + now apply lookup_nonempty_valid.
    + rewrite length_app. simpl. lia.
  - rewrite length_app. simpl. lia.
Qed.

Lemma send_exec (bot : BasicBot) (method path : string) (params : option ref) (w : world) :
  PyStr.upper method = "POST" \/ PyStr.upper method = "GET" ->
  let d := stamped E params w in
  let req := signed_request bot (PyStr.upper method) path d in
  let o := exchange E (http_calls w) req in
  _send_signed_request E bot method path params w =
    (send_result o,
     {| heap := update (target_heap params w) (target params w) d;
        clock_reads := S (clock_reads w);
        http_calls := S (http_calls w);
        events := (events w ++ [request_line bot method path d; EvHttp req]
                            ++ send_events o)%list |}).
Proof.
  intros Hm d req o.
  assert (Hreq : forall w1,
    (if String.eqb (PyStr.upper method) "POST"
     then session_request E bot "POST" ((base_url bot ++ path) ++ "?" ++ _sign_payload bot d) 10
     else if String.eqb (PyStr.upper method) "GET"
          then session_request E bot "GET" ((base_url bot ++ path) ++ "?" ++ _sign_payload bot d) 10
          else raise (ValueError ("Unsupported HTTP method: " ++ method))) w1
    = session_request E bot (PyStr.upper method)
        ((base_url bot ++ path) ++ "?" ++ _sign_payload bot d) 10 w1).
  { intros w1. destruct Hm as [-> | ->]; reflexivity. }
  unfold _send_signed_request.
  erewrite run_bind_ret by apply params_or_new_run.
  erewrite run_bind_ret by reflexivity.
  erewrite run_bind_ret by reflexivity.
  erewrite run_bind_ret by reflexivity.
  cbn [heap clock_reads http_calls events].
  rewrite (lookup_update_same _ _ _ (target_valid params w)). fold d.
  erewrite run_bind_ret by reflexivity.
  unfold try_except. cbn [heap clock_reads http_calls events].
  unfold bind at 1. rewrite Hreq. unfold session_request.
  cbn [heap clock_reads http_calls events].
  unfold send_events, send_result. subst o req. unfold signed_request.
  destruct (exchange E (http_calls w) _) as [k msg | r].
  - cbv [bind logger_exception emit raise is_RequestException].
    cbn [heap clock_reads http_calls events].
    repeat rewrite <- app_assoc. reflexivity.
  - cbv [bind logger_info logger_exception emit raise ret raise_for_status response_json].
    cbn [heap clock_reads http_calls events].
    destruct ((400 <=? resp_status_code r) && (resp_status_code r <? 500))%bool.
    { cbn [is_RequestException heap clock_reads http_calls events].
      repeat rewrite <- app_assoc. reflexivity. }
    destruct ((500 <=? resp_status_code r) && (resp_status_code r <? 600))%bool.
    { cbn [is_RequestException heap clock_reads http_calls events].
      repeat rewrite <- app_assoc. reflexivity. }
    destruct (json_loads (resp_text r));
      cbn [is_RequestException heap clock_reads http_calls events];
      repeat rewrite <- app_assoc; reflexivity.
Qed.

Lemma sent_requests_send_events (o : http_outcome) :
  sent_requests (send_events o) = [].
Proof.
  unfold send_events. destruct o as [k msg | r]; [reflexivity|].
  destruct (send_result (Answered r)); reflexivity.
Qed.

Lemma target_given (params : option ref) (w : world) :
  lookup (target_heap params w) (target params w) = given_params params w.
Proof.
  unfold target, target_heap, given_params. destruct params as [r|].
  - destruct (Dict.truthy (lookup (heap w) r)) eqn:Ht; [reflexivity|].
    rewrite lookup_app_new. destruct (lookup (heap w) r); [reflexivity | discriminate].
  - apply lookup_app_new.
Qed.

(** A method other than POST and GET: the request line is logged and
    [ValueError] leaves the [try] block uncaught. *)
Lemma send_unsupported (bot : BasicBot) (method path : string) (params : option ref)
    (w : world) :
  String.eqb (PyStr.upper method) "POST" = false ->
  String.eqb (PyStr.upper method) "GET" = false ->
  let d := stamped E params w in
  _send_signed_request E bot method path params w =
    (inl (ValueError ("Unsupported HTTP method: " ++ method)),
     {| heap := update (target_heap params w) (target params w) d;
        clock_reads := S (clock_reads w);
        http_calls := http_calls w;
        events := (events w ++ [request_line bot method path d])%list |}).
Proof.
  intros Hp Hg d. unfold _send_signed_request.
  erewrite run_bind_ret by apply params_or_new_run.
  erewrite run_bind_ret by reflexivity.
  erewrite run_bind_ret by reflexivity.
  erewrite run_bind_ret by reflexivity.
  cbn [heap clock_reads http_calls events].
  rewrite (lookup_update_same _ _ _ (target_valid params w)). fold d.
  erewrite run_bind_ret by reflexivity.
  rewrite Hp, Hg. reflexivity.
Qed.

(** For every method: the heap after the call, and the request line as
    the first new event. *)
Lemma send_frame (bot : BasicBot) (method path : string) (params : option ref)
    (w : world) :
  let d := stamped E params w in
  let w' := snd (_send_signed_request E bot method path params w) in
  heap w' = update (target_heap params w) (target params w) d
  /\ exists rest,
       events w' = (events w ++ request_line bot method path d :: rest)%list
       /\ forall req, In req (sent_requests rest) ->
            req = signed_request bot (PyStr.upper method) path d.
Proof.
  intros d w'. subst w'.
  destruct (String.eqb (PyStr.upper method) "POST") eqn:Hp;
    [|destruct (String.eqb (PyStr.upper method) "GET") eqn:Hg].
  - apply String.eqb_eq in Hp.
    rewrite send_exec by (left; exact Hp). cbn [snd heap events].
    split; [reflexivity|]. eexists. split; [reflexivity|].
    intros req Hin. cbn [sent_requests] in Hin.
    rewrite sent_requests_send_events in Hin.
    destruct Hin as [<- | []]. reflexivity.
  - apply String.eqb_eq in Hg.
    rewrite send_exec by (right; exact Hg). cbn [snd heap events].
    split; [reflexivity|]. eexists. split; [reflexivity|].
    intros req Hin. cbn [sent_requests] in Hin.
    rewrite sent_requests_send_events in Hin.
    destruct Hin as [<- | []]. reflexivity.
  - rewrite send_unsupported by assumption. cbn [snd heap events].
    split; [reflexivity|]. exists []. split; [reflexivity|].
    intros req [].
Qed.

Lemma send_result_is_Exception (o : http_outcome) (e : exn) :
  send_result o = inl e -> is_Exception e = true.
Proof.
  unfold send_result. destruct o as [k msg | r].
  - intros [= <-]. reflexivity.
  - destruct ((400 <=? _) && _)%bool; [intros [= <-]; reflexivity|].
    destruct ((500 <=? _) && _)%bool; [intros [= <-]; reflexivity|].
    destruct (json_loads _); intros [= <-]. reflexivity.
Qed.

Lemma place_market_order_exec (bot : BasicBot) (symbol side : string)
    (quantity : float) (reduce_only : bool) (w : world) :
  let d := stamped_market_params symbol side quantity reduce_only
             (clock E (clock_reads w)) in
  let req := market_request bot symbol side quantity reduce_only
               (clock E (clock_reads w)) in
  let o := exchange E (http_calls w) req in
  place_market_order E bot symbol side quantity reduce_only w =
    (send_result o,
     {| heap := (heap w ++ [d])%list;
        clock_reads := S (clock_reads w);
        http_calls := S (http_calls w);
        events := (events w ++ [request_line bot "POST" order_path d; EvHttp req]
                            ++ send_events o)%list |}).
Proof.
  intros d req o. unfold place_market_order.
  erewrite run_bind_ret by reflexivity.
  rewrite send_exec by (left; reflexivity).
  unfold stamped, target, target_heap.
  cbn [heap clock_reads http_calls events].
  rewrite lookup_app_new. cbn [market_params Dict.truthy].
  rewrite lookup_app_new, update_app_new.
  reflexivity.
Qed.

(** One pass through the [try] block of the slice loop. *)
Lemma twap_attempt_exec (bot : BasicBot) (symbol side : string) (slice_qty : float)
    (i : Z) (responses : list json) (w : world) :
  exists w',
    try_except
      (resp <- place_market_order E bot symbol side (PyFloat.round8 slice_qty) false ;;
       ret (responses ++ [resp])%list)
      is_Exception
      (fun e =>
         logger_exception ("Error executing TWAP slice " ++ PyStr.str_int (i + 1)
                           ++ ": " ++ exn_str e) e ;;
         ret (responses ++ [error_entry e])%list) w
    = (inr (responses ++
            [slice_entry (slice_outcome E bot symbol side slice_qty
                            (clock_reads w) (http_calls w) 0)])%list, w')
    /\ clock_reads w' = S (clock_reads w)
    /\ http_calls w' = S (http_calls w)
    /\ sent_requests (events w') =
         (sent_requests (events w) ++
          [market_request bot symbol side (PyFloat.round8 slice_qty) false
             (clock E (clock_reads w))])%list.
Proof.
  unfold slice_outcome, slice_entry. rewrite !Nat.add_0_r.
  pose proof (place_market_order_exec bot symbol side (PyFloat.round8 slice_qty) false w)
    as Hexec. cbv zeta in Hexec.
  destruct (send_result (exchange E (http_calls w) _)) as [e | v] eqn:Hres.
  - eexists. split.
    + erewrite run_try_catch.
      * unfold bind, logger_exception, emit, ret. reflexivity.
      * erewrite run_bind_raise by exact Hexec. reflexivity.
      * eapply send_result_is_Exception. exact Hres.
    + cbn [clock_reads http_calls events]. split; [reflexivity|]. split; [reflexivity|].
      rewrite !sent_requests_app, sent_requests_send_events. cbn [sent_requests].
      rewrite !app_nil_r. reflexivity.
  - eexists. split.
    + erewrite run_try_ret; [reflexivity|].
      erewrite run_bind_ret by exact Hexec. reflexivity.
    + cbn [clock_reads http_calls events]. split; [reflexivity|]. split; [reflexivity|].
      rewrite !sent_requests_app, sent_requests_send_events. cbn [sent_requests].
      rewrite !app_nil_r. reflexivity.
Qed.

Lemma slice_requests_S (bot : BasicBot) (symbol side : string)
    (slice_qty : float) (c n : nat) :
  slice_requests E bot symbol side slice_qty c (S n) =
    market_request bot symbol side (PyFloat.round8 slice_qty) false (clock E c)
    :: slice_requests E bot symbol side slice_qty (S c) n.
Proof.
  unfold slice_requests. cbn [seq map]. rewrite Nat.add_0_r. f_equal.
  rewrite <- seq_shift, map_map. apply map_ext. intros j.
  rewrite Nat.add_succ_r. reflexivity.
Qed.

Lemma twap_loop_exec (bot : BasicBot) (symbol side : string) (slice_qty : float)
    (slices : Z) (interval : float) :
  forall (remaining : nat) (i : Z) (responses : list json) (w : world),
    sleep_error interval = None \/ slices - 1 <= i ->
    exists w',
      twap_loop E bot symbol side slice_qty slices interval remaining i responses w
      = (inr (responses ++
              map (fun j => slice_entry (slice_outcome E bot symbol side slice_qty
                                           (clock_reads w) (http_calls w) j))
                  (seq 0 remaining))%list, w')
      /\ clock_reads w' = (clock_reads w + remaining)%nat
      /\ http_calls w' = (http_calls w + remaining)%nat
      /\ sent_requests (events w') =
           (sent_requests (events w) ++
            slice_requests E bot symbol side slice_qty (clock_reads w) remaining)%list.
Proof.
  induction remaining as [|k IH]; intros i responses w Hsleep.
  - exists w. cbn. rewrite !app_nil_r, !Nat.add_0_r. auto.
  - cbn [twap_loop].
    erewrite run_bind_ret by reflexivity.
    match goal with
    | |- exists _, bind _ _ ?w0 = _ /\ _ => set (w1 := w0)
    end.
    assert (Hc1 : clock_reads w1 = clock_reads w) by reflexivity.
    assert (Hh1 : http_calls w1 = http_calls w) by reflexivity.
    assert (Hs1 : sent_requests (events w1) = sent_requests (events w)).
    { subst w1. cbn [events]. rewrite sent_requests_app. cbn [sent_requests].
      apply app_nil_r. }
    clearbody w1.
    destruct (twap_attempt_exec bot symbol side slice_qty i responses w1)
      as (w2 & Hrun & Hc & Hh & Hs).
    erewrite run_bind_ret by exact Hrun.
    assert (Hsl : exists w3,
               (if i <? slices - 1 then sleep interval else ret tt) w2 = (inr tt, w3)
               /\ clock_reads w3 = clock_reads w2 /\ http_calls w3 = http_calls w2
               /\ sent_requests (events w3) = sent_requests (events w2)).
    { destruct (i <? slices - 1) eqn:Hi.
      - destruct Hsleep as [Hok | Hlast]; [|apply Z.ltb_lt in Hi; lia].
        unfold sleep. rewrite Hok. eexists. split; [reflexivity|].
        cbn [clock_reads http_calls events]. split; [reflexivity|]. split; [reflexivity|].
        rewrite sent_requests_app. cbn [sent_requests]. apply app_nil_r.
      - exists w2. repeat split. }
    destruct Hsl as (w3 & Hsl & Hc3 & Hh3 & Hs3).
    erewrite run_bind_ret by exact Hsl.
    destruct (IH (i + 1) (responses ++
              [slice_entry (slice_outcome E bot symbol side slice_qty
                              (clock_reads w1) (http_calls w1) 0)])%list w3)
      as (w4 & Hrec & Hc4 & Hh4 & Hs4).
    { destruct Hsleep as [Hok | Hlast]; [left; exact Hok | right; lia]. }
    exists w4. split; [|split; [|split]].
    + rewrite Hrec, <- app_assoc, Hc1, Hh1.
      cbn [seq map app]. rewrite <- seq_shift, map_map.
      do 4 f_equal. apply map_ext. intros j.
      unfold slice_outcome. rewrite Hc3, Hh3, Hc, Hh, Hc1, Hh1.
      rewrite !Nat.add_succ_r. reflexivity.
    + rewrite Hc4, Hc3, Hc, Hc1. lia.
    + rewrite Hh4, Hh3, Hh, Hh1. lia.
    + rewrite Hs4, Hs3, Hs, Hs1, Hc3, Hc, Hc1, <- app_assoc.
      rewrite slice_requests_S. reflexivity.
Qed.

(** Whatever happens to a run of the loop, every request it sends is
    the order of a slice, in slice order. *)
Lemma twap_loop_sent (bot : BasicBot) (symbol side : string) (slice_qty : float)
    (slices : Z) (interval : float) :
  forall (remaining : nat) (i : Z) (responses : list json) (w : world),
    exists n,
      (n <= remaining)%nat /\
      sent_requests
        (events (snd (twap_loop E bot symbol side slice_qty slices interval
                        remaining i responses w))) =
        (sent_requests (events w) ++
         slice_requests E bot symbol side slice_qty (clock_reads w) n)%list.
Proof.
  induction remaining as [|k IH]; intros i responses w.
  - exists 0%nat. split; [lia|]. cbn. now rewrite app_nil_r.
  - cbn [twap_loop].
    erewrite run_bind_ret by reflexivity.
    match goal with
    | |- exists _, _ /\ sent_requests (events (snd (bind _ _ ?w0))) = _ => set (w1 := w0)
    end.
    assert (Hc1 : clock_reads w1 = clock_reads w) by reflexivity.
    assert (Hs1 : sent_requests (events w1) = sent_requests (events w)).
    { subst w1. cbn [events]. rewrite sent_requests_app. cbn [sent_requests].
      apply app_nil_r. }
    clearbody w1.
    destruct (twap_attempt_exec bot symbol side slice_qty i responses w1)
      as (w2 & Hrun & Hc & Hh & Hs).
    erewrite run_bind_ret by exact Hrun.
    destruct (i <? slices - 1) eqn:Hi.
    + unfold sleep. destruct (sleep_error interval) as [e|] eqn:Hse.
      * (* the sleep raises: the run ends after this slice *)
        exists 1%nat. split; [lia|].
        erewrite run_bind_raise by reflexivity. cbn [snd].
        rewrite Hs, Hs1, Hc1. unfold slice_requests. cbn [seq map].
        rewrite Nat.add_0_r. reflexivity.
      * erewrite run_bind_ret by reflexivity.
        match goal with
        | |- exists _, _ /\ sent_requests (events (snd (twap_loop _ _ _ _ _ _ _ _ _ ?r ?w0))) = _ =>
            destruct (IH (i + 1) r w0) as (n & Hn & Hsent)
        end.
        exists (S n). split; [lia|].
        rewrite Hsent. cbn [events clock_reads].
        rewrite sent_requests_app. cbn [sent_requests]. rewrite app_nil_r.
        rewrite Hs, Hs1, Hc, Hc1, <- app_assoc, slice_requests_S. reflexivity.
    + erewrite run_bind_ret by reflexivity.
      match goal with
      | |- exists _, _ /\ sent_requests (events (snd (twap_loop _ _ _ _ _ _ _ _ _ ?r ?w0))) = _ =>
          destruct (IH (i + 1) r w0) as (n & Hn & Hsent)
      end.
      exists (S n). split; [lia|].
      rewrite Hsent, Hs, Hs1, Hc, Hc1, <- app_assoc, slice_requests_S. reflexivity.
Qed.

End Execution.

(** ** Published test vectors *)

(** FIPS 180-4: the first and the last round constant, and the first
    word of the initial hash value. *)
Example sha256_constants :
  nth 0 Sha256.K 0 = 0x428a2f98 /\ nth 63 Sha256.K 0 = 0xc67178f2
  /\ List.length Sha256.K = 64%nat /\ nth 0 Sha256.H0 0 = 0x6a09e667.
Proof. repeat split; reflexivity. Qed.

(** The digest of ["abc"]. *)
Example sha256_abc :
  Hmac.hex (Sha256.digest (Hmac.bytes_of_string "abc")) =
  "ba7816bf8f01cfea414140de5dae2223b00361a396177a9cb410ff61f20015ad".
Proof. vm_compute. reflexivity. Qed.

(** RFC 4231, test case 2. *)
Example hmac_rfc4231_case2 :
  Hmac.hexdigest "Jefe" "what do ya want for nothing?" =
  "5bdcc146bf60754e6a042426089575c75a003f089d2739839dec58b964ec3843".
Proof. vm_compute. reflexivity. Qed.

(** * The claims *)

Lemma float_truediv_int_defined (x : float) (n : Z) :
  1 <= n < 2 ^ 1023 ->
  float_truediv_int x n = inr (PyFloat.div x (PyFloat.of_int n)).
Proof.
  intros Hn. destruct (Binary64.of_int_pos n Hn) as (m & e & Hy & _).
  unfold float_truediv_int. rewrite Hy. reflexivity.
Qed.

Section Claims.

Context {RT : Runtime} (E : env).

(** A TWAP run whose slice count converts to a float and whose interval
    [time.sleep] accepts: the log holds the entry of every slice, in
    order, and the requests sent are the orders of the slices. *)
Lemma place_twap_exec (bot : BasicBot) (symbol side : string) (quantity : float)
    (N : Z) (interval : float) (w : world) :
  1 <= N < 2 ^ 1023 ->
  N = 1 \/ sleep_error interval = None ->
  let q := PyFloat.div quantity (PyFloat.of_int N) in
  exists w',
    place_twap E bot symbol side quantity N interval w =
      (inr (map (fun j => slice_entry (slice_outcome E bot symbol side q
                                         (clock_reads w) (http_calls w) j))
                (seq 0 (Z.to_nat N))), w')
    /\ sent_requests (events w') =
         (sent_requests (events w) ++
          slice_requests E bot symbol side q (clock_reads w) (Z.to_nat N))%list.
Proof.
  intros HN Hsleep q. subst q. unfold place_twap.
  destruct (N <=? 0) eqn:Hle; [apply Z.leb_le in Hle; lia|].
  erewrite run_bind_ret by (unfold lift; rewrite float_truediv_int_defined by exact HN; reflexivity).
  erewrite run_bind_ret by reflexivity.
  match goal with
  | |- exists _, twap_loop _ _ _ _ _ _ _ _ _ _ ?w0 = _ /\ _ => set (w1 := w0)
  end.
  destruct (twap_loop_exec E bot symbol side (PyFloat.div quantity (PyFloat.of_int N))
              N interval (Z.to_nat N) 0 [] w1)
    as (w' & Hrun & _ & _ & Hsent).
  { destruct Hsleep as [-> | Hok]; [right; lia | left; exact Hok]. }
  exists w'. split.
  - rewrite Hrun. reflexivity.
  - rewrite Hsent. subst w1. cbn [events clock_reads].
    rewrite sent_requests_app. cbn [sent_requests]. rewrite app_nil_r. reflexivity.
Qed.

(** C6. A TWAP call with a slice count below 1 raises [ValueError]
    at once: the world is left as it was, so no order is placed, no request
    is sent and nothing is logged. *)
Theorem place_twap_rejects_slice_count (bot : BasicBot) (symbol side : string)
    (quantity : float) (slices : Z) (interval : float) (w : world) :
  slices < 1 ->
  place_twap E bot symbol side quantity slices interval w =
    (inl (ValueError "slices must be >= 1"), w).
Proof.
  intros Hs. unfold place_twap.
  destruct (slices <=? 0) eqn:Hle; [reflexivity|].
  apply Z.leb_gt in Hle. lia.
Qed.

(** C3, amended. For every total quantity, every slice count [N] with
    [1 <= N < 2^1023] and every interval that [time.sleep] accepts (any
    interval when [N = 1]), [place_twap] returns a log of exactly [N]
    entries, the entry at position [j] being the outcome of slice [j]. *)
Theorem twap_log_one_entry_per_slice (bot : BasicBot) (symbol side : string)
    (quantity : float) (N : Z) (interval : float) (w : world) :
  1 <= N < 2 ^ 1023 ->
  N = 1 \/ sleep_error interval = None ->
  exists log w',
    place_twap E bot symbol side quantity N interval w = (inr log, w')
    /\ Z.of_nat (List.length log) = N
    /\ forall j, (j < Z.to_nat N)%nat ->
         nth_error log j =
           Some (slice_entry
                   (slice_outcome E bot symbol side
                      (PyFloat.div quantity (PyFloat.of_int N))
                      (clock_reads w) (http_calls w) j)).
Proof.
  intros HN Hsleep.
  destruct (place_twap_exec bot symbol side quantity N interval w HN Hsleep)
    as (w' & Hrun & _).
  eexists. exists w'. split; [exact Hrun|]. split.
  - rewrite length_map, length_seq. lia.
  - intros j Hj. rewrite nth_error_map, nth_error_seq.
    destruct (Nat.ltb_spec j (Z.to_nat N)); [reflexivity | lia].
Qed.

(** C4, amended. In a TWAP run with [1 <= N < 2^1023] slices and an
    interval that [time.sleep] accepts, a failed order at slice [i] does
    not end the run: exactly [N] requests are sent, one per slice in slice
    order, the log has [N] entries, entry [i] is the [{'error': str(e)}]
    of the failure and every position holds the outcome of its slice. *)
Theorem twap_failure_isolated (bot : BasicBot) (symbol side : string)
    (quantity : float) (N : Z) (interval : float) (w : world) (i : nat) (e : exn) :
  1 <= N < 2 ^ 1023 ->
  N = 1 \/ sleep_error interval = None ->
  (i < Z.to_nat N)%nat ->
  let q := PyFloat.div quantity (PyFloat.of_int N) in
  send_result (slice_outcome E bot symbol side q (clock_reads w) (http_calls w) i)
    = inl e ->
  exists log w',
    place_twap E bot symbol side quantity N interval w = (inr log, w')
    /\ sent_requests (events w') =
         (sent_requests (events w) ++
          slice_requests E bot symbol side q (clock_reads w) (Z.to_nat N))%list
    /\ Z.of_nat (List.length log) = N
    /\ nth_error log i = Some (error_entry e)
    /\ forall j, (j < Z.to_nat N)%nat ->
         nth_error log j =
           Some (slice_entry
                   (slice_outcome E bot symbol side q
                      (clock_reads w) (http_calls w) j)).
Proof.
  intros HN Hsleep Hi q Hfail. subst q.
  destruct (place_twap_exec bot symbol side quantity N interval w HN Hsleep)
    as (w' & Hrun & Hsent).
  set (q := PyFloat.div quantity (PyFloat.of_int N)) in *.
  assert (Hnth : forall j, (j < Z.to_nat N)%nat ->
            nth_error
              (map (fun j => slice_entry (slice_outcome E bot symbol side q
                                            (clock_reads w) (http_calls w) j))
                   (seq 0 (Z.to_nat N))) j =
            Some (slice_entry (slice_outcome E bot symbol side q
                                 (clock_reads w) (http_calls w) j))).
  { intros j Hj. rewrite nth_error_map, nth_error_seq.
    destruct (Nat.ltb_spec j (Z.to_nat N)); [reflexivity | lia]. }
  eexists. exists w'. split; [exact Hrun|]. split; [exact Hsent|]. split; [|split].
  - rewrite length_map, length_seq. lia.
  - rewrite (Hnth i Hi). unfold slice_entry. rewrite Hfail. reflexivity.
  - exact Hnth.
Qed.

(** C1, amended. When the HTTP exchange of a POST or GET call ends in
    a transport failure, a 4xx/5xx status or a body that does not decode,
    the send operation logs the exception and raises it to its caller: a
    transport exception, an [HTTPError] that carries the response (and so
    its status code), or a [JSONDecodeError].  No result value is
    returned. *)
Theorem send_failure_is_raised (bot : BasicBot) (method path : string)
    (params : option ref) (w : world) (e : exn) :
  PyStr.upper method = "POST" \/ PyStr.upper method = "GET" ->
  let d := stamped E params w in
  let o := exchange E (http_calls w) (signed_request bot (PyStr.upper method) path d) in
  send_result o = inl e ->
  let run := _send_signed_request E bot method path params w in
  fst run = inl e
  /\ is_RequestException e = true
  /\ (exists before, events (snd run) = (before ++ [failure_line e])%list)
  /\ match o with
     | Failed k msg => e = TransportError k msg
     | Answered r =>
         if ((400 <=? resp_status_code r) && (resp_status_code r <? 600))%bool
         then exists msg, e = HTTPError msg r
         else exists msg, json_loads (resp_text r) = inl msg /\ e = JSONDecodeError msg
     end.
Proof.
  intros Hm d o Hres run. subst run. rewrite send_exec by exact Hm.
  fold d. fold o. cbn [fst snd events].
  split; [exact Hres|].
  assert (Hcls : is_RequestException e = true
                 /\ match o with
                    | Failed k msg => e = TransportError k msg
                    | Answered r =>
                        if ((400 <=? resp_status_code r) && (resp_status_code r <? 600))%bool
                        then exists msg, e = HTTPError msg r
                        else exists msg, json_loads (resp_text r) = inl msg
                                         /\ e = JSONDecodeError msg
                    end).
  { clearbody o. unfold send_result in Hres. destruct o as [k msg | r].
    - injection Hres as <-. split; reflexivity.
    - destruct ((400 <=? resp_status_code r) && (resp_status_code r <? 500))%bool eqn:H4.
      + injection Hres as <-. split; [reflexivity|].
        replace ((400 <=? resp_status_code r) && (resp_status_code r <? 600))%bool
          with true by (symmetry; bool_lia). eexists. reflexivity.
      + destruct ((500 <=? resp_status_code r) && (resp_status_code r <? 600))%bool eqn:H5.
        * injection Hres as <-. split; [reflexivity|].
          replace ((400 <=? resp_status_code r) && (resp_status_code r <? 600))%bool
            with true by (symmetry; bool_lia). eexists. reflexivity.
        * replace ((400 <=? resp_status_code r) && (resp_status_code r <? 600))%bool
            with false by (symmetry; bool_lia).
          destruct (json_loads (resp_text r)) as [msg|v]; [|discriminate].
          injection Hres as <-. split; [reflexivity|]. exists msg. auto. }
  destruct Hcls as [Hreq Hkind]. split; [exact Hreq|]. split; [|exact Hkind].
  unfold send_events. clearbody o. destruct o as [k msg | r].
  - unfold send_result in Hres. injection Hres as <-.
    eexists. rewrite app_assoc. reflexivity.
  - rewrite Hres. eexists.
    change (response_line r :: [failure_line e])
      with ([response_line r] ++ [failure_line e])%list.
    rewrite !app_assoc. reflexivity.
Qed.

(** C2, amended. The request line the send operation logs is
    [REQUEST -> METHOD url?query&signature=<hex digest>]: it holds the
    full signed query, signature included, the very URL of the live
    request. *)
Theorem request_line_holds_signature (bot : BasicBot) (method path : string)
    (params : option ref) (w : world) :
  let d := stamped E params w in
  let signature := hmac_sha256_hexdigest (api_secret bot) (Url.urlencode d) in
  exists rest,
    events (snd (_send_signed_request E bot method path params w)) =
      (events w ++
       EvLog INFO ("REQUEST -> " ++ PyStr.upper method ++ " " ++ (base_url bot ++ path)
                   ++ "?" ++ Url.urlencode d ++ "&signature=" ++ signature) None
       :: rest)%list
    /\ forall req, In req (sent_requests rest) ->
         req_url req = (base_url bot ++ path) ++ "?" ++ Url.urlencode d
                       ++ "&signature=" ++ signature.
Proof.
  intros d signature.
  destruct (send_frame E bot method path params w) as [_ (rest & Hev & Hreq)].
  exists rest. split; [exact Hev|].
  intros req Hin. rewrite (Hreq req Hin). reflexivity.
Qed.


(** C10, amended. When the send operation is handed a non-empty
    mapping, that very dict object gets the clock's reading under
    [timestamp] (in place), every other key keeps its value, no
    [signature] key is inserted, every other object of the heap is
    untouched and no object is created. *)
Theorem send_stamps_the_callers_mapping (bot : BasicBot) (method path : string)
    (r : ref) (w : world) :
  Dict.truthy (lookup (heap w) r) = true ->
  let w' := snd (_send_signed_request E bot method path (Some r) w) in
  let d := lookup (heap w) r in
  lookup (heap w') r = Dict.set "timestamp" (VInt (clock E (clock_reads w))) d
  /\ (forall k, k <> "timestamp" -> Dict.get k (lookup (heap w') r) = Dict.get k d)
  /\ Dict.get "signature" (lookup (heap w') r) = Dict.get "signature" d
  /\ (forall r', r' <> r -> lookup (heap w') r' = lookup (heap w) r')
  /\ List.length (heap w') = List.length (heap w).
Proof.
  intros Ht w' d. subst w'.
  destruct (send_frame E bot method path (Some r) w) as [Hheap _].
  rewrite Hheap. unfold stamped, target, target_heap. rewrite Ht. fold d.
  pose proof (lookup_nonempty_valid _ _ Ht) as Hvalid.
  assert (Hsame : lookup (update (heap w) r
                            (Dict.set "timestamp" (VInt (clock E (clock_reads w))) d)) r
                  = Dict.set "timestamp" (VInt (clock E (clock_reads w))) d)
    by (apply lookup_update_same; exact Hvalid).
  split; [exact Hsame|]. split; [|split; [|split]].
  - intros k Hk. rewrite Hsame. apply Dict_get_set_other. exact Hk.
  - rewrite Hsame. apply Dict_get_set_other. discriminate.
  - intros r' Hne. apply lookup_update_other. congruence.
  - apply length_update.
Qed.

Lemma validate_args_nonpositive (a : args) (w : world) :
  PyFloat.le (arg_quantity a) PyFloat.zero = true ->
  exists msg, validate_args a w = (inl (SystemExit msg), w).
Proof.
  intros Hq. unfold validate_args.
  destruct (falsy (arg_api_key a) || falsy (arg_api_secret a))%bool;
    [eexists; reflexivity|].
  destruct (String.eqb (arg_type a) "LIMIT" && is_None (arg_price a))%bool;
    [eexists; reflexivity|].
  destruct (String.eqb (arg_type a) "STOP"
            && (is_None (arg_stop_price a) || is_None (arg_price a)))%bool;
    [eexists; reflexivity|].
  rewrite Hq. eexists; reflexivity.
Qed.

(** C8, amended. An order placed through the command line with a
    non-positive quantity ends in [SystemExit] raised by the argument
    validation, before the bot is constructed: no request is sent, and the
    one effect is the error line in the log.  (The placement methods of
    the bot themselves do not check the quantity.) *)
Theorem main_rejects_nonpositive_quantity (a : args) (w : world) :
  PyFloat.le (arg_quantity a) PyFloat.zero = true ->
  exists msg,
    main E a w =
      (inl (SystemExit msg),
       {| heap := heap w;
          clock_reads := clock_reads w;
          http_calls := http_calls w;
          events := (events w ++
                     [EvLog ERROR ("Argument validation failed: " ++ msg) None])%list |}).
Proof.
  intros Hq. destruct (validate_args_nonpositive a w Hq) as [msg Hv].
  exists msg. unfold main.
  erewrite run_bind_raise; [reflexivity|].
  erewrite run_try_catch; [|exact Hv|reflexivity].
  reflexivity.
Qed.





Lemma place_twap_sent (bot : BasicBot) (symbol side : string) (quantity : float)
    (N : Z) (interval : float) (w : world) :
  1 <= N < 2 ^ 1023 ->
  exists n,
    (n <= Z.to_nat N)%nat /\
    sent_requests (events (snd (place_twap E bot symbol side quantity N interval w))) =
      (sent_requests (events w) ++
       slice_requests E bot symbol side (PyFloat.div quantity (PyFloat.of_int N))
         (clock_reads w) n)%list.
Proof.
  intros HN. unfold place_twap.
  destruct (N <=? 0) eqn:Hle; [apply Z.leb_le in Hle; lia|].
  erewrite run_bind_ret by (unfold lift; rewrite float_truediv_int_defined by exact HN; reflexivity).
  erewrite run_bind_ret by reflexivity.
  match goal with
  | |- exists _, _ /\ sent_requests (events (snd (twap_loop _ _ _ _ _ _ _ _ _ _ ?w0))) = _ =>
      set (w1 := w0)
  end.
  destruct (twap_loop_sent E bot symbol side (PyFloat.div quantity (PyFloat.of_int N))
              N interval (Z.to_nat N) 0 [] w1) as (n & Hn & Hsent).
  exists n. split; [exact Hn|]. rewrite Hsent. subst w1. cbn [events clock_reads].
  rewrite sent_requests_app. cbn [sent_requests]. rewrite app_nil_r. reflexivity.
Qed.

(** C7, amended. For a finite total quantity [Q] and a slice count [N]
    with [1 <= N < 2^53] and [|Q| <= 2^24 * N], every order a TWAP run
    sends carries the same quantity, [round(float(Q) / N, 8)] (the
    binary64 quotient, rounded to the nearest decimal of 8 places, as a
    binary64), and [N] times that quantity is within [N * 10^-8] of
    [Q]. *)
Theorem twap_quantity_conserved (bot : BasicBot) (symbol side : string)
    (quantity : float) (N : Z) (interval : float) (w : world) :
  1 <= N < 2 ^ 53 ->
  PyFloat.is_finite quantity = true ->
  (PyFloat.magnitude quantity <= 16777216 * inject_Z N)%Q ->
  let q := PyFloat.div quantity (PyFloat.of_int N) in
  let slice := PyFloat.round8 q in
  float_truediv_int quantity N = inr q
  /\ (exists n,
        (n <= Z.to_nat N)%nat /\
        sent_requests (events (snd (place_twap E bot symbol side quantity N interval w))) =
          (sent_requests (events w) ++
           map (fun j => market_request bot symbol side slice false
                           (clock E (clock_reads w + j)))
               (seq 0 n))%list)
  /\ PyFloat.is_finite slice = true
  /\ (Qabs (inject_Z N * PyFloat.to_Q slice - PyFloat.to_Q quantity)
       <= inject_Z N * (1 # 100000000))%Q.
Proof.
  intros HN Hfin Hmag q slice.
  assert (HN' : 1 <= N < 2 ^ 1023).
  { split; [lia|]. assert (2 ^ 53 < 2 ^ 1023) by (apply Z.pow_lt_mono_r; lia). lia. }
  split; [apply float_truediv_int_defined; exact HN'|].
  split; [exact (place_twap_sent bot symbol side quantity N interval w HN')|].
  exact (Binary64.quotient_round8_error quantity N HN Hfin Hmag).
Qed.

End Claims.

(** A slice count of zero. *)
Lemma place_twap_rejects_slice_count_witness :
  0 < 1 /\
  @place_twap Demo.runtime Demo.env_up Demo.bot "BTCUSDT" "SELL" Demo.f_0_01 0 Demo.f_1
     initial_world
  = (inl (ValueError "slices must be >= 1"), initial_world).
Proof.
  split; [lia|].
  apply (@place_twap_rejects_slice_count Demo.runtime Demo.env_up). lia.
Defined.

(** C3 as stated fails: with two slices and an interval of [-1.0] the
    first slice is placed, [time.sleep] raises, and no log is returned. *)
Lemma twap_negative_interval_no_log :
  ~ returns_value
      (fst (@place_twap Demo.runtime Demo.env_up Demo.bot "BTCUSDT" "SELL"
              Demo.f_0_01 2 Demo.f_minus_1 initial_world)).
Proof.
  intros [log Hlog]. vm_compute in Hlog. discriminate Hlog.
Qed.

(** Three slices one second apart, the second one failing. *)
Lemma twap_log_one_entry_per_slice_witness :
  exists log w',
    @place_twap Demo.runtime (Demo.env_down_at 1) Demo.bot "BTCUSDT" "SELL"
       Demo.f_0_01 3 Demo.f_1 initial_world = (inr log, w')
    /\ Z.of_nat (List.length log) = 3
    /\ forall j, (j < Z.to_nat 3)%nat ->
         nth_error log j =
           Some (@slice_entry Demo.runtime
                   (@slice_outcome Demo.runtime (Demo.env_down_at 1) Demo.bot
                      "BTCUSDT" "SELL"
                      (PyFloat.div Demo.f_0_01 (PyFloat.of_int 3))
                      (clock_reads initial_world) (http_calls initial_world) j)).
Proof.
  apply (@twap_log_one_entry_per_slice Demo.runtime (Demo.env_down_at 1)).
  - vm_compute. split; [discriminate | reflexivity].
  - right. reflexivity.
Defined.

(** C4 as stated fails: the first of three slices fails, the interval is
    [-1.0], and the run ends after one request without a log. *)
Lemma twap_negative_interval_aborts :
  List.length
    (sent_requests
       (events (snd (@place_twap Demo.runtime (Demo.env_down_at 0) Demo.bot
                       "BTCUSDT" "SELL" Demo.f_0_01 3 Demo.f_minus_1
                       initial_world)))) = 1%nat
  /\ ~ returns_value
         (fst (@place_twap Demo.runtime (Demo.env_down_at 0) Demo.bot "BTCUSDT" "SELL"
                 Demo.f_0_01 3 Demo.f_minus_1 initial_world)).
Proof.
  split.
  - vm_compute. reflexivity.
  - intros [log Hlog]. vm_compute in Hlog. discriminate Hlog.
Qed.

(** The first of three slices fails; the run goes on. *)
Lemma twap_failure_isolated_witness :
  exists log w',
    @place_twap Demo.runtime (Demo.env_down_at 0) Demo.bot "BTCUSDT" "SELL"
       Demo.f_0_01 3 Demo.f_1 initial_world = (inr log, w')
    /\ sent_requests (events w') =
         (sent_requests (events initial_world) ++
          @slice_requests Demo.runtime (Demo.env_down_at 0) Demo.bot "BTCUSDT" "SELL"
            (PyFloat.div Demo.f_0_01 (PyFloat.of_int 3))
            (clock_reads initial_world) (Z.to_nat 3))%list
    /\ Z.of_nat (List.length log) = 3
    /\ nth_error log 0 =
         Some (error_entry (TransportError ConnectionError "Connection refused"))
    /\ forall j, (j < Z.to_nat 3)%nat ->
         nth_error log j =
           Some (@slice_entry Demo.runtime
                   (@slice_outcome Demo.runtime (Demo.env_down_at 0) Demo.bot
                      "BTCUSDT" "SELL"
                      (PyFloat.div Demo.f_0_01 (PyFloat.of_int 3))
                      (clock_reads initial_world) (http_calls initial_world) j)).
Proof.
  apply (@twap_failure_isolated Demo.runtime (Demo.env_down_at 0) Demo.bot
           "BTCUSDT" "SELL" Demo.f_0_01 3 Demo.f_1 initial_world 0%nat
           (TransportError ConnectionError "Connection refused")).
  - vm_compute. split; [discriminate | reflexivity].
  - right. reflexivity.
  - vm_compute. lia.
  - vm_compute. reflexivity.
Defined.

(** C1 as stated fails: the exchange cannot be reached, and the send
    operation raises instead of returning a result. *)
Lemma send_transport_failure_not_returned :
  ~ returns_value
      (fst (@_send_signed_request Demo.runtime Demo.env_down Demo.bot "POST"
              order_path None initial_world)).
Proof.
  intros [v Hv]. vm_compute in Hv. discriminate Hv.
Qed.

(** An order the exchange rejects with status 400. *)
Lemma send_failure_is_raised_witness :
  exists e,
    fst (@_send_signed_request Demo.runtime Demo.env_reject Demo.bot "POST"
           order_path None initial_world) = inl e
    /\ is_RequestException e = true.
Proof.
  assert (Hres : exists e,
            @send_result Demo.runtime
              (exchange Demo.env_reject (http_calls initial_world)
                 (@signed_request Demo.runtime Demo.bot (PyStr.upper "POST") order_path
                    (stamped Demo.env_reject None initial_world))) = inl e)
    by (eexists; vm_compute; reflexivity).
  destruct Hres as [e Hres]. exists e.
  destruct (@send_failure_is_raised Demo.runtime Demo.env_reject Demo.bot "POST" order_path
              None initial_world e (or_introl eq_refl) Hres) as (H1 & H2 & _).
  split; [exact H1 | exact H2].
Defined.

(** C2 as stated fails: the log of a market order holds the signature
    of its request. *)
Lemma request_log_contains_signature :
  let w' := snd (@place_market_order Demo.runtime Demo.env_up Demo.bot "btcusdt" "buy"
                   Demo.f_0_01 false initial_world) in
  let query := Url.urlencode
                 (@stamped_market_params Demo.runtime "btcusdt" "buy" Demo.f_0_01 false
                    Demo.start_ms) in
  logged (Hmac.hexdigest (api_secret Demo.bot) query) w' = true.
Proof. vm_compute. reflexivity. Qed.


(** C10 as stated fails: an empty mapping is not None, and the send
    operation stamps a new dict instead of the caller's. *)
Lemma send_leaves_empty_mapping_alone :
  let w' := snd (@_send_signed_request Demo.runtime Demo.env_up Demo.bot "POST"
                   order_path (Some 0%nat) (Demo.world_with [])) in
  lookup (heap w') 0%nat = []
  /\ Dict.get "timestamp" (lookup (heap w') 0%nat) = None.
Proof. vm_compute. split; reflexivity. Qed.

(** A mapping with one entry. *)
Lemma send_stamps_the_callers_mapping_witness :
  let w := Demo.world_with [("symbol", VStr "BTCUSDT")] in
  let w' := snd (@_send_signed_request Demo.runtime Demo.env_up Demo.bot "POST"
                   order_path (Some 0%nat) w) in
  Dict.truthy (lookup (heap w) 0%nat) = true
  /\ lookup (heap w') 0%nat = [("symbol", VStr "BTCUSDT"); ("timestamp", VInt 1700000000000)].
Proof.
  split; [reflexivity|].
  exact (proj1 (@send_stamps_the_callers_mapping Demo.runtime Demo.env_up Demo.bot "POST"
                  order_path 0%nat (Demo.world_with [("symbol", VStr "BTCUSDT")])
                  eq_refl)).
Defined.

(** C8 as stated fails: a market order of quantity [-1.0] placed through
    the bot is sent to the exchange and answered. *)
Lemma market_order_negative_quantity_sent :
  let run := @place_market_order Demo.runtime Demo.env_up Demo.bot "BTCUSDT" "SELL"
               Demo.f_minus_1 false initial_world in
  PyFloat.le Demo.f_minus_1 PyFloat.zero = true
  /\ returns_value (fst run)
  /\ List.length (sent_requests (events (snd run))) = 1%nat.
Proof.
  split; [reflexivity|]. split.
  - eexists. vm_compute. reflexivity.
  - vm_compute. reflexivity.
Qed.

(** The command line of a market order of quantity [-1.0]. *)
Lemma main_rejects_nonpositive_quantity_witness :
  PyFloat.le (arg_quantity (Demo.market_args Demo.f_minus_1)) PyFloat.zero = true
  /\ exists msg,
       @main Demo.runtime Demo.env_up (Demo.market_args Demo.f_minus_1) initial_world =
         (inl (SystemExit msg),
          {| heap := heap initial_world;
             clock_reads := clock_reads initial_world;
             http_calls := http_calls initial_world;
             events := (events initial_world ++
                        [EvLog ERROR ("Argument validation failed: " ++ msg) None])%list |}).
Proof.
  split; [reflexivity|].
  apply (@main_rejects_nonpositive_quantity Demo.runtime Demo.env_up). reflexivity.
Defined.



(** C7 as stated fails: for a total quantity of [1e9] in three slices,
    each slice is placed with [333333333.3333333], and three times that
    is more than [3e-8] away from [1e9]. *)
Lemma twap_quantity_drift :
  let q := PyFloat.div Demo.f_1e9 (PyFloat.of_int 3) in
  let slice := PyFloat.round8 q in
  float_truediv_int Demo.f_1e9 3 = inr q
  /\ slice = S754_finite false 5592405333333333 (-24)
  /\ ~ (Qabs (3 * PyFloat.to_Q slice - PyFloat.to_Q Demo.f_1e9) <= 3 * (1 # 100000000))%Q.
Proof.
  split; [vm_compute; reflexivity|]. split; [vm_compute; reflexivity|].
  intros H. apply Qle_bool_iff in H. vm_compute in H. discriminate H.
Qed.

(** A total of [0.01] in three slices. *)
Lemma twap_quantity_conserved_witness :
  (1 <= 3 < 2 ^ 53)
  /\ PyFloat.is_finite Demo.f_0_01 = true
  /\ (Qabs (3 * PyFloat.to_Q (PyFloat.round8 (PyFloat.div Demo.f_0_01 (PyFloat.of_int 3)))
            - PyFloat.to_Q Demo.f_0_01) <= 3 * (1 # 100000000))%Q.
Proof.
  split; [lia|]. split; [reflexivity|].
  refine (proj2 (proj2 (proj2
            (@twap_quantity_conserved Demo.runtime Demo.env_up Demo.bot "BTCUSDT" "SELL"
               Demo.f_0_01 3 Demo.f_1 initial_world _ eq_refl _)))).
  - lia.
  - apply Qle_bool_iff. vm_compute. reflexivity.
Defined.

(** * Further properties of the bot *)

Lemma actions_app (l1 l2 : list event) :
  actions (l1 ++ l2) = (actions l1 ++ actions l2)%list.
Proof.
  induction l1 as [|e l1 IH]; [reflexivity|].
  destruct e; cbn [actions app]; rewrite IH; reflexivity.
Qed.

Lemma error_logs_app (l1 l2 : list event) :
  error_logs (l1 ++ l2) = (error_logs l1 ++ error_logs l2)%list.
Proof.
  induction l1 as [|e l1 IH]; [reflexivity|].
  destruct e as [[] ? ?| | |]; cbn [error_logs app]; rewrite IH; reflexivity.
Qed.

Lemma Dict_set_set (k : string) (v v' : value) (d : dict) :
  Dict.set k v' (Dict.set k v d) = Dict.set k v' d.
Proof.
  induction d as [|[k0 v0] d IH]; cbn [Dict.set].
  - now rewrite String.eqb_refl.
  - destruct (String.eqb k k0) eqn:Hk; cbn [Dict.set]; rewrite Hk; [reflexivity|].
    now rewrite IH.
Qed.

Lemma Dict_keys_set_present (k : string) (v : value) (d : dict) :
  Dict.mem k d = true -> Dict.keys (Dict.set k v d) = Dict.keys d.
Proof.
  unfold Dict.mem, Dict.keys.
  induction d as [|[k0 v0] d IH]; cbn [Dict.set Dict.get map]; [discriminate|].
  destruct (String.eqb k k0) eqn:Hk; [reflexivity|].
  intros H. cbn [map fst]. now rewrite IH.
Qed.

Lemma Dict_mem_set (k : string) (v : value) (d : dict) :
  Dict.mem k (Dict.set k v d) = true.
Proof. unfold Dict.mem. now rewrite Dict_get_set_same. Qed.

Lemma Dict_truthy_set (k : string) (v : value) (d : dict) :
  Dict.truthy (Dict.set k v d) = true.
Proof.
  destruct d as [|[k0 v0] d]; [reflexivity|]. cbn [Dict.set].
  destruct (String.eqb k k0); reflexivity.
Qed.

Lemma string_app_assoc (a b c : string) : ((a ++ b) ++ c = a ++ b ++ c)%string.
Proof. induction a as [|x a IH]; cbn; [reflexivity | now rewrite IH]. Qed.


Lemma quote_plus_safe (s : string) :
  all_chars Url.always_safe s = true -> Url.quote_plus s = s.
Proof.
  induction s as [|c s IH]; cbn [all_chars Url.quote_plus]; [reflexivity|].
  intros H. apply andb_prop in H. destruct H as [Hc Hs].
  unfold Url.quote_byte. rewrite Hc, (IH Hs). reflexivity.
Qed.

Lemma string_of_uint_digits (d : Decimal.uint) :
  all_chars PyStr.is_digit_ascii (NilEmpty.string_of_uint d) = true.
Proof. induction d; cbn [NilEmpty.string_of_uint all_chars]; auto. Qed.

Lemma all_chars_impl (p q : ascii -> bool) (s : string) :
  (forall c, p c = true -> q c = true) ->
  all_chars p s = true -> all_chars q s = true.
Proof.
  intros Hpq. induction s as [|c s IH]; cbn [all_chars]; [reflexivity|].
  intros H. apply andb_prop in H. destruct H as [Hc Hs].
  now rewrite (Hpq c Hc), (IH Hs).
Qed.

Lemma digit_safe (c : ascii) : PyStr.is_digit_ascii c = true -> Url.always_safe c = true.
Proof.
  intros H. unfold Url.always_safe. rewrite H.
  now rewrite !orb_true_r.
Qed.

(** [str(n)] holds digits and at most a leading minus sign: it is its
    own URL encoding. *)
Lemma quote_plus_str_int (n : Z) : Url.quote_plus (PyStr.str_int n) = PyStr.str_int n.
Proof.
  apply quote_plus_safe. unfold PyStr.str_int, NilZero.string_of_int.
  assert (H : forall d, all_chars Url.always_safe (NilZero.string_of_uint d) = true).
  { intros d. unfold NilZero.string_of_uint.
    destruct d; try reflexivity;
      apply (all_chars_impl PyStr.is_digit_ascii); try exact digit_safe;
      apply string_of_uint_digits. }
  destruct (Z.to_int n) as [d | d]; cbn [all_chars]; [apply H|].
  rewrite H. reflexivity.
Qed.



(** [float(n)] for [n >= 1]: a positive float [m * 2^e] whose exponent
    is within one of [digits - 53], or an overflow. *)
Lemma of_int_ge1 (n : Z) :
  1 <= n ->
  exists m3 e3,
    0 < m3
    /\ Zdigits2 n - 53 <= e3 <= Zdigits2 n - 53 + 1
    /\ PyFloat.of_int n =
         match m3 with
         | Zpos p => if e3 <=? 1024 - 53 then S754_finite false p e3 else S754_infinity false
         | _ => S754_nan
         end.
Proof.
  intros Hn. destruct n as [|p|p]; try lia.
  unfold PyFloat.of_int, prec64, emax64, binary_normalize, binary_round.
  change (fexp 53 1024) with PyFloat.fexp64.
  change (Zdigits2 (Zpos p)) with (Zpos (digits2_pos p)).
  set (d := Zpos (digits2_pos p)).
  assert (Hd : d = Zdigits2 (Zpos p)) by reflexivity.
  pose proof (Binary64.Zdigits2_bounds (Zpos p) ltac:(lia)) as [Hlo Hhi].
  rewrite <- Hd in Hlo, Hhi.
  assert (Hd1 : 1 <= d) by (subst d; lia).
  pose proof (Binary64.shl_align_spec p 0 (PyFloat.fexp64 (d + 0))) as Hshl.
  destruct (shl_align p 0 (PyFloat.fexp64 (d + 0))) as [mz ez]. destruct Hshl as [Hez Hmz].
  rewrite Z.add_0_r, Binary64.fexp64_eq in Hez.
  pose proof (Binary64.binary_round_aux_spec false (Zpos mz) ez loc_Exact (Zpos mz) 1
                (Binary64.rec_ok_of_loc_exact (Zpos mz) (Pos2Z.is_nonneg mz)))
    as (m3 & e3 & Hz & Hm3 & He3 & Hnear).
  assert (Hpw : 0 < 2 ^ (0 - ez)) by (apply Z.pow_pos_nonneg; lia).
  assert (Hdz : Zdigits2 (Zpos mz) + ez = d).
  { assert (Zdigits2 (Zpos mz) <= d - ez).
    { apply Binary64.Zdigits2_le; [lia|]. split; [lia|].
      rewrite Hmz. replace (d - ez) with (d + (0 - ez)) by lia.
      rewrite Z.pow_add_r by lia. nia. }
    assert (d - ez - 1 + 1 <= Zdigits2 (Zpos mz)).
    { apply Binary64.Zdigits2_ge; [lia|]. rewrite Hmz.
      replace (d - ez - 1) with (d - 1 + (0 - ez)) by lia.
      rewrite Z.pow_add_r by lia. nia. }
    lia. }
  rewrite Hdz, Binary64.fexp64_eq in *.
  set (e1 := Z.max ez (Z.max (d - 53) (-1074))) in *.
  assert (He1 : e1 = d - 53) by (subst e1; lia).
  assert (HB : 0 < 2 ^ (e1 - ez)) by (apply Z.pow_pos_nonneg; lia).
  assert (Hu : 0 < 2 ^ (e3 - e1)) by (apply Z.pow_pos_nonneg; lia).
  rewrite Z.mul_1_r in Hnear.
  assert (Hm3pos : 0 < m3).
  { destruct (Z.eq_dec m3 0) as [E0|]; [|lia]. exfalso.
    rewrite E0 in Hnear. simpl (0 * _ * _ - _) in Hnear.
    assert (Hge : 2 ^ (e1 - ez) <= Zpos mz).
    { rewrite Hmz. destruct (Z_le_gt_dec d 53).
      - replace (e1 - ez) with 0 by lia. change (2 ^ 0) with 1. lia.
      - replace (ez) with 0 in * by lia. rewrite Z.sub_0_r. change (2 ^ (0 - 0)) with 1.
        rewrite Z.mul_1_r.
        assert (2 ^ e1 <= 2 ^ (d - 1)) by (apply Z.pow_le_mono_r; lia). lia. }
    lia. }
  exists m3, e3. split; [exact Hm3pos|]. split; [lia|].
  rewrite Hz. destruct m3; try lia. reflexivity.
Qed.

Lemma of_int_not_zero (n : Z) : 1 <= n -> PyFloat.is_zero (PyFloat.of_int n) = false.
Proof.
  intros Hn. destruct (of_int_ge1 n Hn) as (m3 & e3 & Hm & _ & ->).
  destruct m3; try lia. destruct (e3 <=? 1024 - 53); reflexivity.
Qed.

(** An int of more than 1024 bits does not convert. *)
Lemma of_int_overflow (n : Z) :
  2 ^ 1024 <= n -> PyFloat.of_int n = S754_infinity false.
Proof.
  intros Hn.
  assert (Hd : 1024 + 1 <= Zdigits2 n) by (apply Binary64.Zdigits2_ge; [lia | exact Hn]).
  assert (H1 : 1 <= n).
  { assert (0 < 2 ^ 1024) by (apply Z.pow_pos_nonneg; lia). clear Hd. lia. }
  clear Hn.
  destruct (of_int_ge1 n H1) as (m3 & e3 & Hm & He & ->).
  destruct m3; try lia.
  destruct (e3 <=? 1024 - 53) eqn:Hle; [|reflexivity].
  apply Z.leb_le in Hle. lia.
Qed.

Lemma le_zero_false (x : float) :
  PyFloat.le x PyFloat.zero = false <->
  SFcompare x PyFloat.zero = Some Gt \/ x = S754_nan.
Proof.
  unfold PyFloat.le, SFleb, PyFloat.zero.
  destruct x as [s | s | | s m e]; cbn; try destruct s; cbn;
    (split; [intros H; try discriminate; auto | intros [H | H]; try discriminate; auto]).
Qed.

Lemma count_char_app (c : ascii) (a b : string) :
  count_char c (a ++ b) = (count_char c a + count_char c b)%nat.
Proof.
  induction a as [|x a IH]; cbn [append count_char]; [reflexivity|].
  rewrite IH. lia.
Qed.

Lemma quote_byte_no_separator (c : ascii) :
  count_char "&" (Url.quote_byte c) = 0%nat /\ count_char "=" (Url.quote_byte c) = 0%nat.
Proof. destruct c as [[] [] [] [] [] [] [] []]; split; reflexivity. Qed.

Lemma quote_plus_no_separator (s : string) :
  count_char "&" (Url.quote_plus s) = 0%nat /\ count_char "=" (Url.quote_plus s) = 0%nat.
Proof.
  induction s as [|c s [IH1 IH2]]; [split; reflexivity|].
  cbn [Url.quote_plus]. rewrite !count_char_app, IH1, IH2.
  destruct (quote_byte_no_separator c) as [-> ->]. split; reflexivity.
Qed.

Lemma encode_item_separators (kv : string * value) :
  count_char "&" (Url.encode_item kv) = 0%nat /\ count_char "=" (Url.encode_item kv) = 1%nat.
Proof.
  unfold Url.encode_item. rewrite !count_char_app.
  destruct (quote_plus_no_separator (fst kv)) as [-> ->].
  destruct (quote_plus_no_separator (Url.value_str (snd kv))) as [-> ->].
  split; reflexivity.
Qed.

(** X1. In the query string of any mapping, [&] occurs only between
    two parameters and [=] only between a key and its value: whatever
    characters keys and values hold, the query has one [=] for each
    parameter and one [&] less, so no value can add a parameter or end one
    early. *)
Theorem urlencode_keeps_separators (d : dict) :
  count_char "=" (Url.urlencode d) = List.length d
  /\ count_char "&" (Url.urlencode d) = (List.length d - 1)%nat.
Proof.
  unfold Url.urlencode. induction d as [|kv d [IHe IHa]]; [split; reflexivity|].
  cbn [map String.concat List.length].
  destruct (encode_item_separators kv) as [Ha He].
  destruct d as [|kv' d].
  - cbn [map List.length]. rewrite Ha, He. split; reflexivity.
  - cbn [map] in *. rewrite !count_char_app, Ha, He, IHe, IHa.
    cbn [List.length count_char]. split; cbn; lia.
Qed.

(** [quote_plus] can be undone: the first byte of an encoded string and
    what follows it are determined. *)
Lemma quote_plus_injective (s1 s2 : string) :
  Url.quote_plus s1 = Url.quote_plus s2 -> s1 = s2.
Proof.
  set (hex_value := fun c : ascii =>
         let n := nat_of_ascii c in if Nat.leb n 57 then (n - 48)%nat else (n - 55)%nat).
  set (head := fun s : string =>
         match s with
         | EmptyString => None
         | String c r =>
             if Ascii.eqb c "%" then
               match r with
               | String h (String l r') =>
                   Some (ascii_of_nat (16 * hex_value h + hex_value l), r')
               | _ => None
               end
             else if Ascii.eqb c "+" then Some (" "%char, r)
             else Some (c, r)
         end).
  assert (Hhead : forall c r, head (Url.quote_byte c ++ r) = Some (c, r)).
  { intros c r. destruct c as [[] [] [] [] [] [] [] []]; reflexivity. }
  revert s2. induction s1 as [|c1 s1 IH]; intros [|c2 s2] H; cbn [Url.quote_plus] in H.
  - reflexivity.
  - apply (f_equal head) in H. rewrite Hhead in H. discriminate H.
  - apply (f_equal head) in H. rewrite Hhead in H. discriminate H.
  - apply (f_equal head) in H. rewrite !Hhead in H. injection H as -> H.
    now rewrite (IH s2 H).
Qed.

Lemma count_char_zero_cons (c x : ascii) (s : string) :
  count_char c (String x s) = 0%nat -> Ascii.eqb c x = false /\ count_char c s = 0%nat.
Proof. cbn [count_char]. destruct (Ascii.eqb c x); [discriminate | auto]. Qed.

(** Cutting at the first [c]: two strings without [c], each followed by
    nothing or by [c] and more, that make the same string are the same. *)
Lemma cut_at_separator (c : ascii) (s1 s2 t1 t2 : string) :
  count_char c s1 = 0%nat -> count_char c s2 = 0%nat ->
  (t1 = "" \/ exists r, t1 = String c r) ->
  (t2 = "" \/ exists r, t2 = String c r) ->
  s1 ++ t1 = s2 ++ t2 -> s1 = s2 /\ t1 = t2.
Proof.
  revert s2. induction s1 as [|x s1 IH]; intros [|y s2] H1 H2 Ht1 Ht2 H; cbn [append] in H.
  - auto.
  - apply count_char_zero_cons in H2. destruct H2 as [Hy _].
    destruct Ht1 as [-> | [r ->]]; [discriminate|].
    injection H as <- _. now rewrite Ascii.eqb_refl in Hy.
  - apply count_char_zero_cons in H1. destruct H1 as [Hx _].
    destruct Ht2 as [-> | [r ->]]; [discriminate|].
    injection H as -> _. now rewrite Ascii.eqb_refl in Hx.
  - apply count_char_zero_cons in H1. destruct H1 as [_ H1].
    apply count_char_zero_cons in H2. destruct H2 as [_ H2].
    injection H as -> H.
    destruct (IH s2 H1 H2 Ht1 Ht2 H) as [-> ->]. auto.
Qed.

Lemma urlencode_cons (kv : string * value) (d : dict) :
  Url.urlencode (kv :: d) =
  Url.quote_plus (fst kv) ++ "=" ++ Url.quote_plus (Url.value_str (snd kv))
  ++ match d with [] => "" | _ => "&" ++ Url.urlencode d end.
Proof.
  unfold Url.urlencode. cbn [map String.concat]. unfold Url.encode_item.
  destruct d as [|kv' d]; cbn [map]; rewrite ?string_app_assoc; [|reflexivity].
  assert (Hnil : forall s : string, s ++ "" = s)
    by (induction s as [|x s IHs]; cbn; [reflexivity | now rewrite IHs]).
  now rewrite Hnil.
Qed.

Lemma urlencode_injective_aux (d1 d2 : dict) :
  Url.urlencode d1 = Url.urlencode d2 ->
  map (fun kv => (fst kv, Url.value_str (snd kv))) d1 =
  map (fun kv => (fst kv, Url.value_str (snd kv))) d2.
Proof.
  revert d2. induction d1 as [|kv1 d1 IH]; intros [|kv2 d2] H.
  - reflexivity.
  - rewrite urlencode_cons in H. apply (f_equal (count_char "=")) in H.
    rewrite !count_char_app in H. cbn in H. lia.
  - rewrite urlencode_cons in H. apply (f_equal (count_char "=")) in H.
    rewrite !count_char_app in H. cbn in H. lia.
  - rewrite !urlencode_cons in H.
    apply (cut_at_separator "=") in H;
      try apply quote_plus_no_separator; try (right; eexists; reflexivity).
    destruct H as [Hk H]. injection H as H.
    apply (cut_at_separator "&") in H;
      try apply quote_plus_no_separator;
      try (destruct d1; [left; reflexivity | right; eexists; reflexivity]);
      try (destruct d2; [left; reflexivity | right; eexists; reflexivity]).
    destruct H as [Hv Ht].
    apply quote_plus_injective in Hk, Hv.
    cbn [map]. rewrite Hk, Hv. f_equal.
    destruct d1 as [|kv1' d1], d2 as [|kv2' d2]; try discriminate Ht; [reflexivity|].
    injection Ht as Ht. apply IH. exact Ht.
Qed.

(** X2. The query string determines the parameters: two mappings with
    the same query string have the same keys and the same values, as
    strings, in the same order.  So the signature, which covers the query
    string, covers the parameters themselves. *)
Theorem urlencode_injective (d1 d2 : dict) :
  Url.urlencode d1 = Url.urlencode d2 ->
  map (fun kv => (fst kv, Url.value_str (snd kv))) d1 =
  map (fun kv => (fst kv, Url.value_str (snd kv))) d2.
Proof. apply urlencode_injective_aux. Qed.









Lemma round_length (st : list Z) (kw : Z * Z) :
  List.length (Sha256.round st kw) = List.length st.
Proof.
  unfold Sha256.round.
  destruct st as [|a [|b [|c [|d [|e [|f [|g [|h [|i st]]]]]]]]]; reflexivity.
Qed.

Lemma compress_length (st block : list Z) :
  List.length (Sha256.compress st block) = List.length st.
Proof.
  unfold Sha256.compress.
  rewrite length_map, length_combine.
  assert (H : forall l s, List.length (fold_left Sha256.round l s) = List.length s).
  { induction l as [|kw l IH]; intros s; cbn [fold_left]; [reflexivity|].
    now rewrite IH, round_length. }
  rewrite H. apply Nat.min_id.
Qed.

Lemma blocks_length (fuel : nat) (st bytes : list Z) :
  List.length (Sha256.blocks fuel st bytes) = List.length st.
Proof.
  revert st bytes. induction fuel as [|k IH]; intros st bytes; cbn [Sha256.blocks];
    [reflexivity|].
  destruct bytes; [reflexivity|]. now rewrite IH, compress_length.
Qed.

Lemma be_bytes_bytes (n : nat) (x : Z) :
  List.length (Sha256.be_bytes n x) = n
  /\ Forall (fun b => 0 <= b < 256) (Sha256.be_bytes n x).
Proof.
  induction n as [|k [IH1 IH2]]; cbn [Sha256.be_bytes List.length]; [split; auto|].
  split; [now rewrite IH1|]. constructor; [|exact IH2].
  change 255 with (Z.ones 8). rewrite Z.land_ones by lia.
  apply Z.mod_pos_bound. lia.
Qed.

(** A digest is 32 bytes. *)
Lemma digest_bytes (msg : list Z) :
  List.length (Sha256.digest msg) = 32%nat
  /\ Forall (fun b => 0 <= b < 256) (Sha256.digest msg).
Proof.
  unfold Sha256.digest. cbv zeta.
  pose proof (blocks_length (List.length (Sha256.pad msg)) Sha256.H0 (Sha256.pad msg)) as Hlen.
  change (List.length Sha256.H0) with 8%nat in Hlen.
  destruct (Sha256.blocks _ Sha256.H0 (Sha256.pad msg))
    as [|a [|b [|c [|d [|e [|f [|g [|h [|i st]]]]]]]]]; try discriminate Hlen.
  cbn [flat_map]. rewrite app_nil_r.
  split.
  - rewrite !length_app. rewrite !(proj1 (be_bytes_bytes 4 _)). reflexivity.
  - repeat (apply Forall_app; split); apply be_bytes_bytes.
Qed.

Lemma hex_char_lower (n : Z) : 0 <= n < 16 -> is_hex_lower (Hmac.hex_char n) = true.
Proof.
  intros H. rewrite <- (Z2Nat.id n) by lia.
  assert (Hk : (Z.to_nat n < 16)%nat) by lia.
  generalize dependent (Z.to_nat n). intros k Hk.
  do 16 (destruct k as [|k]; [reflexivity|]). lia.
Qed.

Lemma hex_digits (bytes : list Z) :
  Forall (fun b => 0 <= b < 256) bytes ->
  String.length (Hmac.hex bytes) = (2 * List.length bytes)%nat
  /\ all_chars is_hex_lower (Hmac.hex bytes) = true.
Proof.
  induction 1 as [|b bytes Hb _ [IH1 IH2]]; [split; reflexivity|].
  cbn [Hmac.hex String.length List.length all_chars]. split; [rewrite IH1; lia|].
  rewrite !hex_char_lower, IH2; [reflexivity | |].
  - apply Z.mod_pos_bound. lia.
  - split; [apply Z.div_pos; lia | apply Z.div_lt_upper_bound; lia].
Qed.

Lemma hex_lower_safe (c : ascii) : is_hex_lower c = true -> Url.always_safe c = true.
Proof. destruct c as [[] [] [] [] [] [] [] []]; cbn; intros H; try reflexivity; discriminate H. Qed.

(** X3. The HMAC-SHA256 hex digest is 64 characters, each a digit or
    a letter from [a] to [f]; it is its own URL encoding, so the signed
    query, which appends the signature as it is, is well-formed. *)
Theorem signature_is_64_hex_digits (key msg : string) :
  String.length (Hmac.hexdigest key msg) = 64%nat
  /\ all_chars is_hex_lower (Hmac.hexdigest key msg) = true
  /\ Url.quote_plus (Hmac.hexdigest key msg) = Hmac.hexdigest key msg
  /\ forall bot d,
       @_sign_payload Demo.runtime bot d =
       Url.urlencode d ++ "&signature=" ++ Hmac.hexdigest (api_secret bot) (Url.urlencode d).
Proof.
  unfold Hmac.hexdigest, Hmac.hmac_sha256. cbv zeta.
  match goal with
  | |- context [Hmac.hex (Sha256.digest ?m)] =>
      destruct (digest_bytes m) as [Hlen Hbytes];
      destruct (hex_digits _ Hbytes) as [H1 H2]
  end.
  split; [rewrite H1, Hlen; reflexivity|]. split; [exact H2|].
  split; [|reflexivity].
  apply quote_plus_safe. revert H2. apply all_chars_impl. exact hex_lower_safe.
Qed.

Lemma Dict_keys_set (k : string) (v : value) (d : dict) :
  Dict.keys (Dict.set k v d) =
  if Dict.mem k d then Dict.keys d else (Dict.keys d ++ [k])%list.
Proof.
  destruct (Dict.mem k d) eqn:Hm; [now apply Dict_keys_set_present|].
  unfold Dict.mem in Hm. rewrite Dict_set_fresh.
  - unfold Dict.keys. now rewrite map_app.
  - destruct (Dict.get k d); [discriminate | reflexivity].
Qed.

Lemma Dict_get_none_not_key (k : string) (d : dict) :
  Dict.get k d = None -> ~ In k (Dict.keys d).
Proof.
  unfold Dict.keys. induction d as [|[k0 v0] d IH]; cbn [Dict.get map fst In]; [tauto|].
  destruct (String.eqb_spec k k0) as [-> | Hne]; [discriminate|].
  intros H [Heq | Hin]; [congruence | exact (IH H Hin)].
Qed.

Lemma Dict_set_unique (k : string) (v : value) (d : dict) :
  NoDup (Dict.keys d) -> NoDup (Dict.keys (Dict.set k v d)).
Proof.
  intros Hd. rewrite Dict_keys_set. unfold Dict.mem.
  destruct (Dict.get k d) eqn:Hg; [exact Hd|].
  apply NoDup_app; [exact Hd | repeat constructor; intros [] | ].
  intros x Hx [<- | []]. exact (Dict_get_none_not_key _ _ Hg Hx).
Qed.

Lemma unique_keys_update (h : list dict) (r : ref) (d : dict) :
  unique_keys h -> NoDup (Dict.keys d) -> unique_keys (update h r d).
Proof.
  unfold unique_keys. intros Hh Hd. revert r.
  induction Hh as [|x h Hx Hh IH]; intros [|r]; cbn [update]; constructor; auto.
Qed.

Lemma unique_keys_lookup (h : list dict) (r : ref) :
  unique_keys h -> NoDup (Dict.keys (lookup h r)).
Proof.
  unfold unique_keys, lookup. intros Hh. revert r.
  induction Hh as [|x h Hx Hh IH]; intros [|r]; cbn [nth]; auto; constructor.
Qed.

Section Coverage.

Context {RT : Runtime} (E : env).

(** Whatever the method, one call reads the clock once and sends at
    most one request. *)
Lemma send_counters (bot : BasicBot) (method path : string) (params : option ref)
    (w : world) :
  let w' := snd (_send_signed_request E bot method path params w) in
  clock_reads w' = S (clock_reads w)
  /\ (http_calls w' <= S (http_calls w))%nat.
Proof.
  intros w'. subst w'.
  destruct (String.eqb (PyStr.upper method) "POST") eqn:Hp;
    [|destruct (String.eqb (PyStr.upper method) "GET") eqn:Hg].
  - apply String.eqb_eq in Hp. rewrite send_exec by (left; exact Hp).
    cbn [snd clock_reads http_calls]. split; [reflexivity | lia].
  - apply String.eqb_eq in Hg. rewrite send_exec by (right; exact Hg).
    cbn [snd clock_reads http_calls]. split; [reflexivity | lia].
  - rewrite send_unsupported by assumption.
    cbn [snd clock_reads http_calls]. split; [reflexivity | lia].
Qed.


(** X5. A POST or GET call returns a value exactly when the exchange
    answers with a status outside 400..599 and a body that decodes; the
    value is the decoded body, and the call then logs the request line and
    the response line and nothing at level ERROR. *)
Theorem send_returns_decoded_body (bot : BasicBot) (method path : string)
    (params : option ref) (w : world) (v : json) :
  PyStr.upper method = "POST" \/ PyStr.upper method = "GET" ->
  let run := _send_signed_request E bot method path params w in
  let req := signed_request bot (PyStr.upper method) path (stamped E params w) in
  (fst run = inr v <->
   exists r, exchange E (http_calls w) req = Answered r
             /\ (resp_status_code r < 400 \/ 600 <= resp_status_code r)
             /\ json_loads (resp_text r) = inr v)
  /\ (fst run = inr v ->
      exists r, exchange E (http_calls w) req = Answered r
                /\ events (snd run) =
                     (events w ++
                      [request_line bot method path (stamped E params w); EvHttp req;
                       EvLog INFO ("RESPONSE <- " ++ PyStr.str_int (resp_status_code r)
                                   ++ " " ++ resp_text r) None])%list).
Proof.
  intros Hm run req. subst run. rewrite send_exec by exact Hm.
  fold req. cbn [fst snd events].
  assert (Hiff : send_result (exchange E (http_calls w) req) = inr v <->
                 exists r, exchange E (http_calls w) req = Answered r
                           /\ (resp_status_code r < 400 \/ 600 <= resp_status_code r)
                           /\ json_loads (resp_text r) = inr v).
  { destruct (exchange E (http_calls w) req) as [k msg | r]; unfold send_result.
    - split; [discriminate | intros (r & Hr & _); discriminate].
    - destruct ((400 <=? resp_status_code r) && (resp_status_code r <? 500))%bool eqn:H4.
      { split; [discriminate|]. intros (r' & [= <-] & Hc & _). exfalso. bool_lia. }
      destruct ((500 <=? resp_status_code r) && (resp_status_code r <? 600))%bool eqn:H5.
      { split; [discriminate|]. intros (r' & [= <-] & Hc & _). exfalso. bool_lia. }
      split.
      + intros H. exists r. split; [reflexivity|]. split; [bool_lia|].
        destruct (json_loads (resp_text r)); [discriminate | congruence].
      + intros (r' & [= <-] & _ & Hj). rewrite Hj. reflexivity. }
  split; [exact Hiff|].
  intros Hv. destruct (proj1 Hiff Hv) as (r & Hr & _ & _).
  exists r. split; [exact Hr|]. rewrite Hr in Hv |- *.
  unfold send_events. rewrite Hv. reflexivity.
Qed.

(** X6. The method is read without regard to letter case: two calls
    whose methods have the same upper-case form, POST or GET, do the
    same thing. *)
Theorem send_method_case_insensitive (bot : BasicBot) (m1 m2 path : string)
    (params : option ref) (w : world) :
  PyStr.upper m1 = PyStr.upper m2 ->
  PyStr.upper m1 = "POST" \/ PyStr.upper m1 = "GET" ->
  _send_signed_request E bot m1 path params w =
  _send_signed_request E bot m2 path params w.
Proof.
  intros Heq Hm.
  rewrite (send_exec E bot m1) by exact Hm.
  rewrite (send_exec E bot m2) by (rewrite <- Heq; exact Hm).
  unfold request_line. rewrite Heq. reflexivity.
Qed.

(** X7. Sending the same non-empty mapping twice refreshes its
    timestamp: after the second call the mapping is the original one with
    the second clock reading under [timestamp], and it has the keys it had
    after the first call, so no second timestamp is added. *)
Theorem resend_refreshes_timestamp (bot : BasicBot) (m1 p1 m2 p2 : string)
    (r : ref) (w : world) :
  Dict.truthy (lookup (heap w) r) = true ->
  let w1 := snd (_send_signed_request E bot m1 p1 (Some r) w) in
  let w2 := snd (_send_signed_request E bot m2 p2 (Some r) w1) in
  lookup (heap w2) r =
    Dict.set "timestamp" (VInt (clock E (S (clock_reads w)))) (lookup (heap w) r)
  /\ Dict.keys (lookup (heap w2) r) = Dict.keys (lookup (heap w1) r)
  /\ List.length (heap w2) = List.length (heap w).
Proof.
  intros Ht w1 w2.
  pose proof (lookup_nonempty_valid _ _ Ht) as Hvalid.
  destruct (send_frame E bot m1 p1 (Some r) w) as [Hheap1 _].
  destruct (send_counters bot m1 p1 (Some r) w) as [Hclock1 _].
  fold w1 in Hheap1, Hclock1.
  assert (H1 : lookup (heap w1) r =
               Dict.set "timestamp" (VInt (clock E (clock_reads w))) (lookup (heap w) r)).
  { rewrite Hheap1. unfold stamped, target, target_heap. rewrite Ht.
    apply lookup_update_same. exact Hvalid. }
  assert (Ht1 : Dict.truthy (lookup (heap w1) r) = true)
    by (rewrite H1; apply Dict_truthy_set).
  pose proof (lookup_nonempty_valid _ _ Ht1) as Hvalid1.
  destruct (send_frame E bot m2 p2 (Some r) w1) as [Hheap2 _].
  fold w2 in Hheap2.
  assert (H2 : lookup (heap w2) r =
               Dict.set "timestamp" (VInt (clock E (clock_reads w1))) (lookup (heap w1) r)).
  { rewrite Hheap2. unfold stamped, target, target_heap. rewrite Ht1.
    apply lookup_update_same. exact Hvalid1. }
  split; [|split].
  - rewrite H2, H1, Hclock1. apply Dict_set_set.
  - rewrite H2. apply Dict_keys_set_present. rewrite H1. apply Dict_mem_set.
  - rewrite Hheap2. unfold target, target_heap. rewrite Ht1, length_update.
    rewrite Hheap1. unfold target, target_heap. rewrite Ht. apply length_update.
Qed.


Lemma post_fresh_exec (bot : BasicBot) (d : dict) (w : world) :
  Dict.truthy d = true ->
  let d' := Dict.set "timestamp" (VInt (clock E (clock_reads w))) d in
  let req := signed_request bot "POST" order_path d' in
  let o := exchange E (http_calls w) req in
  (params <- alloc d ;; _send_signed_request E bot "POST" order_path (Some params)) w =
    (send_result o,
     {| heap := (heap w ++ [d'])%list;
        clock_reads := S (clock_reads w);
        http_calls := S (http_calls w);
        events := (events w ++ [request_line bot "POST" order_path d'; EvHttp req]
                            ++ send_events o)%list |}).
Proof.
  intros Ht d' req o.
  erewrite run_bind_ret by reflexivity.
  rewrite send_exec by (left; reflexivity).
  unfold stamped, target, target_heap.
  cbn [heap clock_reads http_calls events].
  rewrite lookup_app_new, Ht, lookup_app_new, update_app_new.
  reflexivity.
Qed.













Lemma actions_send_events (o : http_outcome) : actions (send_events o) = [].
Proof.
  unfold send_events. destruct o as [k msg | r]; [reflexivity|].
  destruct (send_result (Answered r)); reflexivity.
Qed.

(** One pass through the [try] block of the slice loop: it returns, it
    sends one order and creates one dict. *)
Lemma twap_attempt_frame (bot : BasicBot) (symbol side : string) (slice_qty : float)
    (i : Z) (responses : list json) (w : world) :
  exists w' responses',
    try_except
      (resp <- place_market_order E bot symbol side (PyFloat.round8 slice_qty) false ;;
       ret (responses ++ [resp])%list)
      is_Exception
      (fun e =>
         logger_exception ("Error executing TWAP slice " ++ PyStr.str_int (i + 1)
                           ++ ": " ++ exn_str e) e ;;
         ret (responses ++ [error_entry e])%list) w
    = (inr responses', w')
    /\ clock_reads w' = S (clock_reads w)
    /\ actions (events w') =
         (actions (events w) ++
          [Order (market_request bot symbol side (PyFloat.round8 slice_qty) false
                    (clock E (clock_reads w)))])%list
    /\ heap w' =
         (heap w ++
          [stamped_market_params symbol side (PyFloat.round8 slice_qty) false
             (clock E (clock_reads w))])%list.
Proof.
  pose proof (place_market_order_exec E bot symbol side (PyFloat.round8 slice_qty) false w)
    as Hexec. cbv zeta in Hexec.
  destruct (send_result (exchange E (http_calls w) _)) as [e | v] eqn:Hres.
  - eexists. eexists. split.
    + erewrite run_try_catch.
      * unfold bind, logger_exception, emit, ret. reflexivity.
      * erewrite run_bind_raise by exact Hexec. reflexivity.
      * eapply send_result_is_Exception. exact Hres.
    + cbn [clock_reads heap events]. split; [reflexivity|]. split; [|reflexivity].
      rewrite !actions_app, actions_send_events. cbn [actions].
      rewrite !app_nil_r. reflexivity.
  - eexists. eexists. split.
    + erewrite run_try_ret; [reflexivity|].
      erewrite run_bind_ret by exact Hexec. reflexivity.
    + cbn [clock_reads heap events]. split; [reflexivity|]. split; [|reflexivity].
      rewrite !actions_app, actions_send_events. cbn [actions].
      rewrite !app_nil_r. reflexivity.
Qed.

(** The dicts of the slices [0 .. n-1] of a run that starts after [c]
    clock readings. *)
Lemma slice_dicts_S (symbol side : string) (q : float) (c n : nat) :
  map (fun j => stamped_market_params symbol side q false (clock E (c + j))) (seq 0 (S n)) =
  stamped_market_params symbol side q false (clock E c)
  :: map (fun j => stamped_market_params symbol side q false (clock E (S c + j))) (seq 0 n).
Proof.
  cbn [seq map]. rewrite Nat.add_0_r. f_equal.
  rewrite <- seq_shift, map_map. apply map_ext. intros j.
  rewrite Nat.add_succ_r. reflexivity.
Qed.

(** Whatever happens to a run of the loop: the heap grows by the dicts
    of the slices placed, and the one exception that can leave the loop is
    the one [time.sleep] raises between two slices. *)
Lemma twap_loop_general (bot : BasicBot) (symbol side : string) (slice_qty : float)
    (slices : Z) (interval : float) :
  forall (remaining : nat) (i : Z) (responses : list json) (w : world),
    let run := twap_loop E bot symbol side slice_qty slices interval remaining i responses w in
    (exists n,
       (n <= remaining)%nat /\
       heap (snd run) =
         (heap w ++
          map (fun j => stamped_market_params symbol side (PyFloat.round8 slice_qty) false
                          (clock E (clock_reads w + j)))
              (seq 0 n))%list)
    /\ (forall e, fst run = inl e -> sleep_error interval = Some e /\ i < slices - 1).
Proof.
  induction remaining as [|k IH]; intros i responses w run; subst run.
  - split; [|discriminate]. exists 0%nat. split; [lia|]. cbn. now rewrite app_nil_r.
  - cbn [twap_loop].
    erewrite run_bind_ret by reflexivity.
    match goal with
    | |- context [bind _ _ ?w0] => set (w1 := w0)
    end.
    assert (Hc1 : clock_reads w1 = clock_reads w) by reflexivity.
    assert (Hh1 : heap w1 = heap w) by reflexivity.
    clearbody w1.
    destruct (twap_attempt_frame bot symbol side slice_qty i responses w1)
      as (w2 & responses' & Hrun & Hc & _ & Hh).
    erewrite run_bind_ret by exact Hrun.
    destruct (i <? slices - 1) eqn:Hi.
    + unfold sleep. destruct (sleep_error interval) as [e|] eqn:Hse.
      * erewrite run_bind_raise by reflexivity. cbn [fst snd]. split.
        -- exists 1%nat. split; [lia|]. rewrite Hh, Hh1, Hc1. cbn [seq map].
           rewrite Nat.add_0_r. reflexivity.
        -- intros e' [= <-]. split; [reflexivity | apply Z.ltb_lt; exact Hi].
      * erewrite run_bind_ret by reflexivity.
        match goal with
        | |- context [twap_loop _ _ _ _ _ _ _ _ _ ?r ?w0] =>
            destruct (IH (i + 1) r w0) as [(n & Hn & Hheap) Hraise]
        end.
        split.
        -- exists (S n). split; [lia|]. rewrite Hheap. cbn [heap clock_reads].
           rewrite Hh, Hh1, Hc, Hc1, <- app_assoc, slice_dicts_S. reflexivity.
        -- intros e He. destruct (Hraise e He) as [H1 H2]. split; [exact H1 | lia].
    + erewrite run_bind_ret by reflexivity.
      match goal with
      | |- context [twap_loop _ _ _ _ _ _ _ _ _ ?r ?w0] =>
          destruct (IH (i + 1) r w0) as [(n & Hn & Hheap) Hraise]
      end.
      split.
      -- exists (S n). split; [lia|]. rewrite Hheap.
         rewrite Hh, Hh1, Hc, Hc1, <- app_assoc, slice_dicts_S. reflexivity.
      -- intros e He. destruct (Hraise e He) as [H1 H2]. split; [exact H1 | lia].
Qed.


Lemma twap_loop_actions (bot : BasicBot) (symbol side : string) (slice_qty : float)
    (slices : Z) (interval : float) :
  sleep_error interval = None ->
  forall (remaining : nat) (i : Z) (responses : list json) (w : world),
    actions (events (snd (twap_loop E bot symbol side slice_qty slices interval
                            remaining i responses w))) =
      (actions (events w) ++
       flat_map (fun j =>
                   Order (market_request bot symbol side (PyFloat.round8 slice_qty) false
                            (clock E (clock_reads w + j)))
                   :: (if i + Z.of_nat j <? slices - 1 then [Pause interval] else []))
                (seq 0 remaining))%list.
Proof.
  intros Hok. induction remaining as [|k IH]; intros i responses w.
  - cbn. now rewrite app_nil_r.
  - cbn [twap_loop].
    erewrite run_bind_ret by reflexivity.
    match goal with
    | |- context [bind _ _ ?w0] => set (w1 := w0)
    end.
    assert (Hc1 : clock_reads w1 = clock_reads w) by reflexivity.
    assert (Ha1 : actions (events w1) = actions (events w)).
    { subst w1. cbn [events]. rewrite actions_app. cbn [actions]. apply app_nil_r. }
    clearbody w1.
    destruct (twap_attempt_frame bot symbol side slice_qty i responses w1)
      as (w2 & responses' & Hrun & Hc & Ha & _).
    erewrite run_bind_ret by exact Hrun.
    assert (Hflat : forall c,
      flat_map (fun j =>
                  Order (market_request bot symbol side (PyFloat.round8 slice_qty) false
                           (clock E (c + j)))
                  :: (if i + Z.of_nat j <? slices - 1 then [Pause interval] else []))
               (seq 0 (S k)) =
      (Order (market_request bot symbol side (PyFloat.round8 slice_qty) false (clock E c))
       :: (if i <? slices - 1 then [Pause interval] else []) ++
       flat_map (fun j =>
                   Order (market_request bot symbol side (PyFloat.round8 slice_qty) false
                            (clock E (S c + j)))
                   :: (if i + 1 + Z.of_nat j <? slices - 1 then [Pause interval] else []))
                (seq 0 k))%list).
    { intros c. cbn [seq flat_map]. rewrite Nat.add_0_r, Z.add_0_r.
      cbn [app]. f_equal. f_equal.
      rewrite <- seq_shift, !flat_map_concat_map, map_map. f_equal.
      apply map_ext. intros j. rewrite Nat.add_succ_r, Nat2Z.inj_succ.
      replace (i + Z.succ (Z.of_nat j)) with (i + 1 + Z.of_nat j) by lia. reflexivity. }
    rewrite Hflat.
    destruct (i <? slices - 1) eqn:Hi.
    + unfold sleep. rewrite Hok. erewrite run_bind_ret by reflexivity.
      rewrite IH. cbn [events clock_reads].
      rewrite actions_app. cbn [actions]. rewrite Ha, Ha1, Hc, Hc1.
      rewrite <- !app_assoc. reflexivity.
    + erewrite run_bind_ret by reflexivity.
      rewrite IH, Ha, Ha1, Hc, Hc1. rewrite <- !app_assoc. reflexivity.
Qed.

Lemma place_twap_raises_only_aux (bot : BasicBot) (symbol side : string)
    (quantity : float) (slices : Z) (interval : float) (w : world) (e : exn) :
  fst (place_twap E bot symbol side quantity slices interval w) = inl e ->
  (slices <= 0 /\ e = ValueError "slices must be >= 1")
  \/ (1 <= slices /\ PyFloat.is_infinite (PyFloat.of_int slices) = true
      /\ e = OverflowError "int too large to convert to float")
  \/ (2 <= slices /\ sleep_error interval = Some e).
Proof.
  unfold place_twap. destruct (slices <=? 0) eqn:Hle.
  - apply Z.leb_le in Hle. intros [= <-]. left. auto.
  - apply Z.leb_gt in Hle. unfold float_truediv_int, lift.
    destruct (PyFloat.is_infinite (PyFloat.of_int slices)) eqn:Hinf.
    + intros [= <-]. right. left. split; [lia|]. split; reflexivity.
    + rewrite of_int_not_zero by lia.
      erewrite run_bind_ret by reflexivity.
      erewrite run_bind_ret by reflexivity.
      intros He. right. right.
      match type of He with
      | fst (twap_loop _ _ _ _ ?q _ _ ?n ?i ?r ?w0) = _ =>
          destruct (twap_loop_general bot symbol side q slices interval n i r w0)
            as [_ Hraise]
      end.
      destruct (Hraise e He) as [H1 H2]. split; [lia | exact H1].
Qed.

(** X12. From a TWAP run an exception leaves only in three ways:
    [ValueError] for a slice count below 1, [OverflowError] for a slice
    count too large for a float, and whatever [time.sleep] raises between
    two slices.  A failure of the exchange never leaves [place_twap]. *)
Theorem place_twap_raises_only (bot : BasicBot) (symbol side : string)
    (quantity : float) (slices : Z) (interval : float) (w : world) (e : exn) :
  fst (place_twap E bot symbol side quantity slices interval w) = inl e ->
  (slices <= 0 /\ e = ValueError "slices must be >= 1")
  \/ (1 <= slices /\ PyFloat.is_infinite (PyFloat.of_int slices) = true
      /\ e = OverflowError "int too large to convert to float")
  \/ (2 <= slices /\ sleep_error interval = Some e).
Proof. apply place_twap_raises_only_aux. Qed.

Lemma place_twap_dicts (bot : BasicBot) (symbol side : string)
    (quantity : float) (slices : Z) (interval : float) (w : world) :
  exists n,
    Z.of_nat n <= Z.max slices 0 /\
    heap (snd (place_twap E bot symbol side quantity slices interval w)) =
      (heap w ++
       map (fun j => stamped_market_params symbol side
                       (PyFloat.round8 (PyFloat.div quantity (PyFloat.of_int slices))) false
                       (clock E (clock_reads w + j)))
           (seq 0 n))%list.
Proof.
  unfold place_twap. destruct (slices <=? 0) eqn:Hle.
  - exists 0%nat. split; [lia|]. cbn. now rewrite app_nil_r.
  - apply Z.leb_gt in Hle. unfold float_truediv_int, lift.
    destruct (PyFloat.is_infinite (PyFloat.of_int slices)) eqn:Hinf.
    + exists 0%nat. split; [lia|]. cbn. now rewrite app_nil_r.
    + rewrite of_int_not_zero by lia.
      erewrite run_bind_ret by reflexivity.
      erewrite run_bind_ret by reflexivity.
      match goal with
      | |- context [twap_loop _ _ _ _ ?q0 _ _ ?n ?i ?r ?w0] =>
          destruct (twap_loop_general bot symbol side q0 slices interval n i r w0)
            as [(n' & Hn & Hheap) _]
      end.
      exists n'. split; [lia|]. rewrite Hheap. reflexivity.
Qed.

(** X13. A TWAP run creates one dict for each slice it places, the
    parameters of that slice's order with its timestamp, and does nothing
    else to the heap: every dict that existed before the call is left as it
    was, whatever the arguments and whatever the exchange answers. *)
Theorem place_twap_creates_slice_dicts (bot : BasicBot) (symbol side : string)
    (quantity : float) (slices : Z) (interval : float) (w : world) :
  let q := PyFloat.div quantity (PyFloat.of_int slices) in
  let w' := snd (place_twap E bot symbol side quantity slices interval w) in
  (exists n,
     Z.of_nat n <= Z.max slices 0 /\
     heap w' =
       (heap w ++
        map (fun j =>
               [ ("symbol", VStr (PyStr.upper symbol));
                 ("side", VStr (PyStr.upper side));
                 ("type", VStr "MARKET");
                 ("quantity", VStr (float_repr (PyFloat.round8 q)));
                 ("reduceOnly", VStr "false");
                 ("timestamp", VInt (clock E (clock_reads w + j))) ])
            (seq 0 n))%list)
  /\ forall r, (r < List.length (heap w))%nat -> lookup (heap w') r = lookup (heap w) r.
Proof.
  intros q w'.
  destruct (place_twap_dicts bot symbol side quantity slices interval w)
    as (n & Hn & Hheap).
  fold q w' in Hheap. split.
  - exists n. split; [exact Hn|]. rewrite Hheap. reflexivity.
  - intros r Hr. rewrite Hheap. unfold lookup. apply app_nth1. exact Hr.
Qed.

(** X14. A TWAP run of [N] slices whose count converts to a float and
    whose interval [time.sleep] accepts sends [N] orders and sleeps for
    the interval after each of them but the last: [N - 1] pauses, none for
    a single slice, none after the last order. *)
Theorem twap_paces_the_slices (bot : BasicBot) (symbol side : string)
    (quantity : float) (N : Z) (interval : float) (w : world) :
  1 <= N ->
  PyFloat.is_infinite (PyFloat.of_int N) = false ->
  sleep_error interval = None ->
  let q := PyFloat.div quantity (PyFloat.of_int N) in
  let w' := snd (place_twap E bot symbol side quantity N interval w) in
  actions (events w') =
    (actions (events w) ++
     flat_map (fun j =>
                 Order (market_request bot symbol side (PyFloat.round8 q) false
                          (clock E (clock_reads w + j)))
                 :: (if Z.of_nat j <? N - 1 then [Pause interval] else []))
              (seq 0 (Z.to_nat N)))%list.
Proof.
  intros HN Hinf Hok q w'. subst w'. unfold place_twap.
  destruct (N <=? 0) eqn:Hle; [apply Z.leb_le in Hle; lia|].
  unfold float_truediv_int, lift. rewrite Hinf, of_int_not_zero by lia.
  erewrite run_bind_ret by reflexivity.
  erewrite run_bind_ret by reflexivity.
  rewrite twap_loop_actions by exact Hok.
  cbn [events clock_reads]. rewrite actions_app. cbn [actions]. rewrite app_nil_r.
  reflexivity.
Qed.


(** X15. A slice count of [2^1024] or more does not convert to a
    float: the TWAP call raises [OverflowError] before anything is logged
    or sent, and the world is left as it was. *)
Theorem place_twap_rejects_huge_slice_count (bot : BasicBot) (symbol side : string)
    (quantity : float) (slices : Z) (interval : float) (w : world) :
  2 ^ 1024 <= slices ->
  place_twap E bot symbol side quantity slices interval w =
    (inl (OverflowError "int too large to convert to float"), w).
Proof.
  intros Hs. unfold place_twap.
  assert (H0 : 0 < 2 ^ 1024) by (apply Z.pow_pos_nonneg; lia).
  destruct (slices <=? 0) eqn:Hle; [apply Z.leb_le in Hle; lia|].
  unfold float_truediv_int, lift. rewrite (of_int_overflow slices Hs). reflexivity.
Qed.

Lemma validate_args_pure (a : args) (w : world) : snd (validate_args a w) = w.
Proof.
  unfold validate_args.
  repeat match goal with
         | |- context [if ?b then _ else _] => destruct b
         end; reflexivity.
Qed.

Lemma validate_args_raises (a : args) (w : world) (e : exn) :
  fst (validate_args a w) = inl e -> is_SystemExit e = true.
Proof.
  unfold validate_args.
  repeat match goal with
         | |- context [if ?b then _ else _] => destruct b
         end; cbn; intros [= <-]; reflexivity.
Qed.

(** X16. Argument validation accepts a command line exactly when key
    and secret are given and non-empty, a LIMIT order has a price, a STOP
    order has a stop price and a price, and the quantity is not [<= 0]:
    positive, or NaN, for which every comparison is false.  It has no
    effect, and what it raises is a [SystemExit]. *)
Theorem validate_args_accepts_iff (a : args) (w : world) :
  (fst (validate_args a w) = inr tt <->
   (exists k, arg_api_key a = Some k /\ k <> "")
   /\ (exists s, arg_api_secret a = Some s /\ s <> "")
   /\ (arg_type a = "LIMIT" -> arg_price a <> None)
   /\ (arg_type a = "STOP" -> arg_stop_price a <> None /\ arg_price a <> None)
   /\ (SFcompare (arg_quantity a) PyFloat.zero = Some Gt \/ arg_quantity a = S754_nan))
  /\ snd (validate_args a w) = w
  /\ forall e, fst (validate_args a w) = inl e -> is_SystemExit e = true.
Proof.
  split; [|split; [apply validate_args_pure | apply validate_args_raises]].
  rewrite <- le_zero_false. unfold validate_args.
  assert (Hf : forall s : option string,
             falsy s = false <-> exists k, s = Some k /\ k <> "").
  { intros [[|c k]|]; cbn; split; try discriminate.
    - intros (k & [= <-] & Hk). contradiction.
    - intros _. eexists. split; [reflexivity | discriminate].
    - reflexivity.
    - intros (k & Hk & _). discriminate. }
  rewrite <- !Hf.
  destruct (falsy (arg_api_key a)); cbn [orb].
  { split; [discriminate | intros (H & _); discriminate]. }
  destruct (falsy (arg_api_secret a)); cbn [orb].
  { split; [discriminate | intros (_ & H & _); discriminate]. }
  destruct (String.eqb_spec (arg_type a) "LIMIT") as [HL | HL]; cbn [andb].
  - destruct (arg_price a) as [p|] eqn:Hp; cbn [is_None].
    + rewrite HL. cbn [String.eqb Ascii.eqb Bool.eqb andb].
      destruct (PyFloat.le (arg_quantity a) PyFloat.zero).
      * split; [discriminate | intros (_ & _ & _ & _ & H); discriminate].
      * split; [|reflexivity]. intros _. repeat split; try discriminate.
    + split; [discriminate|]. intros (_ & _ & H & _). exfalso. now apply H.
  - destruct (String.eqb_spec (arg_type a) "STOP") as [HS | HS]; cbn [andb].
    + destruct (arg_stop_price a) as [sp|] eqn:Hsp; cbn [is_None orb].
      * destruct (arg_price a) as [p|] eqn:Hp; cbn [is_None].
        -- destruct (PyFloat.le (arg_quantity a) PyFloat.zero).
           ++ split; [discriminate | intros (_ & _ & _ & _ & H); discriminate].
           ++ split; [|reflexivity]. intros _. repeat split; discriminate.
        -- split; [discriminate|]. intros (_ & _ & _ & H & _).
           destruct (H HS) as [_ H']. exfalso. now apply H'.
      * split; [discriminate|]. intros (_ & _ & _ & H & _).
        destruct (H HS) as [H' _]. exfalso. now apply H'.
    + destruct (PyFloat.le (arg_quantity a) PyFloat.zero).
      * split; [discriminate | intros (_ & _ & _ & _ & H); discriminate].
      * split; [|reflexivity]. intros _. repeat split; try discriminate; contradiction.
Qed.


(** X17. When argument validation rejects the command line, for
    whatever reason, [main] logs one line at level ERROR with the message
    and lets the [SystemExit] go on: no bot is constructed, no request is
    sent, nothing is printed. *)
Theorem main_reports_rejected_arguments (a : args) (w : world) (e : exn) :
  fst (validate_args a w) = inl e ->
  main E a w =
    (inl e,
     {| heap := heap w;
        clock_reads := clock_reads w;
        http_calls := http_calls w;
        events := (events w ++
                   [EvLog ERROR ("Argument validation failed: " ++ exn_str e) None])%list |}).
Proof.
  intros He.
  assert (Hv : validate_args a w = (inl e, w)).
  { rewrite (surjective_pairing (validate_args a w)), He, validate_args_pure. reflexivity. }
  unfold main.
  erewrite run_bind_raise; [reflexivity|].
  erewrite run_try_catch; [|exact Hv|exact (validate_args_raises a w e He)].
  reflexivity.
Qed.

(** What [main] does once the arguments are accepted. *)
Lemma main_after_validation (a : args) (w : world) :
  fst (validate_args a w) = inr tt ->
  let bot := {| api_key := unwrap (arg_api_key a);
                api_secret := unwrap (arg_api_secret a);
                base_url := PyStr.rstrip_char "/" (arg_base_url a);
                session_headers := [("X-MBX-APIKEY", unwrap (arg_api_key a))] |} in
  let side := PyStr.upper (arg_side a) in
  let w0 := {| heap := heap w; clock_reads := clock_reads w; http_calls := http_calls w;
               events := (events w ++
                          [EvLog INFO ("BasicBot initialized with base_url="
                                       ++ base_url bot) None])%list |} in
  main E a w =
    try_except
      (if String.eqb (arg_type a) "MARKET" then
         resp <- place_market_order E bot (arg_symbol a) side (arg_quantity a) false ;;
         print ("Order response: " ++ json_repr resp)
       else if String.eqb (arg_type a) "LIMIT" then
         resp <- place_limit_order E bot (arg_symbol a) side (arg_quantity a)
                   (arg_price a) (arg_time_in_force a) false ;;
         print ("Order response: " ++ json_repr resp)
       else if String.eqb (arg_type a) "STOP" then
         resp <- place_stop_limit E bot (arg_symbol a) side (arg_quantity a)
                   (arg_stop_price a) (arg_price a) (arg_time_in_force a) ;;
         print ("Order response: " ++ json_repr resp)
       else if String.eqb (arg_type a) "TWAP" then
         resp <- place_twap E bot (arg_symbol a) side (arg_quantity a)
                   (arg_twap_slices a) (arg_twap_interval a) ;;
         print "TWAP responses:" ;;
         print_each resp
       else logger_error ("Unsupported order type: " ++ arg_type a))
      is_Exception
      (fun e =>
         logger_exception ("Error executing order: " ++ exn_str e) e ;;
         print ("Execution failed: " ++ exn_str e)) w0.
Proof.
  intros Hv bot side w0.
  assert (Hv' : validate_args a w = (inr tt, w)).
  { rewrite (surjective_pairing (validate_args a w)), Hv, validate_args_pure. reflexivity. }
  unfold main.
  erewrite run_bind_ret by (erewrite run_try_ret by exact Hv'; reflexivity).
  unfold __init__. erewrite run_bind_ret by reflexivity. reflexivity.
Qed.

Lemma sent_requests_print_each (rs : list json) (w : world) :
  fst (print_each rs w) = inr tt
  /\ sent_requests (events (snd (print_each rs w))) = sent_requests (events w).
Proof.
  revert w. induction rs as [|r rs IH]; intros w; [split; reflexivity|].
  cbn [print_each]. unfold bind, print, emit. cbv beta iota.
  match goal with
  | |- context [print_each rs ?w0] => destruct (IH w0) as [H1 H2]
  end.
  split; [exact H1|]. rewrite H2. cbn [events]. rewrite sent_requests_app. cbn.
  apply app_nil_r.
Qed.

(** An operation run under [main]'s handler: [main] returns, and the
    requests sent are those of the operation. *)
Lemma reported_run {A} (m : M A) (report : A -> M unit) (w : world) :
  (forall e, fst (m w) = inl e -> is_Exception e = true) ->
  (forall v w1, fst (report v w1) = inr tt
                /\ sent_requests (events (snd (report v w1))) = sent_requests (events w1)) ->
  let run := try_except (v <- m ;; report v) is_Exception
               (fun e =>
                  logger_exception ("Error executing order: " ++ exn_str e) e ;;
                  print ("Execution failed: " ++ exn_str e)) w in
  fst run = inr tt
  /\ sent_requests (events (snd run)) = sent_requests (events (snd (m w))).
Proof.
  intros Hexc Hrep run. subst run.
  unfold try_except, bind, logger_exception, print, emit.
  destruct (m w) as [[e | v] w1] eqn:Hm; cbn [fst snd] in *.
  - rewrite (Hexc e eq_refl). cbn [fst snd events]. split; [reflexivity|].
    rewrite !sent_requests_app. cbn [sent_requests]. now rewrite !app_nil_r.
  - destruct (Hrep v w1) as [H1 H2].
    destruct (report v w1) as [[e | []] w2]; cbn [fst snd] in *; [discriminate|].
    split; [reflexivity | exact H2].
Qed.

Lemma print_report (s : string) (w : world) :
  fst (print s w) = inr tt
  /\ sent_requests (events (snd (print s w))) = sent_requests (events w).
Proof.
  split; [reflexivity|]. cbn. rewrite sent_requests_app. cbn. apply app_nil_r.
Qed.

Lemma post_fresh_raises (bot : BasicBot) (d : dict) (w : world) (e : exn) :
  Dict.truthy d = true ->
  fst ((params <- alloc d ;; _send_signed_request E bot "POST" order_path (Some params)) w)
    = inl e ->
  is_Exception e = true.
Proof.
  intros Ht. rewrite post_fresh_exec by exact Ht. cbn [fst].
  apply send_result_is_Exception.
Qed.

(** X18. Once the arguments are accepted, [main] returns normally
    whatever the exchange does, provided [time.sleep] raises nothing but
    [Exception]s: every failure of the order is caught, logged and
    printed.  For an order type that is none of MARKET, LIMIT, STOP and
    TWAP no request is sent. *)
Theorem main_returns_normally (a : args) (w : world) :
  fst (validate_args a w) = inr tt ->
  (forall secs e, sleep_error secs = Some e -> is_Exception e = true) ->
  fst (main E a w) = inr tt
  /\ (arg_type a <> "MARKET" -> arg_type a <> "LIMIT" -> arg_type a <> "STOP" ->
      arg_type a <> "TWAP" ->
      sent_requests (events (snd (main E a w))) = sent_requests (events w)).
Proof.
  intros Hv Hsleep. rewrite (main_after_validation a w Hv). cbv zeta.
  set (bot := {| api_key := _ |}).
  set (w0 := {| heap := _ |}).
  set (side := PyStr.upper (arg_side a)).
  destruct (String.eqb_spec (arg_type a) "MARKET") as [HM | HM].
  { split; [|contradiction].
    apply (reported_run (place_market_order E bot (arg_symbol a) side (arg_quantity a) false)).
    - intros e. apply post_fresh_raises. reflexivity.
    - intros v w1. apply print_report. }
  destruct (String.eqb_spec (arg_type a) "LIMIT") as [HL | HL].
  { split; [|contradiction].
    apply (reported_run (place_limit_order E bot (arg_symbol a) side (arg_quantity a)
                           (arg_price a) (arg_time_in_force a) false)).
    - intros e. apply post_fresh_raises. reflexivity.
    - intros v w1. apply print_report. }
  destruct (String.eqb_spec (arg_type a) "STOP") as [HS | HS].
  { split; [|contradiction].
    apply (reported_run (place_stop_limit E bot (arg_symbol a) side (arg_quantity a)
                           (arg_stop_price a) (arg_price a) (arg_time_in_force a))).
    - intros e. apply post_fresh_raises. reflexivity.
    - intros v w1. apply print_report. }
  destruct (String.eqb_spec (arg_type a) "TWAP") as [HT | HT].
  { split; [|contradiction].
    apply (reported_run (place_twap E bot (arg_symbol a) side (arg_quantity a)
                           (arg_twap_slices a) (arg_twap_interval a))
             (fun resp => print "TWAP responses:" ;; print_each resp)).
    - intros e He.
      destruct (place_twap_raises_only_aux bot (arg_symbol a) side (arg_quantity a)
                  (arg_twap_slices a) (arg_twap_interval a) w0 e He)
        as [[_ ->] | [(_ & _ & ->) | [_ Hs]]]; try reflexivity.
      exact (Hsleep _ _ Hs).
    - intros v w1. unfold bind, print, emit. cbv beta iota.
      match goal with
      | |- context [print_each v ?w2] =>
          destruct (sent_requests_print_each v w2) as [H1 H2]
      end.
      split; [exact H1|]. rewrite H2. cbn [events]. rewrite sent_requests_app. cbn.
      apply app_nil_r. }
  split; [reflexivity|]. intros _ _ _ _.
  unfold try_except, logger_error, emit. cbn [snd events].
  subst w0. cbn [events]. rewrite !sent_requests_app. cbn. now rewrite !app_nil_r.
Qed.





(** X20. Called with [None] or with an empty mapping, a POST or GET
    call signs and sends the query [timestamp=<ms>] alone; it creates one
    dict, which holds the timestamp, and leaves every dict of the caller
    as it was. *)
Theorem send_without_parameters (bot : BasicBot) (method path : string)
    (params : option ref) (w : world) :
  PyStr.upper method = "POST" \/ PyStr.upper method = "GET" ->
  given_params params w = [] ->
  let ts := clock E (clock_reads w) in
  let query := "timestamp=" ++ PyStr.str_int ts in
  let w' := snd (_send_signed_request E bot method path params w) in
  sent_requests (events w') =
    (sent_requests (events w) ++
     [ {| req_method := PyStr.upper method;
          req_url := (base_url bot ++ path) ++ "?" ++ query
                     ++ "&signature=" ++ hmac_sha256_hexdigest (api_secret bot) query;
          req_headers := session_headers bot;
          req_timeout := 10 |} ])%list
  /\ heap w' = (heap w ++ [[("timestamp", VInt ts)]])%list.
Proof.
  intros Hm Hgiven ts query w'. subst w'.
  rewrite send_exec by exact Hm. cbn [snd events heap].
  rewrite !sent_requests_app, sent_requests_send_events. cbn [sent_requests].
  rewrite app_nil_r.
  assert (Hd : stamped E params w = [("timestamp", VInt ts)]).
  { unfold stamped. rewrite target_given, Hgiven. reflexivity. }
  rewrite Hd. split.
  - unfold signed_request, _sign_payload.
    replace (Url.urlencode [("timestamp", VInt ts)]) with query; [reflexivity|].
    subst query. cbv [Url.urlencode String.concat map Url.encode_item fst snd Url.value_str].
    rewrite quote_plus_str_int. reflexivity.
  - unfold target, target_heap, given_params in *. destruct params as [r|].
    + rewrite Hgiven. cbn [Dict.truthy]. apply update_app_new.
    + apply update_app_new.
Qed.




(** The events of slice [j] of a TWAP run, [i] being the loop index of
    slice [0] and [c], [h] the clock readings and HTTP calls before it. *)
Lemma twap_attempt_events (bot : BasicBot) (symbol side : string) (slice_qty : float)
    (i : Z) (responses : list json) (w : world) :
  let o := slice_outcome E bot symbol side slice_qty (clock_reads w) (http_calls w) 0 in
  exists w' responses',
    try_except
      (resp <- place_market_order E bot symbol side (PyFloat.round8 slice_qty) false ;;
       ret (responses ++ [resp])%list)
      is_Exception
      (fun e =>
         logger_exception ("Error executing TWAP slice " ++ PyStr.str_int (i + 1)
                           ++ ": " ++ exn_str e) e ;;
         ret (responses ++ [error_entry e])%list) w
    = (inr responses', w')
    /\ clock_reads w' = S (clock_reads w)
    /\ http_calls w' = S (http_calls w)
    /\ events w' =
         (events w ++
          [request_line bot "POST" order_path
             (stamped_market_params symbol side (PyFloat.round8 slice_qty) false
                (clock E (clock_reads w)));
           EvHttp (market_request bot symbol side (PyFloat.round8 slice_qty) false
                     (clock E (clock_reads w)))]
          ++ send_events o
          ++ match send_result o with
             | inl e => [EvLog ERROR ("Error executing TWAP slice " ++ PyStr.str_int (i + 1)
                                      ++ ": " ++ exn_str e) (Some e)]
             | inr _ => []
             end)%list.
Proof.
  intros o. subst o. unfold slice_outcome. rewrite !Nat.add_0_r.
  pose proof (place_market_order_exec E bot symbol side (PyFloat.round8 slice_qty) false w)
    as Hexec. cbv zeta in Hexec.
  destruct (send_result (exchange E (http_calls w) _)) as [e | v] eqn:Hres.
  - eexists. eexists. split.
    + erewrite run_try_catch.
      * unfold bind, logger_exception, emit, ret. reflexivity.
      * erewrite run_bind_raise by exact Hexec. reflexivity.
      * eapply send_result_is_Exception. exact Hres.
    + cbn [clock_reads http_calls events]. split; [reflexivity|]. split; [reflexivity|].
      rewrite <- ?app_assoc. reflexivity.
  - eexists. eexists. split.
    + erewrite run_try_ret; [reflexivity|].
      erewrite run_bind_ret by exact Hexec. reflexivity.
    + cbn [clock_reads http_calls events]. split; [reflexivity|]. split; [reflexivity|].
      rewrite <- ?app_assoc, ?app_nil_r. reflexivity.
Qed.

Lemma twap_loop_events (bot : BasicBot) (symbol side : string) (slice_qty : float)
    (slices : Z) (interval : float) :
  sleep_error interval = None ->
  forall (remaining : nat) (done : nat) (responses : list json) (w : world),
    (done <= clock_reads w)%nat -> (done <= http_calls w)%nat ->
    events (snd (twap_loop E bot symbol side slice_qty slices interval
                   remaining (Z.of_nat done) responses w)) =
      (events w ++
       flat_map (slice_events E bot symbol side slice_qty slices interval
                   (clock_reads w - done) (http_calls w - done))
                (seq done remaining))%list.
Proof.
  intros Hok. induction remaining as [|k IH]; intros done responses w Hdc Hdh.
  - cbn. now rewrite app_nil_r.
  - cbn [twap_loop].
    erewrite run_bind_ret by reflexivity.
    match goal with
    | |- context [bind _ _ ?w0] => set (w1 := w0)
    end.
    assert (Hc1 : clock_reads w1 = clock_reads w) by reflexivity.
    assert (Hh1 : http_calls w1 = http_calls w) by reflexivity.
    assert (He1 : events w1 =
                  (events w ++
                   [EvLog INFO ("TWAP slice " ++ PyStr.str_int (Z.of_nat done + 1) ++ "/"
                                ++ PyStr.str_int slices ++ ": qty=" ++ float_repr slice_qty)
                      None])%list) by reflexivity.
    clearbody w1.
    destruct (twap_attempt_events bot symbol side slice_qty (Z.of_nat done) responses w1)
      as (w2 & responses' & Hrun & Hc & Hh & He).
    erewrite run_bind_ret by exact Hrun.
    cbn [seq flat_map].
    assert (Hslice : forall tail,
              (events w2 ++ (if Z.of_nat done <? slices - 1 then [EvSleep interval] else [])
               ++ tail)%list =
              (events w ++
               slice_events E bot symbol side slice_qty slices interval
                 (clock_reads w - done) (http_calls w - done) done ++ tail)%list).
    { intros tail. rewrite He, He1, Hc1, Hh1. unfold slice_events, slice_outcome.
      replace (clock_reads w - done + done)%nat with (clock_reads w) by lia.
      replace (http_calls w - done + done)%nat with (http_calls w) by lia.
      rewrite !Nat.add_0_r. cbv zeta.
      repeat (rewrite <- ?app_assoc; cbn [app]). reflexivity. }
    replace (Z.of_nat done + 1) with (Z.of_nat (S done)) by lia.
    destruct (Z.of_nat done <? slices - 1) eqn:Hi.
    + unfold sleep. rewrite Hok. erewrite run_bind_ret by reflexivity.
      rewrite IH by (cbn [clock_reads http_calls]; lia).
      cbn [events clock_reads http_calls]. rewrite <- Hslice.
      rewrite Hc, Hh, Hc1, Hh1.
      replace (S (clock_reads w) - S done)%nat with (clock_reads w - done)%nat by lia.
      replace (S (http_calls w) - S done)%nat with (http_calls w - done)%nat by lia.
      rewrite <- !app_assoc. reflexivity.
    + erewrite run_bind_ret by reflexivity.
      rewrite IH by lia. rewrite <- Hslice.
      rewrite Hc, Hh, Hc1, Hh1.
      replace (S (clock_reads w) - S done)%nat with (clock_reads w - done)%nat by lia.
      replace (S (http_calls w) - S done)%nat with (http_calls w - done)%nat by lia.
      reflexivity.
Qed.

(** X22. The whole trace of a TWAP run whose slice count converts and
    whose interval [time.sleep] accepts: the starting line, then for each
    slice its line with the unrounded slice quantity, the signed request
    line and the request of an order for the rounded quantity, the
    response or failure lines of the send operation, for a failed slice a
    second line at level ERROR, and a pause after every slice but the
    last. *)
Theorem twap_event_trace (bot : BasicBot) (symbol side : string)
    (quantity : float) (N : Z) (interval : float) (w : world) :
  1 <= N ->
  PyFloat.is_infinite (PyFloat.of_int N) = false ->
  sleep_error interval = None ->
  let q := PyFloat.div quantity (PyFloat.of_int N) in
  events (snd (place_twap E bot symbol side quantity N interval w)) =
    (events w ++
     EvLog INFO ("Starting TWAP: " ++ side ++ " " ++ symbol
                 ++ " total_qty=" ++ float_repr quantity
                 ++ " slices=" ++ PyStr.str_int N
                 ++ " interval=" ++ float_repr interval) None
     :: flat_map (fun j =>
                    let o := slice_outcome E bot symbol side q
                               (clock_reads w) (http_calls w) j in
                    [EvLog INFO ("TWAP slice " ++ PyStr.str_int (Z.of_nat j + 1) ++ "/"
                                 ++ PyStr.str_int N ++ ": qty=" ++ float_repr q) None;
                     request_line bot "POST" order_path
                       (stamped_market_params symbol side (PyFloat.round8 q) false
                          (clock E (clock_reads w + j)));
                     EvHttp (market_request bot symbol side (PyFloat.round8 q) false
                               (clock E (clock_reads w + j)))]
                    ++ send_events o
                    ++ match send_result o with
                       | inl e =>
                           [EvLog ERROR ("Error executing TWAP slice "
                                         ++ PyStr.str_int (Z.of_nat j + 1)
                                         ++ ": " ++ exn_str e) (Some e)]
                       | inr _ => []
                       end
                    ++ (if Z.of_nat j <? N - 1 then [EvSleep interval] else []))
                 (seq 0 (Z.to_nat N)))%list.
Proof.
  intros HN Hinf Hok q. unfold place_twap.
  destruct (N <=? 0) eqn:Hle; [apply Z.leb_le in Hle; lia|].
  unfold float_truediv_int, lift. rewrite Hinf, of_int_not_zero by lia.
  erewrite run_bind_ret by reflexivity.
  erewrite run_bind_ret by reflexivity.
  change 0 with (Z.of_nat 0).
  rewrite twap_loop_events by (exact Hok || apply Nat.le_0_l).
  cbn [events clock_reads http_calls]. rewrite !Nat.sub_0_r, <- app_assoc.
  reflexivity.
Qed.

Lemma error_logs_send_events (o : http_outcome) :
  error_logs (send_events o) =
  match send_result o with inl e => [failure_line e] | inr _ => [] end.
Proof.
  unfold send_events. destruct o as [k msg | r]; [reflexivity|].
  cbn [error_logs response_line]. destruct (send_result (Answered r)); reflexivity.
Qed.

(** One order placed under [main]'s handler. *)
Lemma reported_post (bot : BasicBot) (d : dict) (w : world) :
  Dict.truthy d = true ->
  let req := signed_request bot "POST" order_path
               (Dict.set "timestamp" (VInt (clock E (clock_reads w))) d) in
  let run := try_except
               (resp <- (params <- alloc d ;;
                         _send_signed_request E bot "POST" order_path (Some params)) ;;
                print ("Order response: " ++ json_repr resp))
               is_Exception
               (fun e =>
                  logger_exception ("Error executing order: " ++ exn_str e) e ;;
                  print ("Execution failed: " ++ exn_str e)) w in
  sent_requests (events (snd run)) = (sent_requests (events w) ++ [req])%list
  /\ match send_result (exchange E (http_calls w) req) with
     | inr v =>
         error_logs (events (snd run)) = error_logs (events w)
         /\ exists before,
              events (snd run) =
                (before ++ [EvPrint ("Order response: " ++ json_repr v)])%list
     | inl e =>
         error_logs (events (snd run)) =
           (error_logs (events w) ++
            [EvLog ERROR ("HTTP error during signed request: " ++ exn_str e) (Some e);
             EvLog ERROR ("Error executing order: " ++ exn_str e) (Some e)])%list
         /\ exists before,
              events (snd run) =
                (before ++ [EvPrint ("Execution failed: " ++ exn_str e)])%list
     end.
Proof.
  intros Ht req run.
  pose proof (post_fresh_exec bot d w Ht) as Hexec. cbv zeta in Hexec. fold req in Hexec.
  pose proof (error_logs_send_events (exchange E (http_calls w) req)) as Herr.
  pose proof (send_result_is_Exception (exchange E (http_calls w) req)) as Hexc.
  destruct (send_result (exchange E (http_calls w) req)) as [e | v].
  - assert (Hrun : run = (logger_exception ("Error executing order: " ++ exn_str e) e ;;
                          print ("Execution failed: " ++ exn_str e))
                           (snd ((params <- alloc d ;;
                                  _send_signed_request E bot "POST" order_path (Some params))
                                   w))).
    { subst run. rewrite Hexec. cbn [snd].
      erewrite run_try_catch; [reflexivity| |exact (Hexc e eq_refl)].
      erewrite run_bind_raise by exact Hexec. reflexivity. }
    rewrite Hrun, Hexec. unfold bind, logger_exception, print, emit.
    cbn [fst snd events]. split; [|split].
    + rewrite !sent_requests_app, sent_requests_send_events. cbn [sent_requests].
      now rewrite !app_nil_r.
    + rewrite !error_logs_app, Herr. cbn [error_logs request_line failure_line app].
      rewrite <- !app_assoc. reflexivity.
    + eexists. reflexivity.
  - assert (Hrun : run = print ("Order response: " ++ json_repr v)
                           (snd ((params <- alloc d ;;
                                  _send_signed_request E bot "POST" order_path (Some params))
                                   w))).
    { subst run. rewrite Hexec. cbn [snd].
      unfold try_except. erewrite run_bind_ret by exact Hexec. reflexivity. }
    rewrite Hrun, Hexec. unfold print, emit. cbn [fst snd events]. split; [|split].
    + rewrite !sent_requests_app, sent_requests_send_events. cbn [sent_requests].
      now rewrite !app_nil_r.
    + rewrite !error_logs_app, Herr. cbn [error_logs request_line app].
      now rewrite !app_nil_r.
    + eexists. reflexivity.
Qed.

(** X23. For an accepted command line of type MARKET, LIMIT or STOP,
    the last thing [main] does is print: the response of the exchange when
    the order went through, [Execution failed:] with the exception's
    message when it did not.  A failed order is logged twice at level
    ERROR, once by the send operation and once by [main]; a successful one
    logs nothing at that level. *)
Theorem main_reports_the_outcome (a : args) (w : world) :
  fst (validate_args a w) = inr tt ->
  arg_type a = "MARKET" \/ arg_type a = "LIMIT" \/ arg_type a = "STOP" ->
  let run := main E a w in
  exists req,
    sent_requests (events (snd run)) = (sent_requests (events w) ++ [req])%list
    /\ match send_result (exchange E (http_calls w) req) with
       | inr v =>
           error_logs (events (snd run)) = error_logs (events w)
           /\ exists before,
                events (snd run) =
                  (before ++ [EvPrint ("Order response: " ++ json_repr v)])%list
       | inl e =>
           error_logs (events (snd run)) =
             (error_logs (events w) ++
              [EvLog ERROR ("HTTP error during signed request: " ++ exn_str e) (Some e);
               EvLog ERROR ("Error executing order: " ++ exn_str e) (Some e)])%list
           /\ exists before,
                events (snd run) =
                  (before ++ [EvPrint ("Execution failed: " ++ exn_str e)])%list
       end.
Proof.
  intros Hv Hty run. subst run. rewrite (main_after_validation a w Hv). cbv zeta.
  set (bot := {| api_key := _ |}).
  set (w0 := {| heap := _ |}).
  assert (Hs0 : sent_requests (events w0) = sent_requests (events w)).
  { subst w0. cbn [events]. rewrite sent_requests_app. cbn. apply app_nil_r. }
  assert (He0 : error_logs (events w0) = error_logs (events w)).
  { subst w0. cbn [events]. rewrite error_logs_app. cbn. apply app_nil_r. }
  assert (Hc0 : http_calls w0 = http_calls w) by reflexivity.
  destruct Hty as [Hty | [Hty | Hty]]; rewrite Hty;
    cbn [String.eqb Ascii.eqb Bool.eqb];
    unfold place_market_order, place_limit_order, place_stop_limit;
    match goal with
    | |- context [alloc ?d] =>
        pose proof (reported_post bot d w0 eq_refl) as H; cbv zeta in H
    end;
    rewrite Hs0, He0, Hc0 in H; eexists; exact H.
Qed.


Lemma send_unique_keys (bot : BasicBot) (method path : string) (params : option ref)
    (w : world) :
  unique_keys (heap w) ->
  unique_keys (heap (snd (_send_signed_request E bot method path params w))).
Proof.
  intros Hw. destruct (send_frame E bot method path params w) as [-> _].
  assert (Ht : unique_keys (target_heap params w)).
  { unfold target_heap. destruct params as [r|];
      [destruct (Dict.truthy (lookup (heap w) r))|]; try exact Hw;
      apply Forall_app; split; try exact Hw; repeat constructor. }
  apply unique_keys_update; [exact Ht|].
  unfold stamped. apply Dict_set_unique, unique_keys_lookup, Ht.
Qed.

(** X24. The operations keep the heap well-formed: if every dict has
    each of its keys once before a call of the send operation, of an
    order builder or of a TWAP run, so it is after the call; in particular
    no mapping ever holds two timestamps. *)
Theorem operations_keep_keys_unique (bot : BasicBot) (w : world) :
  unique_keys (heap w) ->
  (forall method path params,
      unique_keys (heap (snd (_send_signed_request E bot method path params w))))
  /\ (forall symbol side quantity reduce_only,
        unique_keys (heap (snd (place_market_order E bot symbol side quantity
                                  reduce_only w))))
  /\ (forall symbol side quantity price tif reduce_only,
        unique_keys (heap (snd (place_limit_order E bot symbol side quantity price tif
                                  reduce_only w))))
  /\ (forall symbol side quantity stop price tif,
        unique_keys (heap (snd (place_stop_limit E bot symbol side quantity stop price
                                  tif w))))
  /\ (forall symbol side quantity slices interval,
        unique_keys (heap (snd (place_twap E bot symbol side quantity slices interval w)))).
Proof.
  intros Hw.
  assert (Hfresh : forall d, Dict.truthy d = true -> NoDup (Dict.keys d) ->
            unique_keys
              (heap (snd ((params <- alloc d ;;
                           _send_signed_request E bot "POST" order_path (Some params)) w)))).
  { intros d Ht Hd. rewrite post_fresh_exec by exact Ht. cbn [snd heap].
    apply Forall_app. split; [exact Hw|]. constructor; [|constructor].
    apply Dict_set_unique. exact Hd. }
  split; [intros; now apply send_unique_keys|].
  split; [|split; [|split]].
  - intros. apply Hfresh; [reflexivity|].
    cbn. repeat constructor; cbn; intuition discriminate.
  - intros. apply Hfresh; [reflexivity|].
    cbn. repeat constructor; cbn; intuition discriminate.
  - intros. apply Hfresh; [reflexivity|].
    cbn. repeat constructor; cbn; intuition discriminate.
  - intros symbol side quantity slices interval.
    destruct (place_twap_dicts bot symbol side quantity slices interval w)
      as (n & _ & ->).
    apply Forall_app. split; [exact Hw|].
    apply Forall_forall. intros d Hd. apply in_map_iff in Hd. destruct Hd as (j & <- & _).
    cbn. repeat constructor; cbn; intuition discriminate.
Qed.

Lemma print_each_events (rs : list json) (w : world) :
  print_each rs w =
    (inr tt,
     {| heap := heap w; clock_reads := clock_reads w; http_calls := http_calls w;
        events := (events w ++ map (fun r => EvPrint (json_repr r)) rs)%list |}).
Proof.
  revert w. induction rs as [|r rs IH]; intros w.
  - cbn. rewrite app_nil_r. destruct w; reflexivity.
  - cbn [print_each]. unfold print at 1, emit. unfold bind. rewrite IH.
    cbn [heap clock_reads http_calls events map]. rewrite <- app_assoc. reflexivity.
Qed.

(** X25. For an accepted command line of type TWAP whose slice count
    is between 1 and [2^1023] and whose interval [time.sleep] accepts,
    [main] returns after printing [TWAP responses:] and then the entry of
    every slice, one line each, in slice order: the payload of the order,
    or [{'error': ...}] for a slice that failed. *)
Theorem main_prints_the_twap_log (a : args) (w : world) :
  fst (validate_args a w) = inr tt ->
  arg_type a = "TWAP" ->
  1 <= arg_twap_slices a < 2 ^ 1023 ->
  sleep_error (arg_twap_interval a) = None ->
  let bot := {| api_key := unwrap (arg_api_key a);
                api_secret := unwrap (arg_api_secret a);
                base_url := PyStr.rstrip_char "/" (arg_base_url a);
                session_headers := [("X-MBX-APIKEY", unwrap (arg_api_key a))] |} in
  let q := PyFloat.div (arg_quantity a) (PyFloat.of_int (arg_twap_slices a)) in
  fst (main E a w) = inr tt
  /\ exists before,
       events (snd (main E a w)) =
         (before ++
          EvPrint "TWAP responses:"
          :: map (fun j =>
                    EvPrint (json_repr
                               (slice_entry
                                  (slice_outcome E bot (arg_symbol a)
                                     (PyStr.upper (arg_side a)) q
                                     (clock_reads w) (http_calls w) j))))
                 (seq 0 (Z.to_nat (arg_twap_slices a))))%list.
Proof.
  intros Hv Hty HN Hok bot q. rewrite (main_after_validation a w Hv). cbv zeta.
  fold bot. rewrite Hty. cbn [String.eqb Ascii.eqb Bool.eqb].
  set (w0 := {| heap := _ |}).
  destruct (place_twap_exec E bot (arg_symbol a) (PyStr.upper (arg_side a)) (arg_quantity a)
              (arg_twap_slices a) (arg_twap_interval a) w0 HN (or_intror Hok))
    as (w' & Hrun & _).
  fold q in Hrun.
  erewrite run_try_ret.
  2:{ erewrite run_bind_ret by exact Hrun.
      unfold print at 1, emit. unfold bind. rewrite print_each_events. reflexivity. }
  cbn [fst snd events]. split; [reflexivity|].
  eexists. rewrite <- app_assoc. cbn [app]. rewrite map_map. reflexivity.
Qed.


End Coverage.

(** ** The further properties on concrete runs *)


(** A GET that the exchange answers with status 200 and [{}]. *)
Lemma send_returns_decoded_body_witness :
  (PyStr.upper "get" = "POST" \/ PyStr.upper "get" = "GET")
  /\ let v := JObj [("body", JStr "{}")] in
     let run := @_send_signed_request Demo.runtime Demo.env_up Demo.bot "get" order_path
                  None initial_world in
     let req := @signed_request Demo.runtime Demo.bot (PyStr.upper "get") order_path
                  (stamped Demo.env_up None initial_world) in
     (fst run = inr v <->
      exists r, exchange Demo.env_up (http_calls initial_world) req = Answered r
                /\ (resp_status_code r < 400 \/ 600 <= resp_status_code r)
                /\ @json_loads Demo.runtime (resp_text r) = inr v)
     /\ (fst run = inr v ->
         exists r, exchange Demo.env_up (http_calls initial_world) req = Answered r
                   /\ events (snd run) =
                        (events initial_world ++
                         [@request_line Demo.runtime Demo.bot "get" order_path
                            (stamped Demo.env_up None initial_world);
                          EvHttp req;
                          EvLog INFO ("RESPONSE <- " ++ PyStr.str_int (resp_status_code r)
                                      ++ " " ++ resp_text r) None])%list).
Proof.
  split; [right; reflexivity|].
  apply (@send_returns_decoded_body Demo.runtime Demo.env_up). right. reflexivity.
Defined.

(** [post] and [POST]. *)
Lemma send_method_case_insensitive_witness :
  PyStr.upper "post" = PyStr.upper "POST"
  /\ (PyStr.upper "post" = "POST" \/ PyStr.upper "post" = "GET")
  /\ @_send_signed_request Demo.runtime Demo.env_up Demo.bot "post" order_path None
       initial_world =
     @_send_signed_request Demo.runtime Demo.env_up Demo.bot "POST" order_path None
       initial_world.
Proof.
  split; [reflexivity|]. split; [left; reflexivity|].
  apply (@send_method_case_insensitive Demo.runtime Demo.env_up);
    [reflexivity | left; reflexivity].
Defined.

(** The same one-entry mapping sent twice. *)
Lemma resend_refreshes_timestamp_witness :
  let w := Demo.world_with [("symbol", VStr "BTCUSDT")] in
  Dict.truthy (lookup (heap w) 0%nat) = true
  /\ let w1 := snd (@_send_signed_request Demo.runtime Demo.env_up Demo.bot "GET"
                      order_path (Some 0%nat) w) in
     let w2 := snd (@_send_signed_request Demo.runtime Demo.env_up Demo.bot "GET"
                      order_path (Some 0%nat) w1) in
     lookup (heap w2) 0%nat =
       Dict.set "timestamp" (VInt (clock Demo.env_up (S (clock_reads w))))
         (lookup (heap w) 0%nat)
     /\ Dict.keys (lookup (heap w2) 0%nat) = Dict.keys (lookup (heap w1) 0%nat)
     /\ List.length (heap w2) = List.length (heap w).
Proof.
  split; [reflexivity|].
  apply (@resend_refreshes_timestamp Demo.runtime Demo.env_up). reflexivity.
Defined.

(** Two slices and an interval of [-1.0]: the exception of
    [time.sleep] leaves the run. *)
Lemma place_twap_raises_only_witness :
  let e := ValueError "sleep length must be non-negative" in
  fst (@place_twap Demo.runtime Demo.env_up Demo.bot "BTCUSDT" "SELL" Demo.f_0_01 2
         Demo.f_minus_1 initial_world) = inl e
  /\ ((2 <= 0 /\ e = ValueError "slices must be >= 1")
      \/ (1 <= 2 /\ PyFloat.is_infinite (PyFloat.of_int 2) = true
          /\ e = OverflowError "int too large to convert to float")
      \/ (2 <= 2 /\ @sleep_error Demo.runtime Demo.f_minus_1 = Some e)).
Proof.
  assert (H : fst (@place_twap Demo.runtime Demo.env_up Demo.bot "BTCUSDT" "SELL"
                     Demo.f_0_01 2 Demo.f_minus_1 initial_world)
              = inl (ValueError "sleep length must be non-negative"))
    by (vm_compute; reflexivity).
  split; [exact H|].
  exact (@place_twap_raises_only Demo.runtime Demo.env_up Demo.bot "BTCUSDT" "SELL"
           Demo.f_0_01 2 Demo.f_minus_1 initial_world _ H).
Defined.

(** Three slices one second apart. *)
Lemma twap_paces_the_slices_witness :
  1 <= 3
  /\ PyFloat.is_infinite (PyFloat.of_int 3) = false
  /\ @sleep_error Demo.runtime Demo.f_1 = None
  /\ let q := PyFloat.div Demo.f_0_01 (PyFloat.of_int 3) in
     let w' := snd (@place_twap Demo.runtime Demo.env_up Demo.bot "BTCUSDT" "SELL"
                      Demo.f_0_01 3 Demo.f_1 initial_world) in
     actions (events w') =
       (actions (events initial_world) ++
        flat_map (fun j =>
                    Order (@market_request Demo.runtime Demo.bot "BTCUSDT" "SELL"
                             (PyFloat.round8 q) false
                             (clock Demo.env_up (clock_reads initial_world + j)))
                    :: (if Z.of_nat j <? 3 - 1 then [Pause Demo.f_1] else []))
                 (seq 0 (Z.to_nat 3)))%list.
Proof.
  split; [lia|]. split; [reflexivity|]. split; [reflexivity|].
  apply (@twap_paces_the_slices Demo.runtime Demo.env_up); [lia | reflexivity | reflexivity].
Defined.

(** A slice count of [2^1024]. *)
Lemma place_twap_rejects_huge_slice_count_witness :
  2 ^ 1024 <= 2 ^ 1024
  /\ @place_twap Demo.runtime Demo.env_up Demo.bot "BTCUSDT" "SELL" Demo.f_0_01 (2 ^ 1024)
       Demo.f_1 initial_world =
     (inl (OverflowError "int too large to convert to float"), initial_world).
Proof.
  split; [apply Z.le_refl|].
  apply (@place_twap_rejects_huge_slice_count Demo.runtime Demo.env_up). apply Z.le_refl.
Defined.

(** A LIMIT order without a price. *)
Lemma main_reports_rejected_arguments_witness :
  let a := {| arg_api_key := Some "demo-key";
              arg_api_secret := Some "demo-secret";
              arg_base_url := DEFAULT_TESTNET_BASE;
              arg_symbol := "BTCUSDT";
              arg_side := "buy";
              arg_type := "LIMIT";
              arg_quantity := Demo.f_0_01;
              arg_price := None;
              arg_stop_price := None;
              arg_time_in_force := "GTC";
              arg_twap_slices := 5;
              arg_twap_interval := Demo.f_1 |} in
  let e := SystemExit "LIMIT orders require --price" in
  fst (validate_args a initial_world) = inl e
  /\ @main Demo.runtime Demo.env_up a initial_world =
       (inl e,
        {| heap := heap initial_world;
           clock_reads := clock_reads initial_world;
           http_calls := http_calls initial_world;
           events := (events initial_world ++
                      [EvLog ERROR ("Argument validation failed: " ++ exn_str e) None])%list |}).
Proof.
  split; [reflexivity|].
  apply (@main_reports_rejected_arguments Demo.runtime Demo.env_up). reflexivity.
Defined.

Lemma demo_sleep_raises_exceptions (secs : float) (e : exn) :
  @sleep_error Demo.runtime secs = Some e -> is_Exception e = true.
Proof.
  cbn [sleep_error Demo.runtime]. unfold Demo.sleep_check.
  destruct secs as [s | [|] | | s m x]; try (intros [= <-]; reflexivity);
    destruct (SFltb _ _); intros [= <-]; reflexivity.
Qed.

(** A market order while the exchange cannot be reached. *)
Lemma main_returns_normally_witness :
  let a := Demo.market_args Demo.f_0_01 in
  fst (validate_args a initial_world) = inr tt
  /\ (forall secs e, @sleep_error Demo.runtime secs = Some e -> is_Exception e = true)
  /\ fst (@main Demo.runtime Demo.env_down a initial_world) = inr tt
  /\ (arg_type a <> "MARKET" -> arg_type a <> "LIMIT" -> arg_type a <> "STOP" ->
      arg_type a <> "TWAP" ->
      sent_requests (events (snd (@main Demo.runtime Demo.env_down a initial_world))) =
      sent_requests (events initial_world)).
Proof.
  split; [reflexivity|]. split; [exact demo_sleep_raises_exceptions|].
  apply (@main_returns_normally Demo.runtime Demo.env_down);
    [reflexivity | exact demo_sleep_raises_exceptions].
Defined.


(** A GET without parameters. *)
Lemma send_without_parameters_witness :
  (PyStr.upper "get" = "POST" \/ PyStr.upper "get" = "GET")
  /\ given_params None initial_world = []
  /\ let ts := clock Demo.env_up (clock_reads initial_world) in
     let query := "timestamp=" ++ PyStr.str_int ts in
     let w' := snd (@_send_signed_request Demo.runtime Demo.env_up Demo.bot "get"
                      "/fapi/v1/openOrders" None initial_world) in
     sent_requests (events w') =
       (sent_requests (events initial_world) ++
        [ {| req_method := PyStr.upper "get";
             req_url := (base_url Demo.bot ++ "/fapi/v1/openOrders") ++ "?" ++ query
                        ++ "&signature="
                        ++ @hmac_sha256_hexdigest Demo.runtime (api_secret Demo.bot) query;
             req_headers := session_headers Demo.bot;
             req_timeout := 10 |} ])%list
     /\ heap w' = (heap initial_world ++ [[("timestamp", VInt ts)]])%list.
Proof.
  split; [right; reflexivity|]. split; [reflexivity|].
  apply (@send_without_parameters Demo.runtime Demo.env_up); [right; reflexivity | reflexivity].
Defined.

(** An int and the string of its digits have the same query string. *)
Lemma urlencode_injective_witness :
  let d1 := [("recvWindow", VInt 5000)] in
  let d2 := [("recvWindow", VStr "5000")] in
  Url.urlencode d1 = Url.urlencode d2
  /\ map (fun kv => (fst kv, Url.value_str (snd kv))) d1 =
     map (fun kv => (fst kv, Url.value_str (snd kv))) d2.
Proof.
  split; [reflexivity|].
  apply urlencode_injective. reflexivity.
Defined.

(** Two slices one second apart, the second one failing. *)
Lemma twap_event_trace_witness :
  1 <= 2
  /\ PyFloat.is_infinite (PyFloat.of_int 2) = false
  /\ @sleep_error Demo.runtime Demo.f_1 = None
  /\ let q := PyFloat.div Demo.f_0_01 (PyFloat.of_int 2) in
     events (snd (@place_twap Demo.runtime (Demo.env_down_at 1) Demo.bot "BTCUSDT" "SELL"
                    Demo.f_0_01 2 Demo.f_1 initial_world)) =
       (events initial_world ++
        EvLog INFO ("Starting TWAP: " ++ "SELL" ++ " " ++ "BTCUSDT"
                    ++ " total_qty=" ++ @float_repr Demo.runtime Demo.f_0_01
                    ++ " slices=" ++ PyStr.str_int 2
                    ++ " interval=" ++ @float_repr Demo.runtime Demo.f_1) None
        :: flat_map (fun j =>
                       let o := @slice_outcome Demo.runtime (Demo.env_down_at 1) Demo.bot
                                  "BTCUSDT" "SELL" q
                                  (clock_reads initial_world) (http_calls initial_world) j in
                       [EvLog INFO ("TWAP slice " ++ PyStr.str_int (Z.of_nat j + 1) ++ "/"
                                    ++ PyStr.str_int 2 ++ ": qty="
                                    ++ @float_repr Demo.runtime q) None;
                        @request_line Demo.runtime Demo.bot "POST" order_path
                          (@stamped_market_params Demo.runtime "BTCUSDT" "SELL"
                             (PyFloat.round8 q) false
                             (clock (Demo.env_down_at 1) (clock_reads initial_world + j)));
                        EvHttp (@market_request Demo.runtime Demo.bot "BTCUSDT" "SELL"
                                  (PyFloat.round8 q) false
                                  (clock (Demo.env_down_at 1)
                                     (clock_reads initial_world + j)))]
                       ++ @send_events Demo.runtime o
                       ++ match @send_result Demo.runtime o with
                          | inl e =>
                              [EvLog ERROR ("Error executing TWAP slice "
                                            ++ PyStr.str_int (Z.of_nat j + 1)
                                            ++ ": " ++ exn_str e) (Some e)]
                          | inr _ => []
                          end
                       ++ (if Z.of_nat j <? 2 - 1 then [EvSleep Demo.f_1] else []))
                    (seq 0 (Z.to_nat 2)))%list.
Proof.
  split; [lia|]. split; [reflexivity|]. split; [reflexivity|].
  apply (@twap_event_trace Demo.runtime (Demo.env_down_at 1)); [lia | reflexivity | reflexivity].
Defined.

(** A market order while the exchange cannot be reached: two lines at
    level ERROR, and [Execution failed:] printed. *)
Lemma main_reports_the_outcome_witness :
  let a := Demo.market_args Demo.f_0_01 in
  fst (validate_args a initial_world) = inr tt
  /\ (arg_type a = "MARKET" \/ arg_type a = "LIMIT" \/ arg_type a = "STOP")
  /\ let run := @main Demo.runtime Demo.env_down a initial_world in
     exists req,
       sent_requests (events (snd run)) =
         (sent_requests (events initial_world) ++ [req])%list
       /\ match @send_result Demo.runtime
                  (exchange Demo.env_down (http_calls initial_world) req) with
          | inr v =>
              error_logs (events (snd run)) = error_logs (events initial_world)
              /\ exists before,
                   events (snd run) =
                     (before ++ [EvPrint ("Order response: "
                                          ++ @json_repr Demo.runtime v)])%list
          | inl e =>
              error_logs (events (snd run)) =
                (error_logs (events initial_world) ++
                 [EvLog ERROR ("HTTP error during signed request: " ++ exn_str e) (Some e);
                  EvLog ERROR ("Error executing order: " ++ exn_str e) (Some e)])%list
              /\ exists before,
                   events (snd run) =
                     (before ++ [EvPrint ("Execution failed: " ++ exn_str e)])%list
          end.
Proof.
  split; [reflexivity|]. split; [left; reflexivity|].
  apply (@main_reports_the_outcome Demo.runtime Demo.env_down);
    [reflexivity | left; reflexivity].
Defined.

(** A heap with one dict of one key. *)
Lemma operations_keep_keys_unique_witness :
  let w := Demo.world_with [("symbol", VStr "BTCUSDT")] in
  unique_keys (heap w)
  /\ (forall method path params,
         unique_keys (heap (snd (@_send_signed_request Demo.runtime Demo.env_up Demo.bot
                                   method path params w))))
  /\ (forall symbol side quantity reduce_only,
         unique_keys (heap (snd (@place_market_order Demo.runtime Demo.env_up Demo.bot
                                   symbol side quantity reduce_only w))))
  /\ (forall symbol side quantity price tif reduce_only,
         unique_keys (heap (snd (@place_limit_order Demo.runtime Demo.env_up Demo.bot
                                   symbol side quantity price tif reduce_only w))))
  /\ (forall symbol side quantity stop price tif,
         unique_keys (heap (snd (@place_stop_limit Demo.runtime Demo.env_up Demo.bot
                                   symbol side quantity stop price tif w))))
  /\ (forall symbol side quantity slices interval,
         unique_keys (heap (snd (@place_twap Demo.runtime Demo.env_up Demo.bot
                                   symbol side quantity slices interval w)))).
Proof.
  assert (H : unique_keys (heap (Demo.world_with [("symbol", VStr "BTCUSDT")]))).
  { repeat constructor. intros []. }
  split; [exact H|].
  exact (@operations_keep_keys_unique Demo.runtime Demo.env_up Demo.bot _ H).
Defined.

(** A TWAP of [0.01] in three slices from the command line. *)
Lemma main_prints_the_twap_log_witness :
  let a := {| arg_api_key := Some "demo-key";
              arg_api_secret := Some "demo-secret";
              arg_base_url := DEFAULT_TESTNET_BASE;
              arg_symbol := "BTCUSDT";
              arg_side := "sell";
              arg_type := "TWAP";
              arg_quantity := Demo.f_0_01;
              arg_price := None;
              arg_stop_price := None;
              arg_time_in_force := "GTC";
              arg_twap_slices := 3;
              arg_twap_interval := Demo.f_1 |} in
  fst (validate_args a initial_world) = inr tt
  /\ arg_type a = "TWAP"
  /\ 1 <= arg_twap_slices a < 2 ^ 1023
  /\ @sleep_error Demo.runtime (arg_twap_interval a) = None
  /\ let bot := {| api_key := unwrap (arg_api_key a);
                   api_secret := unwrap (arg_api_secret a);
                   base_url := PyStr.rstrip_char "/" (arg_base_url a);
                   session_headers := [("X-MBX-APIKEY", unwrap (arg_api_key a))] |} in
     let q := PyFloat.div (arg_quantity a) (PyFloat.of_int (arg_twap_slices a)) in
     fst (@main Demo.runtime Demo.env_up a initial_world) = inr tt
     /\ exists before,
          events (snd (@main Demo.runtime Demo.env_up a initial_world)) =
            (before ++
             EvPrint "TWAP responses:"
             :: map (fun j =>
                       EvPrint (@json_repr Demo.runtime
                                  (@slice_entry Demo.runtime
                                     (@slice_outcome Demo.runtime Demo.env_up bot
                                        (arg_symbol a) (PyStr.upper (arg_side a)) q
                                        (clock_reads initial_world)
                                        (http_calls initial_world) j))))
                    (seq 0 (Z.to_nat (arg_twap_slices a))))%list.
Proof.
  assert (HN : 1 <= 3 < 2 ^ 1023).
  { split; [lia|]. apply (Z.lt_trans _ (2 ^ 2)); [reflexivity|].
    apply Z.pow_lt_mono_r; lia. }
  split; [reflexivity|]. split; [reflexivity|]. split; [exact HN|].
  split; [reflexivity|].
  apply (@main_prints_the_twap_log Demo.runtime Demo.env_up);
    [reflexivity | reflexivity | exact HN | reflexivity].
Defined.
